(** * Narwhal connector library: credential federation and token refresh

    A shallow embedding of [libnar/libnar/libnar.py] and
    [libnar/libnar/multicloud.py]: the multi-cloud credential records, the
    storage factory, the AWS -> GCP / Azure token exchange pipeline, the
    refresh check and the filesystem proxy that runs it before every call.

    Conventions of the embedding.
    - A Python value that the code only moves around (JSON bodies, record
      fields, keyword arguments) is a [pyval]; floats do not occur.
    - A Python [str] is a [string] whose characters stand for code points
      below 256.
    - A dictionary is an association list in insertion order.
    - Mutable objects ([CredInfo], [CloudStorage]) live in a store and are
      passed by reference, as Python passes them.
    - Everything outside the two files (HTTP, boto3, the secret manager,
      SigV4 signing, the clock, [dateutil], the filesystem clients) is a field
      of the environment [Env]; every call into it is appended to the trace of
      the world, so that the order and the number of calls can be stated. *)

From Stdlib Require Import ZArith String Ascii List DecimalString.
From stdpp Require Import base tactics list strings.
Import ListNotations.
Open Scope Z_scope.
Set Warnings "-register-all".

(* ================================================================== *)
(** * Python values and exceptions *)
(* ================================================================== *)

Module Py.

Inductive pyval : Type :=
| PNone
| PBool (b : bool)
| PInt (z : Z)
| PStr (s : string)
| PList (l : list pyval)
| PDict (d : list (string * pyval)).

(** The exceptions the two files raise or let through.  [ExceptionFrom p e]
    is [Exception(f"{p}{e}")] raised in an [except Exception as e] handler. *)
Inductive PyExc : Type :=
| Exception_ (msg : string)
| ExceptionFrom (prefix : string) (cause : PyExc)
| ValueError (msg : string)
| KeyError (key : string)
| TypeError (msg : string)
| AttributeError (msg : string)
| NotImplementedError (msg : string)
| ModuleNotFoundError (msg : string)
| RecursionError
| HTTPStatusError (status : Z)
| LibraryError (origin msg : string).

Inductive outcome (A : Type) : Type :=
| Ok (a : A)
| Raise (e : PyExc).
Arguments Ok {A} a.
Arguments Raise {A} e.

Definition is_ok {A} (o : outcome A) : bool :=
  match o with Ok _ => true | Raise _ => false end.

(** [bool(v)] *)
Definition truthy (v : pyval) : bool :=
  match v with
  | PNone => false
  | PBool b => b
  | PInt z => negb (z =? 0)
  | PStr s => negb (String.eqb s "")
  | PList l => match l with [] => false | _ => true end
  | PDict d => match d with [] => false | _ => true end
  end.

(** [v is None] *)
Definition is_none (v : pyval) : bool :=
  match v with PNone => true | _ => false end.

(** [v == "literal"] *)
Definition eq_str (v : pyval) (s : string) : bool :=
  match v with PStr t => String.eqb t s | _ => false end.

(** [a or b] *)
Definition py_or (a b : pyval) : pyval := if truthy a then a else b.

Fixpoint assoc {A} (k : string) (d : list (string * A)) : option A :=
  match d with
  | [] => None
  | (k', v) :: d' => if String.eqb k' k then Some v else assoc k d'
  end.

(** [v.get(key)] *)
Definition get (v : pyval) (key : string) : outcome pyval :=
  match v with
  | PDict d => Ok (match assoc key d with Some x => x | None => PNone end)
  | _ => Raise (AttributeError "object has no attribute 'get'")
  end.

(** [v[key]] for a string key *)
Definition getitem (v : pyval) (key : string) : outcome pyval :=
  match v with
  | PDict d =>
      match assoc key d with Some x => Ok x | None => Raise (KeyError key) end
  | PList _ => Raise (TypeError "list indices must be integers or slices, not str")
  | PStr _ => Raise (TypeError "string indices must be integers")
  | _ => Raise (TypeError "object is not subscriptable")
  end.

(** [for x in v]: the sequence of values the loop visits. *)
Definition iterate (v : pyval) : outcome (list pyval) :=
  match v with
  | PList l => Ok l
  | PDict d => Ok (map (fun kv => PStr (fst kv)) d)
  | PStr s => Ok (map (fun c => PStr (String c EmptyString)) (list_ascii_of_string s))
  | _ => Raise (TypeError "object is not iterable")
  end.

(** ** [str] and [repr] *)

Definition dquote : ascii := ascii_of_N 34.
Definition squote : ascii := ascii_of_N 39.
Definition backslash : ascii := ascii_of_N 92.

Definition hex_digit (upper : bool) (n : N) : ascii :=
  if (n <? 10)%N then ascii_of_N (48 + n)
  else ascii_of_N ((if upper then 55 else 87) + n).

Definition hex2 (upper : bool) (n : N) : string :=
  String (hex_digit upper (n / 16)) (String (hex_digit upper (n mod 16)) EmptyString).

Definition str_of_Z (z : Z) : string := NilZero.string_of_int (Z.to_int z).

Fixpoint mem_char (c : ascii) (s : string) : bool :=
  match s with
  | EmptyString => false
  | String c' s' => if Ascii.eqb c c' then true else mem_char c s'
  end.

(** [str.isprintable] on one code point below 256 *)
Definition printable (n : N) : bool :=
  ((32 <=? n) && (n <? 127) || (161 <=? n) && negb (n =? 173))%N.

Definition repr_char (q : ascii) (c : ascii) : string :=
  let n := N_of_ascii c in
  if Ascii.eqb c q || Ascii.eqb c backslash then String backslash (String c EmptyString)
  else if (n =? 9)%N then String backslash "t"
  else if (n =? 10)%N then String backslash "n"
  else if (n =? 13)%N then String backslash "r"
  else if printable n then String c EmptyString
  else String backslash ("x" +:+ hex2 false n).

Definition repr_str (s : string) : string :=
  let q := if mem_char squote s && negb (mem_char dquote s) then dquote else squote in
  String q (String.concat "" (map (repr_char q) (list_ascii_of_string s)))
    +:+ String q EmptyString.

Fixpoint repr (v : pyval) : string :=
  match v with
  | PNone => "None"
  | PBool true => "True"
  | PBool false => "False"
  | PInt z => str_of_Z z
  | PStr s => repr_str s
  | PList l => "[" +:+ String.concat ", " (map repr l) +:+ "]"
  | PDict d =>
      "{" +:+ String.concat ", "
                (map (fun kv => repr_str (fst kv) +:+ ": " +:+ repr (snd kv)) d)
          +:+ "}"
  end.

(** [str(v)], the conversion an f-string applies *)
Definition str (v : pyval) : string :=
  match v with PStr s => s | _ => repr v end.

End Py.
Export Py.

(* ================================================================== *)
(** * [json.dumps] *)
(* ================================================================== *)

Module Json.

(** [json.encoder.py_encode_basestring_ascii] ([ensure_ascii=True]) *)
Definition escape_char (c : ascii) : string :=
  let n := N_of_ascii c in
  if Ascii.eqb c dquote then String backslash (String dquote EmptyString)
  else if Ascii.eqb c backslash then String backslash (String backslash EmptyString)
  else if (n =? 10)%N then String backslash "n"
  else if (n =? 13)%N then String backslash "r"
  else if (n =? 9)%N then String backslash "t"
  else if (n =? 8)%N then String backslash "b"
  else if (n =? 12)%N then String backslash "f"
  else if ((32 <=? n) && (n <=? 126))%N then String c EmptyString
  else String backslash ("u00" +:+ hex2 false n).

Definition encode_basestring_ascii (s : string) : string :=
  String dquote (String.concat "" (map escape_char (list_ascii_of_string s)))
    +:+ String dquote EmptyString.

(** [sorted(dct.items())]: the keys of a dictionary are distinct, so the
    order of the pairs is the order of their keys. *)
Fixpoint insert_item {A} (kv : string * A) (l : list (string * A)) : list (string * A) :=
  match l with
  | [] => [kv]
  | kv' :: l' =>
      if String.leb (fst kv) (fst kv') then kv :: l else kv' :: insert_item kv l'
  end.

Definition sorted_items {A} (d : list (string * A)) : list (string * A) :=
  fold_right insert_item [] d.

(** Apply [f] to the value of a pair. *)
Definition on_value {A B} (f : A -> B) (kv : string * A) : string * B := (fst kv, f (snd kv)).

(** [json.dumps(obj, separators=(item_sep, key_sep), sort_keys=sort_keys)] *)
Fixpoint dumps (item_sep key_sep : string) (sort_keys : bool) (obj : pyval) : string :=
  match obj with
  | PNone => "null"
  | PBool true => "true"
  | PBool false => "false"
  | PInt z => str_of_Z z
  | PStr s => encode_basestring_ascii s
  | PList l =>
      "[" +:+ String.concat item_sep (map (dumps item_sep key_sep sort_keys) l) +:+ "]"
  | PDict d =>
      let items :=
        map (fun kv => (fst kv, dumps item_sep key_sep sort_keys (snd kv))) d in
      let items := if sort_keys then sorted_items items else items in
      "{" +:+ String.concat item_sep
                (map (fun kv => encode_basestring_ascii (fst kv) +:+ key_sep +:+ snd kv)
                     items)
          +:+ "}"
  end.

(** ** Canonical JSON, as the specification words it

    Keys sorted, no whitespace between tokens: first bring every object
    into key order, then print with the bare separators. *)
Fixpoint sort_keys_deep (v : pyval) : pyval :=
  match v with
  | PList l => PList (map sort_keys_deep l)
  | PDict d => PDict (sorted_items (map (fun kv => (fst kv, sort_keys_deep (snd kv))) d))
  | _ => v
  end.

Fixpoint compact (v : pyval) : string :=
  match v with
  | PNone => "null"
  | PBool true => "true"
  | PBool false => "false"
  | PInt z => str_of_Z z
  | PStr s => encode_basestring_ascii s
  | PList l => "[" +:+ String.concat "," (map compact l) +:+ "]"
  | PDict d =>
      "{" +:+ String.concat ","
                (map (fun kv => encode_basestring_ascii (fst kv) +:+ ":" +:+ compact (snd kv)) d)
          +:+ "}"
  end.

Definition canonical_json (v : pyval) : string := compact (sort_keys_deep v).

(** Every object of [v], at any depth, lists its keys in ascending order. *)
Fixpoint keys_ascending (l : list string) : bool :=
  match l with
  | [] => true
  | k :: l' =>
      match l' with
      | [] => true
      | k' :: _ => String.leb k k' && keys_ascending l'
      end
  end.

Fixpoint keys_sorted (v : pyval) : bool :=
  match v with
  | PList l => forallb keys_sorted l
  | PDict d => keys_ascending (map fst d) && forallb (fun kv => keys_sorted (snd kv)) d
  | _ => true
  end.

End Json.

(* ================================================================== *)
(** * [urllib.parse.quote] *)
(* ================================================================== *)

Module Url.

(** The characters [quote] never encodes: letters, digits and [_.-~]. *)
Definition always_safe (n : N) : bool :=
  ((65 <=? n) && (n <=? 90) || (97 <=? n) && (n <=? 122) || (48 <=? n) && (n <=? 57)
   || (n =? 95) || (n =? 46) || (n =? 45) || (n =? 126))%N.

Definition quote_byte (safe : string) (n : N) : string :=
  if always_safe n || mem_char (ascii_of_N n) safe then String (ascii_of_N n) EmptyString
  else "%" +:+ hex2 true n.

(** The UTF-8 bytes of one code point below 256. *)
Definition utf8 (n : N) : list N :=
  if (n <? 128)%N then [n] else [(192 + n / 64)%N; (128 + n mod 64)%N].

Definition quote_with (safe : string) (s : string) : string :=
  String.concat ""
    (map (quote_byte safe) (concat (map (fun c => utf8 (N_of_ascii c)) (list_ascii_of_string s)))).

(** [urllib.parse.quote(s)], with its default [safe="/"] *)
Definition quote (s : string) : string := quote_with "/" s.

(** What a quoted string is made of. *)
Definition url_safe_char (c : ascii) : bool :=
  let n := N_of_ascii c in always_safe n || (n =? 47)%N || (n =? 37)%N.

End Url.


(* ================================================================== *)
(** * [datetime] values as [dateutil] produces them *)
(* ================================================================== *)

Module DateUtil.

(** The [tzinfo] of a parsed timestamp: absent, [tzutc()], or
    [tzoffset(None, seconds)]. *)
Inductive tzinfo : Type :=
| TzNaive
| TzUTC
| TzOffset (seconds : Z).

(** [wall] is the reading of the date and time fields, in microseconds
    since 1970-01-01T00:00:00 on the same wall clock. *)
Record datetime : Type := { wall : Z; tz : tzinfo }.

(** [t == tzutc()]: [tzutc.__eq__] accepts [tzutc] and a zero [tzoffset]. *)
Definition eq_tzutc (t : tzinfo) : bool :=
  match t with
  | TzNaive => false
  | TzUTC => true
  | TzOffset s => s =? 0
  end.

Definition instant (d : datetime) : option Z :=
  match tz d with
  | TzNaive => None
  | TzUTC => Some (wall d)
  | TzOffset s => Some (wall d - s * 1000000)
  end.

(** [a <= b] on [datetime] *)
Definition le (a b : datetime) : outcome bool :=
  match instant a, instant b with
  | Some x, Some y => Ok (x <=? y)
  | None, None => Ok (wall a <=? wall b)
  | _, _ => Raise (TypeError "can't compare offset-naive and offset-aware datetimes")
  end.

(** [datetime.now(tzutc())] when the clock reads [us] microseconds. *)
Definition now_utc (us : Z) : datetime := {| wall := us; tz := TzUTC |}.

(** ** A reference reading of [parser.isoparse]

    Only the shape [YYYY-MM-DDTHH:MM:SS] followed by nothing, [Z] or
    [+HH:MM] / [-HH:MM]: what [expireTime] values look like.  The pipeline
    itself takes [isoparse] from the environment. *)

Definition digit (c : ascii) : option Z :=
  let n := N_of_ascii c in
  if ((48 <=? n) && (n <=? 57))%N then Some (Z.of_N n - 48) else None.

Fixpoint digits (k : nat) (acc : Z) (l : list ascii) : option (Z * list ascii) :=
  match k with
  | O => Some (acc, l)
  | S k' =>
      match l with
      | c :: l' =>
          match digit c with
          | Some d => digits k' (acc * 10 + d) l'
          | None => None
          end
      | [] => None
      end
  end.

Definition expect (c : string) (l : list ascii) : option (list ascii) :=
  match l, list_ascii_of_string c with
  | x :: l', [y] => if Ascii.eqb x y then Some l' else None
  | _, _ => None
  end.

(** Days from 1970-01-01 to the given civil date. *)
Definition days_from_civil (y m d : Z) : Z :=
  let y' := if m <=? 2 then y - 1 else y in
  let era := y' / 400 in
  let yoe := y' - era * 400 in
  let mp := if m <=? 2 then m + 9 else m - 3 in
  let doy := (153 * mp + 2) / 5 + d - 1 in
  let doe := yoe * 365 + yoe / 4 - yoe / 100 + doy in
  era * 146097 + doe - 719468.

Definition parse_tz (l : list ascii) : option tzinfo :=
  match l with
  | [] => Some TzNaive
  | [c] => if Ascii.eqb c "Z" then Some TzUTC else None
  | c :: l' =>
      let sign := if Ascii.eqb c "+" then Some 1
                  else if Ascii.eqb c "-" then Some (-1) else None in
      match sign, digits 2 0 l' with
      | Some sg, Some (hh, l1) =>
          match expect ":" l1 with
          | Some l2 =>
              match digits 2 0 l2 with
              | Some (mm, []) =>
                  if (hh =? 0) && (mm =? 0) then Some TzUTC
                  else Some (TzOffset (sg * (hh * 60 + mm) * 60))
              | _ => None
              end
          | None => None
          end
      | _, _ => None
      end
  end.

Definition parse_seconds (l : list ascii) : option datetime :=
  '(y, l) ← digits 4 0 l; l ← expect "-" l;
  '(m, l) ← digits 2 0 l; l ← expect "-" l;
  '(d, l) ← digits 2 0 l; l ← expect "T" l;
  '(hh, l) ← digits 2 0 l; l ← expect ":" l;
  '(mi, l) ← digits 2 0 l; l ← expect ":" l;
  '(ss, l) ← digits 2 0 l;
  t ← parse_tz l;
  if (1 <=? m) && (m <=? 12) && (1 <=? d) && (d <=? 31)
     && (hh <? 24) && (mi <? 60) && (ss <? 60)
  then Some {| wall := (((days_from_civil y m d * 24 + hh) * 60 + mi) * 60 + ss) * 1000000;
               tz := t |}
  else None.

Definition isoparse_seconds (v : pyval) : outcome datetime :=
  match v with
  | PStr s =>
      match parse_seconds (list_ascii_of_string s) with
      | Some d => Ok d
      | None => Raise (ValueError "invalid ISO-8601 string")
      end
  | _ => Raise (TypeError "isoparse expects a string")
  end.

End DateUtil.

(* ================================================================== *)
(** * The classes of [multicloud.py] and [libnar.py] *)
(* ================================================================== *)

(** A reference to an object of the store. *)
Definition ref : Type := nat.

(** [azure.core.credentials.AccessToken] *)
Module AccessToken.
Record t : Type := { token : string; expires_on : Z }.
End AccessToken.

(** [AZTokenCredential]: hands out the [AccessToken] it was built with. *)
Module AZTokenCredential.
Record t : Type := { access_token : AccessToken.t }.
Definition get_token (self : t) (scopes : list string) : AccessToken.t :=
  access_token self.
End AZTokenCredential.

Module GCPCredInfo.
Record t : Type := {
  sa_email : pyval;
  audience : pyval;
  token_expiry : pyval;
  token : pyval;
  project : pyval;
  refresh_mode : pyval
}.
(** The defaults of the dataclass. *)
Definition default : t :=
  {| sa_email := PNone; audience := PNone; token_expiry := PNone;
     token := PNone; project := PNone; refresh_mode := PNone |}.
Definition set_token (v : pyval) (c : t) : t :=
  {| sa_email := sa_email c; audience := audience c; token_expiry := token_expiry c;
     token := v; project := project c; refresh_mode := refresh_mode c |}.
Definition set_token_expiry (v : pyval) (c : t) : t :=
  {| sa_email := sa_email c; audience := audience c; token_expiry := v;
     token := token c; project := project c; refresh_mode := refresh_mode c |}.
End GCPCredInfo.

Module AWSCredInfo.
Record t : Type := { id : pyval; secret : pyval; profile : pyval }.
Definition default : t := {| id := PNone; secret := PNone; profile := PNone |}.
Definition set_id (v : pyval) (c : t) : t :=
  {| id := v; secret := secret c; profile := profile c |}.
Definition set_secret (v : pyval) (c : t) : t :=
  {| id := id c; secret := v; profile := profile c |}.
End AWSCredInfo.

Module AZCredInfo.
Record t : Type := {
  account_name : pyval;
  tenant_id : pyval;
  client_id : pyval;
  client_secret : pyval;
  credential : option AZTokenCredential.t
}.
Definition set_credential (v : option AZTokenCredential.t) (c : t) : t :=
  {| account_name := account_name c; tenant_id := tenant_id c; client_id := client_id c;
     client_secret := client_secret c; credential := v |}.
End AZCredInfo.

(** [CredInfo] and its three subclasses. *)
Inductive CredInfo : Type :=
| GCP (c : GCPCredInfo.t)
| AWS (c : AWSCredInfo.t)
| AZ (c : AZCredInfo.t).

(** ** Filesystem clients

    An [fsspec] filesystem is known by its class and by the keyword arguments
    it was constructed with; the source never changes one after
    construction. *)
Inductive FsClass : Type := S3FileSystem | GCSFileSystem | AzureBlobFileSystem.

Inductive param : Type :=
| ParVal (v : pyval)
| ParCred (c : AZTokenCredential.t).

Module Handle.
Record t : Type := { cls : FsClass; params : list (string * param) }.
End Handle.

Module CloudStorage.
Record t : Type := {
  cloud_vendor : string;
  fs_use_async : bool;
  fs_anon : bool;
  fs : option Handle.t;
  fs_session : pyval;
  cred_info : option ref
}.
Definition set_fs_field (v : option Handle.t) (c : t) : t :=
  {| cloud_vendor := cloud_vendor c; fs_use_async := fs_use_async c; fs_anon := fs_anon c;
     fs := v; fs_session := fs_session c; cred_info := cred_info c |}.
Definition set_cred_info (v : option ref) (c : t) : t :=
  {| cloud_vendor := cloud_vendor c; fs_use_async := fs_use_async c; fs_anon := fs_anon c;
     fs := fs c; fs_session := fs_session c; cred_info := v |}.
End CloudStorage.

(** The fields of [Narcon] that the credential code reads. *)
Module Narcon.
Record t : Type := {
  cloud_vendor : string;
  infra_type : pyval;
  cred_info : option ref;
  debug : bool
}.
End Narcon.

(* ================================================================== *)
(** * The world outside the two files *)
(* ================================================================== *)

Module Host.

(** An [httpx] request as the source spells it out. *)
Record HttpRequest : Type := {
  rq_method : string;
  rq_url : string;
  rq_headers : list (string * string);
  rq_params : list (string * pyval);
  rq_data : option (list (string * pyval));
  rq_json : option pyval;
  rq_auth : option pyval          (* [BearerAuth(token)] *)
}.

Record Response : Type := {
  status_code : Z;
  body : option pyval             (* [None]: the body is not JSON *)
}.

(** [botocore.awsrequest.AWSRequest] *)
Record AWSRequest : Type := {
  aws_method : string;
  aws_url : string;
  aws_headers : list (string * pyval)
}.

(** [botocore] frozen credentials *)
Record FrozenCredentials : Type := {
  fc_access_key : pyval;
  fc_secret_key : pyval;
  fc_token : pyval
}.

Inductive Event : Type :=
| EvClock
| EvHttp (rq : HttpRequest)
| EvSecret (credentials : pyval) (path : string)
| EvBotoCredentials (explicit : option (pyval * pyval * pyval))
| EvBotoCall (service region operation : string) (kwargs : list (string * pyval))
| EvSigV4 (cred : FrozenCredentials) (service region : string) (request : AWSRequest)
| EvAzureToken (tenant_id client_id assertion : pyval) (scopes : list string)
| EvFsNew (h : Handle.t)
| EvFsCall (h : Handle.t) (name : string) (args : list pyval) (kwargs : list (string * pyval)).

(** The events that leave the machine. *)
Definition is_network (e : Event) : bool :=
  match e with
  | EvHttp _ | EvSecret _ _ | EvBotoCall _ _ _ _ | EvAzureToken _ _ _ _
  | EvFsCall _ _ _ _ => true
  | _ => false
  end.

(** What an attribute of a filesystem client is: a plain value or
    something callable. *)
Inductive Attr : Type :=
| AttrValue (v : pyval)
| AttrCallable.

(** Every answer may depend on everything that happened before. *)
Record Env : Type := {
  env_now : list Event -> Z;
  env_http : list Event -> HttpRequest -> outcome Response;
  env_secret : list Event -> pyval -> string -> outcome string;
  env_boto_credentials :
    list Event -> option (pyval * pyval * pyval) -> outcome FrozenCredentials;
  env_boto_client : list Event -> string -> string -> option PyExc;
  env_boto_call :
    list Event -> string -> string -> string -> list (string * pyval) -> outcome pyval;
  env_sigv4 :
    list Event -> FrozenCredentials -> string -> string -> AWSRequest ->
    outcome (list (string * pyval));
  env_azure_token :
    list Event -> pyval -> pyval -> pyval -> list string -> outcome AccessToken.t;
  env_isoparse : pyval -> outcome DateUtil.datetime;
  env_literal_eval : string -> outcome pyval;
  env_import : string -> bool;
  env_fs_new : list Event -> Handle.t -> option PyExc;
  env_fs_getattr : Handle.t -> string -> outcome Attr;
  env_fs_call :
    list Event -> Handle.t -> string -> list pyval -> list (string * pyval) -> outcome pyval
}.

Record World : Type := {
  creds : list CredInfo;
  storages : list CloudStorage.t;
  trace : list Event
}.

Definition with_creds (c : list CredInfo) (w : World) : World :=
  {| creds := c; storages := storages w; trace := trace w |}.
Definition with_storages (s : list CloudStorage.t) (w : World) : World :=
  {| creds := creds w; storages := s; trace := trace w |}.
Definition with_trace (t : list Event) (w : World) : World :=
  {| creds := creds w; storages := storages w; trace := t |}.

Definition empty_world : World := {| creds := []; storages := []; trace := [] |}.

(** ** Computations: state and exceptions *)

Definition M (A : Type) : Type := World -> outcome A * World.

Definition ret {A} (a : A) : M A := fun w => (Ok a, w).
Definition raise {A} (e : PyExc) : M A := fun w => (Raise e, w).
Definition bind {A B} (m : M A) (k : A -> M B) : M B :=
  fun w => match m w with
           | (Ok a, w') => k a w'
           | (Raise e, w') => (Raise e, w')
           end.
(** [try: m except Exception as e: h e] *)
Definition try_except {A} (m : M A) (h : PyExc -> M A) : M A :=
  fun w => match m w with
           | (Ok a, w') => (Ok a, w')
           | (Raise e, w') => h e w'
           end.
Definition lift {A} (o : outcome A) : M A := fun w => (o, w).

(** One call into the environment: the answer is computed from the trace
    so far, and the call is recorded. *)
Definition call {A} (ev : Event) (answer : list Event -> outcome A) : M A :=
  fun w => (answer (trace w), with_trace (trace w ++ [ev]) w).

Definition check (failure : list Event -> option PyExc) : M unit :=
  fun w => match failure (trace w) with
           | Some e => (Raise e, w)
           | None => (Ok tt, w)
           end.

(** ** The store *)

Definition dangling {A} : M A := raise (LibraryError "store" "dangling reference").

Definition new_cred (c : CredInfo) : M ref :=
  fun w => (Ok (length (creds w)), with_creds (creds w ++ [c]) w).
Definition read_cred (r : ref) : M CredInfo :=
  fun w => match creds w !! r with
           | Some c => (Ok c, w)
           | None => dangling w
           end.
Definition write_cred (r : ref) (c : CredInfo) : M unit :=
  fun w => (Ok tt, with_creds (<[r := c]> (creds w)) w).

Definition new_storage (c : CloudStorage.t) : M ref :=
  fun w => (Ok (length (storages w)), with_storages (storages w ++ [c]) w).
Definition read_storage (r : ref) : M CloudStorage.t :=
  fun w => match storages w !! r with
           | Some c => (Ok c, w)
           | None => dangling w
           end.
Definition write_storage (r : ref) (c : CloudStorage.t) : M unit :=
  fun w => (Ok tt, with_storages (<[r := c]> (storages w)) w).

End Host.
Export Host.

Declare Scope py_scope.
Delimit Scope py_scope with py.
Notation "x <- m ;; k" := (bind m (fun x => k))
  (at level 20, m at level 99, k at level 200, only parsing) : py_scope.
Notation "m ;; k" := (bind m (fun _ => k))
  (at level 100, k at level 200, only parsing, right associativity) : py_scope.
Open Scope py_scope.

(* ================================================================== *)
(** * [multicloud.py] *)
(* ================================================================== *)

Module Multicloud.

(** Current valid cloud vendors *)
Definition VALID_CLOUD_VENDORS : list string := ["aws"; "gcp"; "azure"].

(** [x in VALID_CLOUD_VENDORS] *)
Definition in_list (x : string) (l : list string) : bool := existsb (String.eqb x) l.

(** The keyword arguments [CloudStorage] accepts besides [cloud_vendor];
    [None] leaves the default of the dataclass. *)
Record Kwargs : Type := {
  kw_fs_use_async : option bool;
  kw_fs_anon : option bool;
  kw_fs : option Handle.t;
  kw_fs_session : option pyval;
  kw_cred_info : option ref
}.

Definition no_kwargs : Kwargs :=
  {| kw_fs_use_async := None; kw_fs_anon := None; kw_fs := None;
     kw_fs_session := None; kw_cred_info := None |}.

(** [CloudStorage(cloud_vendor, **kwargs)] *)
Definition CloudStorage_init (cloud_vendor : string) (kw : Kwargs) : CloudStorage.t :=
  {| CloudStorage.cloud_vendor := cloud_vendor;
     CloudStorage.fs_use_async := default false (kw_fs_use_async kw);
     CloudStorage.fs_anon := default false (kw_fs_anon kw);
     CloudStorage.fs := kw_fs kw;
     CloudStorage.fs_session := default PNone (kw_fs_session kw);
     CloudStorage.cred_info := kw_cred_info kw |}.

(** [CloudStorageFactory.create] *)
Definition create (cloud_vendor : string) (kw : Kwargs) : M ref :=
  if negb (in_list cloud_vendor VALID_CLOUD_VENDORS)
  then raise (ValueError ("Invalid cloud vendor: " +:+ cloud_vendor +:+ "!"))
  else new_storage (CloudStorage_init cloud_vendor kw).

Section WithEnv.
Variable env : Env.

(** [import name] inside a method *)
Definition import (name : string) : M unit :=
  if env_import env name then ret tt
  else raise (ModuleNotFoundError ("No module named '" +:+ name +:+ "'")).

(** A filesystem constructor, called with [params] as keyword arguments *)
Definition fs_new (cls : FsClass) (params : list (string * param)) : M Handle.t :=
  let h := {| Handle.cls := cls; Handle.params := params |} in
  call (EvFsNew h)
       (fun tr => match env_fs_new env tr h with Some e => Raise e | None => Ok h end).

(** [except ModuleNotFoundError: raise ModuleNotFoundError(msg)] *)
Definition missing_package {A} (msg : string) (e : PyExc) : M A :=
  match e with
  | ModuleNotFoundError _ => raise (ModuleNotFoundError msg)
  | _ => raise e
  end.

(** [self.cred_info], dereferenced for the [isinstance] tests *)
Definition cred_object (cs : CloudStorage.t) : M (option CredInfo) :=
  match CloudStorage.cred_info cs with
  | None => ret None
  | Some r => c <- read_cred r ;; ret (Some c)
  end.

Definition assign_fs (self : ref) (h : Handle.t) : M unit :=
  cs <- read_storage self ;;
  write_storage self (CloudStorage.set_fs_field (Some h) cs).

Definition _set_aws_fs (self : ref) : M unit :=
  try_except
    (import "s3fs" ;;
     cs <- read_storage self ;;
     let params := [("asynchronous", ParVal (PBool (CloudStorage.fs_use_async cs)));
                    ("anon", ParVal (PBool (CloudStorage.fs_anon cs)))] in
     ci <- cred_object cs ;;
     let params :=
       match ci with
       | Some (AWS c) =>
           if truthy (AWSCredInfo.id c) && truthy (AWSCredInfo.secret c)
           then params ++ [("key", ParVal (AWSCredInfo.id c));
                           ("secret", ParVal (AWSCredInfo.secret c))]
           else if truthy (AWSCredInfo.profile c)
                then params ++ [("profile", ParVal (AWSCredInfo.profile c))]
                else params
       | _ => params
       end in
     h <- fs_new S3FileSystem params ;;
     assign_fs self h)
    (missing_package "Missing the s3fs package!").

Definition _set_gcp_fs (self : ref) : M unit :=
  try_except
    (import "gcsfs" ;;
     cs <- read_storage self ;;
     let params := [("asynchronous", ParVal (PBool (CloudStorage.fs_use_async cs)))] in
     ci <- cred_object cs ;;
     let params :=
       match ci with
       | Some (GCP c) =>
           let params :=
             if truthy (GCPCredInfo.project c)
             then params ++ [("project", ParVal (GCPCredInfo.project c))] else params in
           if truthy (GCPCredInfo.token c)
           then params ++ [("token", ParVal (GCPCredInfo.token c))] else params
       | _ => params
       end in
     h <- fs_new GCSFileSystem params ;;
     assign_fs self h)
    (missing_package "Missing the gcsfs package!").

Definition _set_azure_fs (self : ref) : M unit :=
  try_except
    (import "adlfs" ;;
     cs <- read_storage self ;;
     let params := [("asynchronous", ParVal (PBool (CloudStorage.fs_use_async cs)));
                    ("anon", ParVal (PBool (CloudStorage.fs_anon cs)))] in
     ci <- cred_object cs ;;
     let params :=
       match ci with
       | Some (AZ c) =>
           let params :=
             match AZCredInfo.credential c with
             | Some cr =>
                 if truthy (AZCredInfo.account_name c)
                 then params ++ [("account_name", ParVal (AZCredInfo.account_name c));
                                 ("credential", ParCred cr)]
                 else params
             | None => params
             end in
           if truthy (AZCredInfo.tenant_id c) && truthy (AZCredInfo.client_id c)
              && truthy (AZCredInfo.client_secret c)
           then params ++ [("tenant_id", ParVal (AZCredInfo.tenant_id c));
                           ("client_id", ParVal (AZCredInfo.client_id c));
                           ("client_secret", ParVal (AZCredInfo.client_secret c))]
           else params
       | _ => params
       end in
     h <- fs_new AzureBlobFileSystem params ;;
     assign_fs self h)
    (missing_package "Missing the adlfs package!").

(** [getattr(self, f"_set_{self.cloud_vendor}_fs", None)] finds one of the
    three setters or nothing. *)
Definition set_fs (self : ref) : M unit :=
  cs <- read_storage self ;;
  let v := CloudStorage.cloud_vendor cs in
  if String.eqb v "aws" then _set_aws_fs self
  else if String.eqb v "gcp" then _set_gcp_fs self
  else if String.eqb v "azure" then _set_azure_fs self
  else raise (NotImplementedError ("Unsupported cloud vendor: " +:+ v)).

(** [get_fs]: build the client on first use, then hand out [self.fs]. *)
Definition get_fs (self : ref) : M (option Handle.t) :=
  cs <- read_storage self ;;
  (match CloudStorage.fs cs with
   | None => set_fs self
   | Some _ => ret tt
   end) ;;
  cs <- read_storage self ;;
  ret (CloudStorage.fs cs).

End WithEnv.

(** Does [needle] occur in [text]? *)
Fixpoint contains (needle text : string) : bool :=
  match text with
  | EmptyString => String.prefix needle EmptyString
  | String _ rest => String.prefix needle text || contains needle rest
  end.

(** A message that enumerates the valid set names every valid vendor. *)
Definition enumerates_valid_vendors (msg : string) : bool :=
  forallb (fun v => contains v msg) VALID_CLOUD_VENDORS.

End Multicloud.

(* ================================================================== *)
(** * [libnar.py] *)
(* ================================================================== *)

Module FSProxy.
(** [pre_method] is any callable of no arguments; what it returns is dropped. *)
Record t : Type := { fs_instance : option Handle.t; pre_method : M unit }.
End FSProxy.

Module Libnar.
Import Multicloud.

(** Cloud settings *)
Definition GCP_PROJECT_ID : string := "solution-eng-345114".
Definition AWS_EU_REGION : string := "eu-west-1".
Definition AWS_US_REGION : string := "us-east-1".
Definition DEFAULT_CLOUD_VENDOR : string := "aws".

(** SA accounts and multicloud attributes *)
Definition SAMA_EXT_SA : string := "sama-external@rd-prod-398911.iam.gserviceaccount.com".
Definition NARWHAL_SA : string := "narwhal-sa-smar@solution-eng-345114.iam.gserviceaccount.com".
Definition SAMA_EXT_AUDIENCE : string :=
  "//iam.googleapis.com/projects/459623805419/locations/global/workloadIdentityPools/sama-external/providers/sama-external".
Definition AZ_TARGET_SCOPES : list string := ["https://storage.azure.com/.default"].

Definition GCP_STS_URL : string := "https://sts.googleapis.com/v1/token".
Definition AWS_STS_URL : string :=
  "https://sts.amazonaws.com/?Action=GetCallerIdentity&Version=2011-06-15".

(** ** Library calls the methods make *)

(** [response.raise_for_status()]: [httpx] raises unless the status is 2xx. *)
Definition raise_for_status (r : Response) : outcome unit :=
  if (200 <=? status_code r) && (status_code r <=? 299) then Ok tt
  else Raise (HTTPStatusError (status_code r)).

(** [response.json()] *)
Definition json (r : Response) : outcome pyval :=
  match body r with
  | Some v => Ok v
  | None => Raise (LibraryError "json" "JSONDecodeError")
  end.

(** [SecretManagerServiceClient.secret_version_path] *)
Definition secret_version_path (project secret version : string) : string :=
  "projects/" +:+ project +:+ "/secrets/" +:+ secret +:+ "/versions/" +:+ version.

Definition no_attribute {A} (name : string) : M A :=
  raise (AttributeError ("object has no attribute '" +:+ name +:+ "'")).

(** [cred_info.name] on what should be a [GCPCredInfo] *)
Definition gcp_field {A} (cred_info : option ref) (name : string)
           (field : GCPCredInfo.t -> A) : M A :=
  match cred_info with
  | None => no_attribute name
  | Some r =>
      c <- read_cred r ;;
      match c with
      | GCP g => ret (field g)
      | _ => no_attribute name
      end
  end.

(** [cred_info.name = v] on a [GCPCredInfo] *)
Definition gcp_assign (cred_info : option ref) (name : string)
           (update : GCPCredInfo.t -> GCPCredInfo.t) : M unit :=
  match cred_info with
  | None => no_attribute name
  | Some r =>
      c <- read_cred r ;;
      match c with
      | GCP g => write_cred r (GCP (update g))
      | _ => no_attribute name
      end
  end.

(** [cred_info.name] on what should be an [AZCredInfo] *)
Definition az_field {A} (cred_info : option ref) (name : string)
           (field : AZCredInfo.t -> A) : M A :=
  match cred_info with
  | None => no_attribute name
  | Some r =>
      c <- read_cred r ;;
      match c with
      | AZ a => ret (field a)
      | _ => no_attribute name
      end
  end.

Definition az_assign (cred_info : option ref) (name : string)
           (update : AZCredInfo.t -> AZCredInfo.t) : M unit :=
  match cred_info with
  | None => no_attribute name
  | Some r =>
      c <- read_cred r ;;
      match c with
      | AZ a => write_cred r (AZ (update a))
      | _ => no_attribute name
      end
  end.

(** The [{url, method, headers}] token made from a signed request. *)
Definition signed_request_token (url method : string) (headers : list (string * pyval))
  : pyval :=
  PDict [("url", PStr url);
         ("method", PStr method);
         ("headers",
          PList (map (fun kv => PDict [("key", PStr (fst kv)); ("value", snd kv)]) headers))].

(** The unsigned [GetCallerIdentity] request. *)
Definition caller_identity_request (http_method : string) (audience : pyval) : AWSRequest :=
  {| aws_method := http_method;
     aws_url := AWS_STS_URL;
     aws_headers := [("Host", PStr "sts.amazonaws.com");
                     ("x-goog-cloud-target-resource", audience)] |}.

(** [httpx.post(gcp_sts_url, data=gcp_sts_payload)] of [get_gcp_sts_token] *)
Definition sts_exchange_request (audience : pyval) (subject_token : string)
           (gcp_sts_url : string) : HttpRequest :=
  let grant_type := "urn:ietf:params:oauth:grant-type:token-exchange" in
  let requested_token_type := "urn:ietf:params:oauth:token-type:access_token" in
  let subject_token_type := "urn:ietf:params:aws:token-type:aws4_request" in
  let scope := "https://www.googleapis.com/auth/cloud-platform" in
  let gcp_sts_payload :=
    [("audience", audience);
     ("grant_type", PStr grant_type);
     ("requested_token_type", PStr requested_token_type);
     ("scope", PStr scope);
     ("subject_token_type", PStr subject_token_type);
     ("subject_token", PStr subject_token)] in
  {| rq_method := "POST"; rq_url := gcp_sts_url;
     rq_headers := []; rq_params := [];
     rq_data := Some gcp_sts_payload;
     rq_json := None; rq_auth := None |}.

(** [a, b, c = v] *)
Definition unpack3 (v : pyval) : outcome (pyval * pyval * pyval) :=
  match iterate v with
  | Ok [a; b; c] => Ok (a, b, c)
  | Ok _ => Raise (ValueError "wrong number of values to unpack")
  | Raise e => Raise e
  end.

(** The loop of [get_sama_acc_info]: the first entry of the right type
    decides; [None] when the loop runs to its end.  A tuple is a
    [PList]. *)
Fixpoint scan_acc_info (cloud_vendor : string) (acc_info_arr : list pyval)
  : outcome (option pyval) :=
  match acc_info_arr with
  | [] => Ok None
  | acc_info :: rest =>
      match get acc_info "type" with
      | Raise e => Raise e
      | Ok ty =>
          if eq_str ty cloud_vendor && String.eqb cloud_vendor "azure" then
            match get acc_info "cloudProviderClientId",
                  get acc_info "cloudProviderTenantId",
                  get acc_info "prefix" with
            | Ok cid, Ok tid, Ok account_name => Ok (Some (PList [cid; tid; account_name]))
            | Raise e, _, _ | _, Raise e, _ | _, _, Raise e => Raise e
            end
          else if eq_str ty cloud_vendor && String.eqb cloud_vendor "gcp" then
            match get acc_info "serviceAccountEmail" with
            | Ok v => Ok (Some v)
            | Raise e => Raise e
            end
          else scan_acc_info cloud_vendor rest
      end
  end.

Section Methods.
Variable env : Env.
Variable self : Narcon.t.
(** [self.get_secret], which the methods below call and which calls back
    into [refresh_token_if_expired]; the knot is tied after the section. *)
Variable get_secret : string -> string -> M string.

Definition clock : M Z := call EvClock (fun tr => Ok (env_now env tr)).

Definition httpx_post (rq : HttpRequest) : M Response :=
  call (EvHttp rq) (fun tr => env_http env tr rq).
Definition httpx_get (rq : HttpRequest) : M Response :=
  call (EvHttp rq) (fun tr => env_http env tr rq).

(** [boto3.client(service, region_name=region)] and one operation of the
    client, called with [kwargs] *)
Definition boto_client (service region : string) : M unit :=
  check (fun tr => env_boto_client env tr service region).
Definition boto_call (service region operation : string)
           (kwargs : list (string * pyval)) : M pyval :=
  call (EvBotoCall service region operation kwargs)
       (fun tr => env_boto_call env tr service region operation kwargs).

(** [boto3.Session(...).get_credentials().get_frozen_credentials()] *)
Definition frozen_credentials (explicit : option (pyval * pyval * pyval))
  : M FrozenCredentials :=
  call (EvBotoCredentials explicit) (fun tr => env_boto_credentials env tr explicit).

(** [SigV4Auth(cred, service, region).add_auth(request)]: signing
    rewrites the headers of the request and nothing else. *)
Definition add_auth (cred : FrozenCredentials) (service region : string)
           (request : AWSRequest) : M AWSRequest :=
  headers <- call (EvSigV4 cred service region request)
                  (fun tr => env_sigv4 env tr cred service region request) ;;
  ret {| aws_method := aws_method request; aws_url := aws_url request;
         aws_headers := headers |}.

Definition get_cognito_token (open_id : bool) : M pyval :=
  pool_id <- get_secret "AWS_COGNITO_POOL_ID" "latest" ;;
  logins_text <- get_secret "AWS_COGNITO_LOGINS" "latest" ;;
  logins <- lift (env_literal_eval env logins_text) ;;
  boto_client "cognito-identity" AWS_EU_REGION ;;
  try_except
    (token_resp <- boto_call "cognito-identity" AWS_EU_REGION
                     "get_open_id_token_for_developer_identity"
                     [("IdentityPoolId", PStr pool_id); ("Logins", logins)] ;;
     open_id_token <- lift (get token_resp "Token") ;;
     if open_id then ret open_id_token
     else
       identity_id <- lift (get token_resp "IdentityId") ;;
       creds_resp <- boto_call "cognito-identity" AWS_EU_REGION
                       "get_credentials_for_identity"
                       [("IdentityId", identity_id);
                        ("Logins",
                         PDict [("cognito-identity.amazonaws.com", open_id_token)])] ;;
       lift (get creds_resp "Credentials"))
    (fun e => raise (ExceptionFrom "FAILED TO RETRIEVE COGNITO TOKEN: " e)).

Definition get_aws_cred_session (aws_cred : pyval) : M FrozenCredentials :=
  if truthy aws_cred then
    key_id <- lift (getitem aws_cred "AccessKeyId") ;;
    secret_key <- lift (getitem aws_cred "SecretKey") ;;
    session_token <- lift (getitem aws_cred "SessionToken") ;;
    frozen_credentials (Some (key_id, secret_key, session_token))
  else frozen_credentials None.

Definition get_aws_caller_identity (audience : pyval) (aws_cred : pyval)
           (http_method : string) : M string :=
  let request := caller_identity_request http_method audience in
  temp_cred <- get_aws_cred_session aws_cred ;;
  request <- add_auth temp_cred "sts" AWS_US_REGION request ;;
  let token := signed_request_token (aws_url request) (aws_method request)
                                    (aws_headers request) in
  ret (Url.quote (Json.dumps "," ":" true token)).

Definition get_gcp_sts_token (audience : pyval) (subject_token : string)
           (gcp_sts_url : string) : M pyval :=
  try_except
    (response <- httpx_post (sts_exchange_request audience subject_token gcp_sts_url) ;;
     lift (raise_for_status response) ;;
     data <- lift (json response) ;;
     lift (get data "access_token"))
    (fun e => raise (ExceptionFrom "FAILED TO RETRIEVE GCP STS TOKEN: " e)).

Definition impersonate_url (sa_email : pyval) : string :=
  "https://iamcredentials.googleapis.com/v1/projects/-/serviceAccounts/"
    +:+ str sa_email +:+ ":generateAccessToken".

Definition gcp_impersonate_token (sa_email : pyval) (gcp_token : pyval) : M pyval :=
  let url := impersonate_url sa_email in
  let headers := [("Content-Type", "application/json; charset=utf-8")] in
  let payload := [("scope", PList [PStr "https://www.googleapis.com/auth/cloud-platform"])] in
  let payload := if Narcon.debug self then payload ++ [("lifetime", PStr "10s")]
                 else payload in
  try_except
    (response <- httpx_post {| rq_method := "POST"; rq_url := url;
                               rq_headers := headers; rq_params := [];
                               rq_data := None;
                               rq_json := Some (PDict payload);
                               rq_auth := Some gcp_token |} ;;
     lift (raise_for_status response) ;;
     lift (json response))
    (fun e => raise (ExceptionFrom "FAILED TO GENERATE IMPERSONATED GCP TOKEN: " e)).

(** The two branches of [generate_access_token], up to [token_info]. *)
Definition internal_exchange (cred_info : option ref) : M pyval :=
  audience <- gcp_field cred_info "audience" GCPCredInfo.audience ;;
  subject_token <- get_aws_caller_identity audience PNone "POST" ;;
  audience <- gcp_field cred_info "audience" GCPCredInfo.audience ;;
  sts_token <- get_gcp_sts_token audience subject_token GCP_STS_URL ;;
  gcp_impersonate_token (PStr NARWHAL_SA) sts_token.

Definition external_exchange (cred_info : option ref) : M pyval :=
  aws_cred <- get_cognito_token false ;;
  subject_token <- get_aws_caller_identity (PStr SAMA_EXT_AUDIENCE) aws_cred "POST" ;;
  sts_token <- get_gcp_sts_token (PStr SAMA_EXT_AUDIENCE) subject_token GCP_STS_URL ;;
  sa_email <- gcp_field cred_info "sa_email" GCPCredInfo.sa_email ;;
  if is_none sa_email then raise (Exception_ "SA EMAIL NOT SET")
  else
    ext_info <- gcp_impersonate_token (PStr SAMA_EXT_SA) sts_token ;;
    ext_token <- lift (getitem ext_info "accessToken") ;;
    sa_email <- gcp_field cred_info "sa_email" GCPCredInfo.sa_email ;;
    gcp_impersonate_token sa_email ext_token.

Definition generate_access_token (cred_info : option ref) : M unit :=
  mode <- gcp_field cred_info "refresh_mode" GCPCredInfo.refresh_mode ;;
  token_info <-
    (if eq_str mode "internal" then
       token_info <- internal_exchange cred_info ;; ret (Some token_info)
     else if eq_str mode "external" then
       token_info <- external_exchange cred_info ;; ret (Some token_info)
     else ret None) ;;
  match token_info with
  | None => ret tt
  | Some token_info =>
      access_token <- lift (getitem token_info "accessToken") ;;
      gcp_assign cred_info "token" (GCPCredInfo.set_token access_token) ;;
      expire_time <- lift (getitem token_info "expireTime") ;;
      gcp_assign cred_info "token_expiry" (GCPCredInfo.set_token_expiry expire_time)
  end.

(** [get_token] of a [ClientAssertionCredential] built with
    [func = self.get_cognito_token]: the credential calls [func] for the
    assertion and sends it to Azure AD. *)
Definition client_assertion_token (tenant_id client_id : pyval) (scopes : list string)
  : M AccessToken.t :=
  assertion <- get_cognito_token true ;;
  call (EvAzureToken tenant_id client_id assertion scopes)
       (fun tr => env_azure_token env tr tenant_id client_id assertion scopes).

Definition refresh_token_if_expired (cred_info : option ref) (cloud_vendor : string)
  : M unit :=
  if String.eqb cloud_vendor "gcp" then
    token_expiry <- gcp_field cred_info "token_expiry" GCPCredInfo.token_expiry ;;
    expiry_time <- lift (env_isoparse env token_expiry) ;;
    if negb (DateUtil.eq_tzutc (DateUtil.tz expiry_time))
    then raise (ValueError "GCP TOKEN EXPIRY MUST BE IN UTC FORMAT!")
    else
      now <- clock ;;
      expired <- lift (DateUtil.le expiry_time (DateUtil.now_utc now)) ;;
      if (expired : bool) then generate_access_token cred_info else ret tt
  else if String.eqb cloud_vendor "azure" then
    credential <- az_field cred_info "credential" AZCredInfo.credential ;;
    match credential with
    | None => no_attribute "access_token"
    | Some credential =>
        let expiry_time :=
          AccessToken.expires_on (AZTokenCredential.access_token credential) in
        now <- clock ;;
        let current_time := Z.quot now 1000000 in
        if expiry_time <=? current_time then
          tenant_id <- az_field cred_info "tenant_id" AZCredInfo.tenant_id ;;
          client_id <- az_field cred_info "client_id" AZCredInfo.client_id ;;
          az_token <- client_assertion_token tenant_id client_id AZ_TARGET_SCOPES ;;
          az_assign cred_info "credential"
            (AZCredInfo.set_credential
               (Some {| AZTokenCredential.access_token := az_token |}))
        else ret tt
    end
  else ret tt.

Definition get_sama_acc_info (client_id : pyval) (cloud_vendor : string) : M pyval :=
  acc_url <- get_secret "ACCOUNTS_BASE_URL" "latest" ;;
  acc_key <- get_secret "ACCOUNTS_API_KEY" "latest" ;;
  let headers := [("Accept", "application/json"); ("X-API-Key", acc_key)] in
  let url := acc_url +:+ "/api/clients/" +:+ str client_id +:+ "/cloud-providers/info" in
  try_except
    (response <- httpx_get {| rq_method := "GET"; rq_url := url;
                              rq_headers := headers; rq_params := [];
                              rq_data := None; rq_json := None; rq_auth := None |} ;;
     lift (raise_for_status response) ;;
     data <- lift (json response) ;;
     acc_info_arr <- lift (get data "data") ;;
     found <- (if truthy acc_info_arr then
                 entries <- lift (iterate acc_info_arr) ;;
                 lift (scan_acc_info cloud_vendor entries)
               else ret None) ;;
     match found with
     | Some v => ret v
     | None => raise (Exception_ "SAMA ACCOUNT INFO IS EMPTY!")
     end)
    (fun e => raise (ExceptionFrom "COULD NOT RETRIEVE SAMA ACCOUNT INFO! " e)).

(** [cs.cred_info = obj] for a freshly built credential object *)
Definition attach_cred (cs : ref) (c : CredInfo) : M ref :=
  r <- new_cred c ;;
  s <- read_storage cs ;;
  write_storage cs (CloudStorage.set_cred_info (Some r) s) ;;
  ret r.

(** [cs.cred_info.name = v] on the [AWSCredInfo] of [cs] *)
Definition aws_assign (cs : ref) (name : string)
           (update : AWSCredInfo.t -> AWSCredInfo.t) : M unit :=
  s <- read_storage cs ;;
  match CloudStorage.cred_info s with
  | None => no_attribute name
  | Some r =>
      c <- read_cred r ;;
      match c with
      | AWS a => write_cred r (AWS (update a))
      | _ => no_attribute name
      end
  end.

Definition remote_storage (cloud_vendor : string) (client_id : pyval)
           (az_acc_name : pyval) : M (option ref) :=
  if String.eqb cloud_vendor "aws" then
    cs <- new_storage (CloudStorage_init cloud_vendor no_kwargs) ;;
    attach_cred cs (AWS AWSCredInfo.default) ;;
    (if eq_str (Narcon.infra_type self) "narwhal" then
       text <- get_secret "AWS_SAMA_PROD" "latest" ;;
       aws_secret <- lift (env_literal_eval env text) ;;
       id <- lift (getitem aws_secret "id") ;;
       aws_assign cs "id" (AWSCredInfo.set_id id) ;;
       key <- lift (getitem aws_secret "key") ;;
       aws_assign cs "secret" (AWSCredInfo.set_secret key)
     else ret tt) ;;
    ret (Some cs)
  else if truthy client_id then
    cs <- new_storage (CloudStorage_init cloud_vendor no_kwargs) ;;
    s <- read_storage cs ;;
    (if String.eqb (CloudStorage.cloud_vendor s) "gcp" then
       (match CloudStorage.cred_info s with
        | None =>
            sa_email <- get_sama_acc_info client_id cloud_vendor ;;
            attach_cred cs
              (GCP {| GCPCredInfo.sa_email := sa_email;
                      GCPCredInfo.audience := PNone;
                      GCPCredInfo.token_expiry := PNone;
                      GCPCredInfo.token := PNone;
                      GCPCredInfo.project := PNone;
                      GCPCredInfo.refresh_mode := PStr "external" |}) ;;
            ret tt
        | Some _ => ret tt
        end) ;;
       s <- read_storage cs ;;
       generate_access_token (CloudStorage.cred_info s)
     else if String.eqb (CloudStorage.cloud_vendor s) "azure" then
       info <- get_sama_acc_info client_id cloud_vendor ;;
       ids <- lift (unpack3 info) ;;
       let '(cid, tid, auto_az_acc_name) := ids in
       az_token <- client_assertion_token tid cid AZ_TARGET_SCOPES ;;
       attach_cred cs
         (AZ {| AZCredInfo.account_name := py_or az_acc_name auto_az_acc_name;
                AZCredInfo.tenant_id := tid;
                AZCredInfo.client_id := cid;
                AZCredInfo.client_secret := PNone;
                AZCredInfo.credential :=
                  Some {| AZTokenCredential.access_token := az_token |} |}) ;;
       ret tt
     else ret tt) ;;
    ret (Some cs)
  else ret None.

(** What [get_storage] hands out as [fs]: the client itself, or the
    client behind an [FSProxy]. *)
Inductive FileSystem : Type :=
| Direct (fs : option Handle.t)
| Proxied (p : FSProxy.t).

(** The [pre_method] that [get_storage] gives its proxy:
    [lambda: self.refresh_token_if_expired(cred_info=cs.cred_info, cloud_vendor=cv)] *)
Definition refresh_storage (cs : ref) (cv : string) : M unit :=
  s <- read_storage cs ;;
  refresh_token_if_expired (CloudStorage.cred_info s) cv.

(** [get_storage].  With [set_self] the pair goes to [self.cs], [self.fs]
    and the method returns [None]; the flag is returned with the pair. *)
Definition get_storage (cloud_vendor : option string) (client_id : pyval)
           (set_self : bool) (az_acc_name : pyval) : M (bool * ref * FileSystem) :=
  let cv := match cloud_vendor with
            | Some v => if String.eqb v "" then Narcon.cloud_vendor self else v
            | None => Narcon.cloud_vendor self
            end in
  cs <- remote_storage cv client_id az_acc_name ;;
  match cs with
  | None => raise (Exception_ "FAILED TO SETUP ClOUD STORAGE, PLEASE CHECK YOUR INPUTS!")
  | Some cs =>
      fs <- (if in_list cv ["gcp"; "azure"] then
               h <- get_fs env cs ;;
               ret (Proxied {| FSProxy.fs_instance := h;
                               FSProxy.pre_method := refresh_storage cs cv |})
             else
               h <- get_fs env cs ;; ret (Direct h)) ;;
      ret (set_self, cs, fs)
  end.

End Methods.

(** ** [FSProxy.__getattr__] *)

(** What attribute access on the proxy yields. *)
Inductive Attribute : Type :=
| Value (v : pyval)
| Wrapper (call : list pyval -> list (string * pyval) -> M pyval).

(** Calling a method of a filesystem client. *)
Definition fs_call (env : Env) (h : Handle.t) (name : string)
           (args : list pyval) (kwargs : list (string * pyval)) : M pyval :=
  call (EvFsCall h name args kwargs) (fun tr => env_fs_call env tr h name args kwargs).

(** Python hands [__getattr__] the names that normal lookup on the proxy
    does not find: every name but the two fields of the proxy itself.
    [attr] is looked up on [fs_instance] when the attribute is accessed;
    the wrapper runs [pre_method] when it is called. *)
Definition __getattr__ (env : Env) (self : FSProxy.t) (name : string) : outcome Attribute :=
  match FSProxy.fs_instance self with
  | None => Raise (AttributeError ("object has no attribute '" +:+ name +:+ "'"))
  | Some h =>
      match env_fs_getattr env h name with
      | Raise e => Raise e
      | Ok AttrCallable =>
          Ok (Wrapper (fun args kwargs =>
                         FSProxy.pre_method self ;;
                         fs_call env h name args kwargs))
      | Ok (AttrValue v) => Ok (Value v)
      end
  end.

(** ** [get_secret] and the bounded call stack

    [get_secret] refreshes the connector's own credential before it reads
    a secret, and refreshing may read secrets again.  [depth] bounds the
    nesting of [get_secret] calls, as the interpreter bounds the stack;
    beyond it the call raises [RecursionError]. *)

Definition get_secret_body (env : Env) (self : Narcon.t)
           (refresh : option ref -> string -> M unit)
           (secret_name version_id : string) : M string :=
  cred <- (match Narcon.cred_info self with
           | Some r =>
               token <- gcp_field (Some r) "token" GCPCredInfo.token ;;
               if truthy token then
                 refresh (Some r) "gcp" ;;
                 gcp_field (Some r) "token" GCPCredInfo.token
               else ret PNone
           | None => ret PNone
           end) ;;
  let secret_path := secret_version_path GCP_PROJECT_ID secret_name version_id in
  call (EvSecret cred secret_path) (fun tr => env_secret env tr cred secret_path).

Fixpoint get_secret (env : Env) (self : Narcon.t) (depth : nat)
  : string -> string -> M string :=
  match depth with
  | O => fun _ _ => raise RecursionError
  | S d =>
      get_secret_body env self
        (refresh_token_if_expired env self (get_secret env self d))
  end.

End Libnar.

(* ================================================================== *)
(** * A concrete environment

    One deployment to run the methods in: every service answers, the clock
    stands at 2024-03-01T00:00:00Z, and the token service hands out a token
    that has already expired the first time it is asked for one account and
    a fresh one afterwards. *)
(* ================================================================== *)

Module Demo.
Import Multicloud Libnar.

Definition NOW : Z := 1709251200000000.

Definition CLIENT_SA : string := "client-sa@example.iam.gserviceaccount.com".

Definition ok_json (v : pyval) : outcome Response :=
  Ok {| status_code := 200; body := Some v |}.

Definition token_info (access_token expire_time : string) : pyval :=
  PDict [("accessToken", PStr access_token); ("expireTime", PStr expire_time)].

(** Was [url] already requested? *)
Definition requested (url : string) (tr : list Event) : bool :=
  existsb (fun e => match e with EvHttp rq => String.eqb (rq_url rq) url | _ => false end) tr.

Definition account_token (url : string) (tr : list Event) : outcome Response :=
  if requested url tr
  then ok_json (token_info "TOKEN-2" "2024-03-01T01:00:00Z")
  else ok_json (token_info "TOKEN-1" "2024-02-29T23:59:59Z").

Definition http (tr : list Event) (rq : HttpRequest) : outcome Response :=
  let url := rq_url rq in
  if String.eqb url GCP_STS_URL then ok_json (PDict [("access_token", PStr "STS-TOKEN")])
  else if String.eqb url (impersonate_url (PStr SAMA_EXT_SA))
       then ok_json (token_info "BRIDGE-TOKEN" "2024-03-01T01:00:00Z")
  else if String.eqb url (impersonate_url (PStr CLIENT_SA)) then account_token url tr
  else if String.eqb url (impersonate_url (PStr NARWHAL_SA)) then account_token url tr
  else if String.eqb url "https://accounts.example/api/clients/client-1/cloud-providers/info"
       then ok_json (PDict [("data",
                             PList [PDict [("type", PStr "gcp");
                                           ("serviceAccountEmail", PStr CLIENT_SA)]])])
  else Ok {| status_code := 404; body := None |}.

Definition secret (tr : list Event) (cred : pyval) (path : string) : outcome string :=
  if String.eqb path (secret_version_path GCP_PROJECT_ID "ACCOUNTS_BASE_URL" "latest")
  then Ok "https://accounts.example"
  else if String.eqb path (secret_version_path GCP_PROJECT_ID "AWS_COGNITO_LOGINS" "latest")
       then Ok "{'login': 'narwhal'}"
  else Ok "secret".

Definition literal_eval (text : string) : outcome pyval :=
  if String.eqb text "{'login': 'narwhal'}" then Ok (PDict [("login", PStr "narwhal")])
  else Raise (ValueError "malformed node or string").

Definition boto_call (tr : list Event) (service region operation : string)
           (kwargs : list (string * pyval)) : outcome pyval :=
  if String.eqb operation "get_open_id_token_for_developer_identity"
  then Ok (PDict [("IdentityId", PStr "identity-1"); ("Token", PStr "OPENID-TOKEN")])
  else if String.eqb operation "get_credentials_for_identity"
       then Ok (PDict [("Credentials",
                        PDict [("AccessKeyId", PStr "AKIA-COGNITO");
                               ("SecretKey", PStr "SECRET-COGNITO");
                               ("SessionToken", PStr "SESSION-COGNITO")])])
  else Raise (LibraryError "botocore" "unknown operation").

Definition boto_credentials (tr : list Event) (explicit : option (pyval * pyval * pyval))
  : outcome FrozenCredentials :=
  match explicit with
  | Some (k, s, t) => Ok {| fc_access_key := k; fc_secret_key := s; fc_token := t |}
  | None => Ok {| fc_access_key := PStr "AKIA-ENV"; fc_secret_key := PStr "SECRET-ENV";
                  fc_token := PNone |}
  end.

Definition sigv4 (tr : list Event) (cred : FrozenCredentials) (service region : string)
           (request : AWSRequest) : outcome (list (string * pyval)) :=
  Ok (aws_headers request
        ++ [("X-Amz-Date", PStr "20240301T000000Z");
            ("Authorization",
             PStr ("AWS4-HMAC-SHA256 Credential=" +:+ str (fc_access_key cred)
                     +:+ "/20240301/" +:+ region +:+ "/" +:+ service
                     +:+ "/aws4_request, SignedHeaders=host;x-amz-date;x-goog-cloud-target-resource, Signature=0"))]).

Definition azure_token (tr : list Event) (tenant_id client_id assertion : pyval)
           (scopes : list string) : outcome AccessToken.t :=
  Ok {| AccessToken.token := "AZURE-TOKEN"; AccessToken.expires_on := 1709254800 |}.

Definition fs_getattr (h : Handle.t) (name : string) : outcome Attr :=
  if String.eqb name "protocol" then Ok (AttrValue (PStr "gs"))
  else if in_list name ["ls"; "put"; "get"; "exists"] then Ok AttrCallable
  else Raise (AttributeError ("object has no attribute '" +:+ name +:+ "'")).

Definition env : Env :=
  {| env_now := fun _ => NOW;
     env_http := http;
     env_secret := secret;
     env_boto_credentials := boto_credentials;
     env_boto_client := fun _ _ _ => None;
     env_boto_call := boto_call;
     env_sigv4 := sigv4;
     env_azure_token := azure_token;
     env_isoparse := DateUtil.isoparse_seconds;
     env_literal_eval := literal_eval;
     env_import := fun _ => true;
     env_fs_new := fun _ _ => None;
     env_fs_getattr := fs_getattr;
     env_fs_call := fun _ _ _ _ _ => Ok (PList []) |}.

(** The same deployment with another HTTP layer. *)
Definition with_http (h : list Event -> HttpRequest -> outcome Response) (e : Env) : Env :=
  {| env_now := env_now e;
     env_http := h;
     env_secret := env_secret e;
     env_boto_credentials := env_boto_credentials e;
     env_boto_client := env_boto_client e;
     env_boto_call := env_boto_call e;
     env_sigv4 := env_sigv4 e;
     env_azure_token := env_azure_token e;
     env_isoparse := env_isoparse e;
     env_literal_eval := env_literal_eval e;
     env_import := env_import e;
     env_fs_new := env_fs_new e;
     env_fs_getattr := env_fs_getattr e;
     env_fs_call := env_fs_call e |}.

(** A token endpoint that answers 200 with a body that carries no
    [access_token]. *)
Definition http_sts_without_token (tr : list Event) (rq : HttpRequest) : outcome Response :=
  if String.eqb (rq_url rq) GCP_STS_URL then ok_json (PDict [("token_type", PStr "Bearer")])
  else http tr rq.

(** An impersonation endpoint that answers 200 with an [accessToken] and
    no [expireTime]. *)
Definition http_without_expiry (tr : list Event) (rq : HttpRequest) : outcome Response :=
  if String.eqb (rq_url rq) (impersonate_url (PStr NARWHAL_SA))
  then ok_json (PDict [("accessToken", PStr "TOKEN-NEW")])
  else http tr rq.

(** A connector on AWS that holds no credential of its own. *)
Definition narcon : Narcon.t :=
  {| Narcon.cloud_vendor := "aws"; Narcon.infra_type := PStr "giver";
     Narcon.cred_info := None; Narcon.debug := false |}.

Definition gcp_record (mode sa_email token token_expiry : pyval) : CredInfo :=
  GCP {| GCPCredInfo.sa_email := sa_email;
         GCPCredInfo.audience := PStr "//iam.googleapis.com/projects/1/providers/giver-aws";
         GCPCredInfo.token_expiry := token_expiry;
         GCPCredInfo.token := token;
         GCPCredInfo.project := PNone;
         GCPCredInfo.refresh_mode := mode |}.

(** A connector that holds the credential at reference 0 as its own. *)
Definition narcon_with_cred : Narcon.t :=
  {| Narcon.cloud_vendor := "aws"; Narcon.infra_type := PStr "narwhal";
     Narcon.cred_info := Some 0%nat; Narcon.debug := false |}.

(** A world that holds one credential record, at reference 0. *)
Definition world_of (c : CredInfo) : World :=
  {| creds := [c]; storages := []; trace := [] |}.

(** The token a record holds, and the token a client was built with. *)
Definition token_at (r : ref) (w : World) : option pyval :=
  match creds w !! r with
  | Some (GCP g) => Some (GCPCredInfo.token g)
  | _ => None
  end.

Definition expiry_at (r : ref) (w : World) : option pyval :=
  match creds w !! r with
  | Some (GCP g) => Some (GCPCredInfo.token_expiry g)
  | _ => None
  end.

Definition built_with (h : Handle.t) : option param := assoc "token" (Handle.params h).

(** A session on GCP and one call through it:
    [cs, fs = narcon.get_storage("gcp", client_id="client-1")] and then
    [fs.ls("bucket")].  The worlds after either step and the client inside
    the proxy are kept. *)
Definition open_and_list : option (World * World * Handle.t) :=
  match get_storage env narcon (get_secret env narcon 3) (Some "gcp") (PStr "client-1")
          false PNone empty_world with
  | (Ok (_, _, Proxied p), w1) =>
      match __getattr__ env p "ls", FSProxy.fs_instance p with
      | Ok (Wrapper ls), Some h =>
          match ls [PStr "bucket"] [] w1 with
          | (Ok _, w2) => Some (w1, w2, h)
          | _ => None
          end
      | _, _ => None
      end
  | _ => None
  end.

End Demo.

(* ================================================================== *)
(** * [libnar.py]: setup, access keys and tasks *)
(* ================================================================== *)

(** The connector with the fields the task methods read besides those of
    [Narcon.t]. *)
Module Connector.
Record t : Type := {
  narcon : Narcon.t;
  project_id : pyval;
  task_id : pyval;
  fs : option Libnar.FileSystem
}.
End Connector.

Module Tasks.
Import Multicloud Libnar.

(** NPS settings *)
Definition DATA_STORE : string := "sama-narwhal-data-store".
Definition DELMITER : string := "--".
Definition BASE_PATH : string := "/app".

(** [self.create_path().joinpath("cred.json")] *)
Definition SETUP_PATH : string := BASE_PATH +:+ "/cred.json".

(** Exceptions of builtin classes, by class and argument. *)
Definition FileNotFoundError (msg : string) : PyExc := LibraryError "FileNotFoundError" msg.
Definition UnboundLocalError (name : string) : PyExc := LibraryError "UnboundLocalError" name.

(** The local machine: environment variables, the descriptor file,
    temporary files with their gzip and JSON coding, and [msgspec]
    validation. *)
Record Os : Type := {
  os_getenv : string -> option string;
  os_exists : string -> bool;
  os_read_json : string -> outcome pyval;
  os_tempfile : list Event -> outcome string;
  os_read_gz_json : list Event -> string -> outcome pyval;
  os_write_gz_json : list Event -> pyval -> outcome string;
  os_validate_dpp : pyval -> outcome pyval
}.

(** ** Names in the data store *)

Definition get_remote_task_name (project_id task_id : pyval) (suffix : string)
           (task_round : pyval) : string :=
  if truthy task_round
  then str project_id +:+ DELMITER +:+ str task_id +:+ DELMITER +:+ str task_round
         +:+ "." +:+ suffix
  else str project_id +:+ DELMITER +:+ str task_id +:+ "." +:+ suffix.

Definition create_remote_path (filename : string) : string :=
  DATA_STORE +:+ "/" +:+ filename.

(** A string without the character [c]. *)
Definition free_of (c : ascii) (s : string) : Prop := mem_char c s = false.

(** ** What the task methods hand back *)

(** [load_task] returns the data, or the exception as a value. *)
Inductive Loaded : Type :=
| Data (v : pyval)
| Failure (e : PyExc).

(** The two strings [retrieve_task_sama_api] formats, kept in parts:
    [f"Task retrieval failed with error: {status_code} {message}"] and
    [f"An unexpected error occurred: {str(e)}"]. *)
Inductive ErrorText : Type :=
| RetrievalFailed (status_code : Z) (message : pyval)
| Unexpected (e : PyExc).

(** What [retrieve_task_sama_api] and [get_task] return: a value, or one of
    the two strings. *)
Inductive TaskData : Type :=
| Task (v : pyval)
| Text (t : ErrorText).

(** [httpx.put(endpoint_url, auth=BearerAuth(key), json=task_data)] of
    [send_dpp] *)
Definition dpp_request (endpoint_url key : string) (task_data : pyval) : HttpRequest :=
  {| rq_method := "PUT"; rq_url := endpoint_url;
     rq_headers := []; rq_params := [];
     rq_data := None; rq_json := Some task_data;
     rq_auth := Some (PStr key) |}.

(** [httpx.get(url, headers=headers, params=querystring)] of
    [retrieve_task_sama_api] *)
Definition task_request (project_id task_id access_key : pyval) : HttpRequest :=
  let querystring := [("same_as_delivery", PStr "true"); ("access_key", access_key)] in
  let headers := [("Accept", "application/json")] in
  let url := "https://api.sama.com/v2/projects/" +:+ str project_id +:+ "/tasks/"
               +:+ str task_id +:+ ".json" in
  {| rq_method := "GET"; rq_url := url; rq_headers := headers;
     rq_params := querystring; rq_data := None; rq_json := None;
     rq_auth := None |}.

(** The name of the secret behind each kind of access key. *)
Definition access_key_name (key_type : string) : string :=
  if String.eqb key_type "primary" then "HUB_ACCESS_KEY" else "HUB_INTERNAL_KEY".

(** The third argument of [get_remote_task_name] for a round, or for none. *)
Definition round_argument (task_round : option string) : pyval :=
  match task_round with
  | Some r => PStr r
  | None => PNone
  end.

(** The URL [send_dpp] posts a task to. *)
Definition dpp_endpoint (base_url : string) (pid tid : pyval) : string :=
  base_url +:+ "api/v1/projects/" +:+ str pid +:+ "/tasks/" +:+ str tid +:+ "/post_processed".

(** The audience [nar_setup] derives from the descriptor. *)
Definition setup_audience (infra_type cv : pyval) : string :=
  "//iam.googleapis.com/projects/1024378210460/locations/global/workloadIdentityPools/nps-pool/providers/"
    +:+ str infra_type +:+ "-" +:+ str cv.

(** The record [nar_setup] creates: [GCPCredInfo(audience=..., refresh_mode="internal")] *)
Definition setup_record (gcp_audience : string) : CredInfo :=
  GCP {| GCPCredInfo.sa_email := PNone;
         GCPCredInfo.audience := PStr gcp_audience;
         GCPCredInfo.token_expiry := PNone;
         GCPCredInfo.token := PNone;
         GCPCredInfo.project := PNone;
         GCPCredInfo.refresh_mode := PStr "internal" |}.

(** The connector as [nar_setup] has it once the descriptor is read: its
    [infra_type] and [cred_info] assigned, the rest as built. *)
Definition set_up (narcon : Narcon.t) (infra_type : pyval) (r : ref) : Narcon.t :=
  {| Narcon.cloud_vendor := Narcon.cloud_vendor narcon;
     Narcon.infra_type := infra_type;
     Narcon.cred_info := Some r;
     Narcon.debug := Narcon.debug narcon |}.

(** [d.get(key, default)] *)
Definition get_default (v : pyval) (key : string) (default_value : pyval) : outcome pyval :=
  match v with
  | PDict d => Ok (match assoc key d with Some x => x | None => default_value end)
  | _ => Raise (AttributeError "object has no attribute 'get'")
  end.

Section Methods.
Variable env : Env.
Variable os : Os.
Variable self : Connector.t.
Variable get_secret : string -> string -> M string.

(** [os.getenv(name) or self.get_secret(name)] *)
Definition getenv_or_secret (name : string) : M string :=
  match os_getenv os name with
  | Some v => if String.eqb v "" then get_secret name "latest" else ret v
  | None => get_secret name "latest"
  end.

Definition get_access_key (key_type : string) : M string :=
  if negb (in_list key_type ["primary"; "secondary"])
  then raise (Exception_ "INVALID KEY TYPE!")
  else
    let secret_name := access_key_name key_type in
    access_key <- getenv_or_secret secret_name ;;
    if negb (String.eqb access_key "") then ret access_key
    else raise (Exception_ ("COULD NOT RETRIEVE "
                              +:+ (if String.eqb key_type "primary" then "PRIMARY"
                                   else "SECONDARY")
                              +:+ " ACCESS KEY!")).

Definition httpx_put (rq : HttpRequest) : M Response :=
  call (EvHttp rq) (fun tr => env_http env tr rq).

(** [self.fs.name(args)]: the attribute, then the call. *)
Definition fs_method (name : string) (args : list pyval) : M pyval :=
  match Connector.fs self with
  | None | Some (Direct None) => no_attribute name
  | Some (Direct (Some h)) =>
      match env_fs_getattr env h name with
      | Raise e => raise e
      | Ok AttrCallable => fs_call env h name args []
      | Ok (AttrValue _) => raise (TypeError "object is not callable")
      end
  | Some (Proxied p) =>
      match __getattr__ env p name with
      | Raise e => raise e
      | Ok (Wrapper call) => call args []
      | Ok (Value _) => raise (TypeError "object is not callable")
      end
  end.

Definition store_task (task : pyval) (remote_path : string) (add_prefix : bool) : M bool :=
  let r_path := if add_prefix then create_remote_path remote_path else remote_path in
  try_except
    (temp_name <- (fun w => (os_write_gz_json os (trace w) task, w)) ;;
     fs_method "put" [PStr temp_name; PStr r_path] ;;
     ret true)
    (fun _ => ret false).

Definition load_task (remote_path : string) (add_prefix : bool) : M Loaded :=
  let r_path := if add_prefix then create_remote_path remote_path else remote_path in
  try_except
    (found <- fs_method "exists" [PStr r_path] ;;
     if truthy found then
       temp_name <- (fun w => (os_tempfile os (trace w), w)) ;;
       fs_method "get" [PStr r_path; PStr temp_name] ;;
       data <- (fun w => (os_read_gz_json os (trace w) temp_name, w)) ;;
       ret (Data data)
     else ret (Failure (FileNotFoundError ("FILE NOT FOUND: " +:+ r_path))))
    (fun e => ret (Failure e)).

(** [httpx.get] raises when the request cannot be made; a status error
    comes from [raise_for_status] and carries the response. *)
Definition retrieve_task_sama_api (project_id task_id access_key : pyval) : M TaskData :=
  fun w =>
    match httpx_get env (task_request project_id task_id access_key) w with
    | (Raise e, w') => (Ok (Text (Unexpected e)), w')
    | (Ok response, w') =>
        match raise_for_status response with
        | Ok _ =>
            match json response with
            | Raise e => (Ok (Text (Unexpected e)), w')
            | Ok data =>
                match get data "task" with
                | Raise e => (Ok (Text (Unexpected e)), w')
                | Ok task => (Ok (Task task), w')
                end
            end
        | Raise _ =>
            match json response with
            | Raise e => (Raise e, w')
            | Ok data =>
                match get_default data "message" (PStr "No message provided") with
                | Raise e => (Raise e, w')
                | Ok message =>
                    (Ok (Text (RetrievalFailed (status_code response) message)), w')
                end
            end
        end
    end.

Definition get_task (project_id task_id task_round access_key : pyval) (delivery : bool)
  : M TaskData :=
  let pid := py_or project_id (Connector.project_id self) in
  let tid := py_or task_id (Connector.task_id self) in
  if truthy pid && truthy tid then
    let r_path := get_remote_task_name pid tid "gz" task_round in
    task_data <- load_task r_path true ;;
    match task_data with
    | Failure e =>
        if delivery then
          access_key <- (if truthy access_key then ret access_key
                         else key <- get_access_key "primary" ;; ret (PStr key)) ;;
          retrieve_task_sama_api pid tid access_key
        else raise e
    | Data v => ret (Task v)
    end
  else raise (Exception_ "MISSING PROJECT OR TASK ID!").

(** In the handler for [httpx.HTTPStatusError] the message reads [e], the
    name the next handler binds: it is a local without a value there. *)
Definition send_dpp (task project_id task_id : pyval) : M bool :=
  let pid := py_or project_id (Connector.project_id self) in
  let tid := py_or task_id (Connector.task_id self) in
  task_data <- lift (os_validate_dpp os task) ;;
  let kiki_url := "KIKI_BASE_URL_PROD" in
  let dpp_url := "DPP_KEY_PROD" in
  base_url <- getenv_or_secret kiki_url ;;
  if negb (String.eqb base_url "") then
    let endpoint_url := dpp_endpoint base_url pid tid in
    key <- getenv_or_secret dpp_url ;;
    if negb (String.eqb key "") then
      try_except
        (response <- httpx_put (dpp_request endpoint_url key task_data) ;;
         lift (raise_for_status response) ;;
         ret true)
        (fun e => match e with
                  | HTTPStatusError _ => raise (UnboundLocalError "e")
                  | _ => raise (ExceptionFrom "GENERAL EXCEPTION: " e)
                  end)
    else raise (KeyError ("MISSING REQUIRED VALUES: " +:+ String.concat ", " [dpp_url]))
  else raise (UnboundLocalError "key").

End Methods.

(** [nar_setup], run by [__post_init__]: the connector it leaves.  The
    record is attached to the connector before the pipeline runs on it. *)
Definition nar_setup (env : Env) (os : Os) (narcon : Narcon.t) (depth : nat) : M Narcon.t :=
  if os_exists os SETUP_PATH
     && match Narcon.cred_info narcon with None => true | Some _ => false end
  then
    meta <- lift (os_read_json os SETUP_PATH) ;;
    infra_type <- lift (get meta "infra_type") ;;
    if truthy infra_type then
      cv <- lift (get meta "cloud") ;;
      if truthy cv then
        r <- new_cred (setup_record (setup_audience infra_type cv)) ;;
        let narcon' := {| Narcon.cloud_vendor := Narcon.cloud_vendor narcon;
                          Narcon.infra_type := infra_type;
                          Narcon.cred_info := Some r;
                          Narcon.debug := Narcon.debug narcon |} in
        generate_access_token env narcon' (Libnar.get_secret env narcon' depth) (Some r) ;;
        ret narcon'
      else raise (Exception_ "INFRA_TYPE OR CLOUD NOT FOUND IN SETUP FILE!")
    else raise (Exception_ "INFRA_TYPE OR CLOUD NOT FOUND IN SETUP FILE!")
  else ret narcon.

End Tasks.

(** ** Vocabulary for the properties of the storage clients *)

Module Clients.
Import Multicloud.

(** The package each setter imports. *)
Definition package_of (cloud_vendor : string) : string :=
  if String.eqb cloud_vendor "aws" then "s3fs"
  else if String.eqb cloud_vendor "gcp" then "gcsfs"
  else "adlfs".

(** A keyword argument of a client, if it was given. *)
Definition keyword (name : string) (h : Handle.t) : option param :=
  assoc name (Handle.params h).

(** [Some v] when [v] is truthy, as the setters pass a field on. *)
Definition if_set (v : pyval) : option param :=
  if truthy v then Some (ParVal v) else None.

(** The vendor [get_storage] works with: [cloud_vendor or self.cloud_vendor]. *)
Definition chosen_vendor (self : Narcon.t) (cloud_vendor : option string) : string :=
  match cloud_vendor with
  | Some v => if String.eqb v "" then Narcon.cloud_vendor self else v
  | None => Narcon.cloud_vendor self
  end.

(** The request [gcp_impersonate_token] posts. *)
Definition impersonation_request (debug : bool) (sa_email gcp_token : pyval) : HttpRequest :=
  {| rq_method := "POST";
     rq_url := Libnar.impersonate_url sa_email;
     rq_headers := [("Content-Type", "application/json; charset=utf-8")];
     rq_params := [];
     rq_data := None;
     rq_json :=
       Some (PDict ([("scope", PList [PStr "https://www.googleapis.com/auth/cloud-platform"])]
                      ++ (if debug then [("lifetime", PStr "10s")] else [])));
     rq_auth := Some gcp_token |}.

(** The keys an explicit AWS credential must have, in the order they are
    read. *)
Definition SESSION_KEYS : list string := ["AccessKeyId"; "SecretKey"; "SessionToken"].

(** Every record of [w] that is not a [GCPCredInfo] is in [w'] unchanged. *)
Definition others_kept (w w' : World) : Prop :=
  forall (r : ref) c,
    creds w !! r = Some c -> (forall g, c <> GCP g) -> creds w' !! r = Some c.

Definition keeps_others {A} (m : M A) : Prop := forall w, others_kept w (snd (m w)).

End Clients.

(** ** A machine for the concrete environment *)

Module DemoTasks.
Import Multicloud Libnar Tasks.

(** The descriptor says [narwhal] on [aws]; one access key is set in the
    environment; nothing is in the data store. *)
Definition os : Os :=
  {| os_getenv := fun name => if String.eqb name "HUB_ACCESS_KEY" then Some "ENV-KEY"
                              else None;
     os_exists := fun path => String.eqb path SETUP_PATH;
     os_read_json := fun _ => Ok (PDict [("infra_type", PStr "narwhal");
                                         ("cloud", PStr "aws")]);
     os_tempfile := fun _ => Ok "/tmp/tmp0";
     os_read_gz_json := fun _ _ => Ok (PDict [("round", PInt 1)]);
     os_write_gz_json := fun _ _ => Ok "/tmp/tmp0.gz";
     os_validate_dpp := fun v => Ok v |}.

(** A filesystem whose [exists] answers [False]. *)
Definition empty_store : Handle.t :=
  {| Handle.cls := S3FileSystem; Handle.params := [] |}.

Definition fs_call_empty (tr : list Event) (h : Handle.t) (name : string)
           (args : list pyval) (kwargs : list (string * pyval)) : outcome pyval :=
  if String.eqb name "exists" then Ok (PBool false) else Ok PNone.

(** The Sama API answers every task request with 404 and a message. *)
Definition http_task_not_found (tr : list Event) (rq : HttpRequest) : outcome Response :=
  Ok {| status_code := 404; body := Some (PDict [("message", PStr "Task not found")]) |}.

Definition env : Env :=
  {| env_now := env_now Demo.env;
     env_http := http_task_not_found;
     env_secret := env_secret Demo.env;
     env_boto_credentials := env_boto_credentials Demo.env;
     env_boto_client := env_boto_client Demo.env;
     env_boto_call := env_boto_call Demo.env;
     env_sigv4 := env_sigv4 Demo.env;
     env_azure_token := env_azure_token Demo.env;
     env_isoparse := env_isoparse Demo.env;
     env_literal_eval := env_literal_eval Demo.env;
     env_import := env_import Demo.env;
     env_fs_new := env_fs_new Demo.env;
     env_fs_getattr := env_fs_getattr Demo.env;
     env_fs_call := fs_call_empty |}.

Definition connector : Connector.t :=
  {| Connector.narcon := Demo.narcon;
     Connector.project_id := PStr "project-7";
     Connector.task_id := PStr "task-9";
     Connector.fs := Some (Direct (Some empty_store)) |}.

End DemoTasks.

(* ================================================================== *)
(** * What a computation may do to the credential records *)
(* ================================================================== *)

Module Frame.

(** Two states of one [GCPCredInfo]: all fields but [token] and
    [token_expiry] agree. *)
Definition same_identity (g g' : GCPCredInfo.t) : Prop :=
  GCPCredInfo.sa_email g' = GCPCredInfo.sa_email g
  /\ GCPCredInfo.audience g' = GCPCredInfo.audience g
  /\ GCPCredInfo.project g' = GCPCredInfo.project g
  /\ GCPCredInfo.refresh_mode g' = GCPCredInfo.refresh_mode g.

(** Every GCP record of [w] is still there in [w'], with the same
    identity. *)
Definition extends (w w' : World) : Prop :=
  forall (r : ref) g,
    creds w !! r = Some (GCP g) ->
    exists g', creds w' !! r = Some (GCP g') /\ same_identity g g'.

Definition frames {A} (m : M A) : Prop := forall w, extends w (snd (m w)).

(** A computation that only talks to the outside: the store is the one it
    started from. *)
Definition silent {A} (m : M A) : Prop :=
  forall w, creds (snd (m w)) = creds w /\ storages (snd (m w)) = storages w.

End Frame.

(* ================================================================== *)
(** * Properties *)
(* ================================================================== *)

Import Json Multicloud Libnar.

(** ** Running computations *)

Lemma bind_ok {A B} (m : M A) (k : A -> M B) w a w' :
  m w = (Ok a, w') -> bind m k w = k a w'.
Proof. intros H. unfold bind. now rewrite H. Qed.

Lemma bind_raise {A B} (m : M A) (k : A -> M B) w e w' :
  m w = (Raise e, w') -> bind m k w = (Raise e, w').
Proof. intros H. unfold bind. now rewrite H. Qed.

Lemma gcp_field_read {A} (field : GCPCredInfo.t -> A) name r g w :
  creds w !! r = Some (GCP g) ->
  gcp_field (Some r) name field w = (Ok (field g), w).
Proof. intros H. unfold gcp_field, bind, read_cred. now rewrite H. Qed.

Lemma lift_ok {A} (o : outcome A) a w : o = Ok a -> lift o w = (Ok a, w).
Proof. intros ->. reflexivity. Qed.

Lemma gcp_assign_write name update (r : ref) g w :
  creds w !! r = Some (GCP g) ->
  gcp_assign (Some r) name update w
  = (Ok tt, with_creds (<[r := GCP (update g)]> (creds w)) w).
Proof. intros H. unfold gcp_assign, bind, read_cred, write_cred. now rewrite H. Qed.

(** ** The refresh check *)

(** C9.  With [cloud_vendor = "aws"] the refresh check returns at once:
    whatever record it is given, the store and the trace are those it
    started from, so no field is written and no exchange is run. *)
Theorem refresh_gate_aws_noop env self gs (cred_info : option ref) (w : World) :
  refresh_token_if_expired env self gs cred_info "aws" w = (Ok tt, w).
Proof.
  unfold refresh_token_if_expired.
  change (String.eqb "aws" "gcp") with false.
  change (String.eqb "aws" "azure") with false.
  reflexivity.
Qed.

(** C5.  A [token_expiry] that parses to a timestamp whose zone is not UTC
    makes the refresh check raise [ValueError] in the world it started
    from: the clock has not been read, nothing was compared and no exchange
    was started. *)
Theorem non_utc_expiry_rejected env self gs (r : ref) g dt (w : World) :
  creds w !! r = Some (GCP g) ->
  env_isoparse env (GCPCredInfo.token_expiry g) = Ok dt ->
  DateUtil.eq_tzutc (DateUtil.tz dt) = false ->
  refresh_token_if_expired env self gs (Some r) "gcp" w
  = (Raise (ValueError "GCP TOKEN EXPIRY MUST BE IN UTC FORMAT!"), w).
Proof.
  intros Hr Hparse Hzone.
  unfold refresh_token_if_expired. cbn [String.eqb Ascii.eqb Bool.eqb].
  rewrite (bind_ok _ _ _ _ _ (gcp_field_read _ _ _ _ _ Hr)).
  unfold bind at 1. unfold lift. rewrite Hparse, Hzone. reflexivity.
Qed.

Lemma non_utc_expiry_witness :
  refresh_token_if_expired Demo.env Demo.narcon (get_secret Demo.env Demo.narcon 3)
    (Some 0%nat) "gcp"
    (Demo.world_of (Demo.gcp_record (PStr "internal") PNone (PStr "TOKEN-0")
                      (PStr "2024-03-01T05:30:00+05:30")))
  = (Raise (ValueError "GCP TOKEN EXPIRY MUST BE IN UTC FORMAT!"),
     Demo.world_of (Demo.gcp_record (PStr "internal") PNone (PStr "TOKEN-0")
                      (PStr "2024-03-01T05:30:00+05:30"))).
Proof.
  eapply (non_utc_expiry_rejected Demo.env); [reflexivity | vm_compute; reflexivity | reflexivity].
Defined.

Lemma utc_instant dt :
  DateUtil.eq_tzutc (DateUtil.tz dt) = true -> DateUtil.instant dt = Some (DateUtil.wall dt).
Proof.
  unfold DateUtil.eq_tzutc, DateUtil.instant.
  destruct (DateUtil.tz dt) as [| |s]; intros H; try discriminate; try reflexivity.
  apply Z.eqb_eq in H. subst s. f_equal. lia.
Qed.



(** ** The filesystem proxy *)

(** C10.  Attribute access through the proxy looks the name up on the
    wrapped client.  A plain value comes back as it is: [__getattr__] is not
    a computation, so [pre_method] cannot have run.  A callable comes back
    as a wrapper, and calling the wrapper runs [pre_method] once, then the
    method of the wrapped client with the same arguments, whose result, or
    exception, is the result of the call. *)
Theorem proxy_getattr_dispatch env (p : FSProxy.t) (h : Handle.t) (name : string) :
  FSProxy.fs_instance p = Some h ->
  match env_fs_getattr env h name with
  | Ok (AttrValue v) => __getattr__ env p name = Ok (Value v)
  | Ok AttrCallable =>
      exists f,
        __getattr__ env p name = Ok (Wrapper f)
        /\ forall args kwargs w,
            f args kwargs w
            = match FSProxy.pre_method p w with
              | (Ok _, w1) =>
                  (env_fs_call env (trace w1) h name args kwargs,
                   with_trace (trace w1 ++ [EvFsCall h name args kwargs]) w1)
              | (Raise e, w1) => (Raise e, w1)
              end
  | Raise e => __getattr__ env p name = Raise e
  end.
Proof.
  intros Hh. unfold __getattr__. rewrite Hh.
  destruct (env_fs_getattr env h name) as [[v|]|e]; try reflexivity.
  eexists. split; [reflexivity|].
  intros args kwargs w. unfold bind.
  destruct (FSProxy.pre_method p w) as [[[]|e] w1]; reflexivity.
Qed.

Lemma proxy_getattr_witness :
  let h := {| Handle.cls := GCSFileSystem; Handle.params := [] |} in
  let p := {| FSProxy.fs_instance := Some h; FSProxy.pre_method := raise RecursionError |} in
  __getattr__ Demo.env p "protocol" = Ok (Value (PStr "gs")).
Proof.
  intros h p. exact (proxy_getattr_dispatch Demo.env p h "protocol" eq_refl).
Defined.

(** ** The storage factory *)

Lemma in_list_In x l : in_list x l = true <-> In x l.
Proof.
  unfold in_list. rewrite existsb_exists. split.
  - intros [y [Hy Heq]]. apply String.eqb_eq in Heq. now subst.
  - intros H. exists x. split; [assumption | apply String.eqb_refl].
Qed.

(** C3, as the code has it.  A tag of the valid set yields a new
    [CloudStorage] of that vendor; any other tag raises [ValueError] with the
    message [Invalid cloud vendor: <tag>!], which names the rejected tag. *)
Theorem create_checks_vendor (cloud_vendor : string) (kw : Kwargs) (w : World) :
  (In cloud_vendor VALID_CLOUD_VENDORS ->
   exists cs w',
     create cloud_vendor kw w = (Ok cs, w')
     /\ storages w' !! cs = Some (CloudStorage_init cloud_vendor kw)
     /\ CloudStorage.cloud_vendor (CloudStorage_init cloud_vendor kw) = cloud_vendor)
  /\ (~ In cloud_vendor VALID_CLOUD_VENDORS ->
      create cloud_vendor kw w
      = (Raise (ValueError ("Invalid cloud vendor: " +:+ cloud_vendor +:+ "!")), w)).
Proof.
  unfold create. split; intros H.
  - apply in_list_In in H. rewrite H. cbn [negb].
    eexists _, _. split; [reflexivity|]. split; [|reflexivity].
    cbn [storages with_storages]. apply list_lookup_middle. reflexivity.
  - destruct (in_list cloud_vendor VALID_CLOUD_VENDORS) eqn:E.
    + apply in_list_In in E. contradiction.
    + reflexivity.
Qed.

Lemma create_checks_vendor_witness :
  (exists cs w',
      create "azure" no_kwargs empty_world = (Ok cs, w')
      /\ storages w' !! cs = Some (CloudStorage_init "azure" no_kwargs)
      /\ CloudStorage.cloud_vendor (CloudStorage_init "azure" no_kwargs) = "azure")
  /\ create "bogus" no_kwargs empty_world
     = (Raise (ValueError "Invalid cloud vendor: bogus!"), empty_world).
Proof.
  split.
  - apply (proj1 (create_checks_vendor "azure" no_kwargs empty_world)).
    right. right. left. reflexivity.
  - apply (proj2 (create_checks_vendor "bogus" no_kwargs empty_world)).
    intros [H|[H|[H|[]]]]; discriminate H.
Defined.

(** C3, as the specification has it, fails for the tag [bogus]: the message
    of the error names none of the valid vendors. *)
Lemma create_bogus_message_lists_nothing :
  ~ (exists msg,
        fst (create "bogus" no_kwargs empty_world) = Raise (ValueError msg)
        /\ enumerates_valid_vendors msg = true).
Proof.
  intros [msg [Hraise Henum]]. cbn in Hraise.
  injection Hraise as <-. vm_compute in Henum. discriminate Henum.
Qed.

(** ** The token exchange *)

(** Whatever the answer, [get_gcp_sts_token] leaves the store alone and adds
    one event, its request. *)
Lemma get_gcp_sts_token_world env (audience : pyval) (subject_token url : string) (w : World) :
  snd (get_gcp_sts_token env audience subject_token url w)
  = with_trace (trace w ++ [EvHttp (sts_exchange_request audience subject_token url)]) w.
Proof.
  unfold get_gcp_sts_token, try_except, bind, httpx_post, call, lift, raise.
  destruct (env_http env (trace w) _) as [resp|e]; [|reflexivity].
  destruct (raise_for_status resp); [|reflexivity].
  destruct (json resp) as [v|]; [|reflexivity].
  destruct (get v "access_token"); reflexivity.
Qed.

(** C2, as the code has it.  [get_gcp_sts_token] sends exactly one request,
    whatever comes back.  A status outside 200..299 raises [Exception] with
    the prefix [FAILED TO RETRIEVE GCP STS TOKEN: ]; a 2xx answer whose JSON
    object has no [access_token] returns [None] without raising. *)
Theorem sts_exchange_outcomes env (audience : pyval) (subject_token url : string) (w : World) :
  let rq := sts_exchange_request audience subject_token url in
  let run := get_gcp_sts_token env audience subject_token url w in
  snd run = with_trace (trace w ++ [EvHttp rq]) w
  /\ (forall resp,
         env_http env (trace w) rq = Ok resp ->
         status_code resp < 200 \/ 299 < status_code resp ->
         fst run = Raise (ExceptionFrom "FAILED TO RETRIEVE GCP STS TOKEN: "
                            (HTTPStatusError (status_code resp))))
  /\ (forall resp d,
         env_http env (trace w) rq = Ok resp ->
         200 <= status_code resp <= 299 ->
         body resp = Some (PDict d) ->
         assoc "access_token" d = None ->
         fst run = Ok PNone).
Proof.
  intros rq run. subst run.
  unfold get_gcp_sts_token, try_except, bind, httpx_post, call, lift, raise.
  fold rq. destruct (env_http env (trace w) rq) as [resp|e] eqn:Hhttp.
  - unfold raise_for_status, json.
    destruct ((200 <=? status_code resp) && (status_code resp <=? 299)) eqn:Hst.
    + apply andb_true_iff in Hst as [H1 H2].
      apply Z.leb_le in H1. apply Z.leb_le in H2.
      split; [|split].
      * destruct (body resp) as [v|]; [|reflexivity].
        destruct (get v "access_token"); reflexivity.
      * intros resp' Heq Hout. injection Heq as <-. lia.
      * intros resp' d Heq _ Hbody Hnone. injection Heq as <-.
        rewrite Hbody. cbn [get]. rewrite Hnone. reflexivity.
    + apply andb_false_iff in Hst.
      split; [reflexivity|split].
      * intros resp' Heq _. injection Heq as <-. reflexivity.
      * intros resp' d Heq Hin. injection Heq as <-.
        destruct Hst as [H|H]; [apply Z.leb_gt in H | apply Z.leb_gt in H]; lia.
  - split; [reflexivity|split]; intros; discriminate.
Qed.

Lemma sts_exchange_witness :
  let env := Demo.with_http Demo.http_sts_without_token Demo.env in
  let run := get_gcp_sts_token env (PStr "audience") "subject" GCP_STS_URL empty_world in
  snd run
  = with_trace [EvHttp (sts_exchange_request (PStr "audience") "subject" GCP_STS_URL)]
      empty_world
  /\ fst run = Ok PNone.
Proof.
  intros env run.
  pose proof (sts_exchange_outcomes env (PStr "audience") "subject" GCP_STS_URL empty_world)
    as [Hone [_ Hnone]].
  split; [exact Hone|].
  eapply Hnone; [reflexivity | cbn; lia | reflexivity | reflexivity].
Defined.

(** C2, as the specification has it, fails when the token endpoint answers
    200 with a JSON object that has no [access_token]: the call returns
    [None] where the claim wants an error. *)
Lemma sts_missing_access_token_is_not_an_error :
  let env := Demo.with_http Demo.http_sts_without_token Demo.env in
  let rq := sts_exchange_request (PStr "audience") "subject" GCP_STS_URL in
  env_http env [] rq
  = Ok {| status_code := 200; body := Some (PDict [("token_type", PStr "Bearer")]) |}
  /\ ~ (exists e,
           fst (get_gcp_sts_token env (PStr "audience") "subject" GCP_STS_URL empty_world)
           = Raise e).
Proof.
  split; [reflexivity|]. intros [e He]. vm_compute in He. discriminate He.
Qed.

(** ** The signed request *)

(** Induction on a value, with the hypothesis for every member of a list
    and for every value of a dictionary. *)
Lemma pyval_deep_ind (P : pyval -> Prop) :
  P PNone ->
  (forall b, P (PBool b)) ->
  (forall z, P (PInt z)) ->
  (forall s, P (PStr s)) ->
  (forall l, Forall P l -> P (PList l)) ->
  (forall d, Forall (fun kv => P (snd kv)) d -> P (PDict d)) ->
  forall v, P v.
Proof.
  intros Hnone Hbool Hint Hstr Hlist Hdict.
  fix IH 1. intros [ | b | z | s | l | d ].
  - exact Hnone.
  - apply Hbool.
  - apply Hint.
  - apply Hstr.
  - apply Hlist. induction l as [|x l IHl]; constructor; [apply IH | exact IHl].
  - apply Hdict. induction d as [|[k x] d IHd]; constructor; [apply IH | exact IHd].
Qed.

Section SortedItems.
Context {A B : Type} (f : A -> B).

Lemma insert_item_map kv l :
  Json.insert_item (on_value f kv) (map (on_value f) l)
  = map (on_value f) (Json.insert_item kv l).
Proof.
  induction l as [|kv' l IH]; [reflexivity|].
  cbn [map Json.insert_item].
  change (fst (on_value f kv)) with (fst kv). change (fst (on_value f kv')) with (fst kv').
  destruct (String.leb (fst kv) (fst kv')); cbn [map]; [reflexivity|].
  now rewrite IH.
Qed.

(** Sorting looks at the keys only. *)
Lemma sorted_items_map d :
  Json.sorted_items (map (on_value f) d) = map (on_value f) (Json.sorted_items d).
Proof.
  unfold Json.sorted_items. induction d as [|kv d IH]; [reflexivity|].
  cbn [map fold_right]. rewrite IH. apply insert_item_map.
Qed.
End SortedItems.

Lemma insert_item_In {A} (kv x : string * A) l :
  In x (Json.insert_item kv l) -> x = kv \/ In x l.
Proof.
  induction l as [|kv' l IH]; cbn [Json.insert_item].
  - intros [H|[]]. now left.
  - destruct (String.leb (fst kv) (fst kv')).
    + intros [H|H]; [now left | now right].
    + intros [H|H]; [right; now left|].
      destruct (IH H) as [H'|H']; [now left | right; now right].
Qed.

Lemma sorted_items_In {A} (x : string * A) d :
  In x (Json.sorted_items d) -> In x d.
Proof.
  unfold Json.sorted_items. induction d as [|kv d IH]; [intros []|].
  cbn [fold_right]. intros H. apply insert_item_In in H as [H|H].
  - now left.
  - right. now apply IH.
Qed.

Lemma leb_flip a b : String.leb a b = false -> String.leb b a = true.
Proof.
  intros H. destruct (String.leb_total a b) as [H'|H']; [congruence | exact H'].
Qed.

Lemma insert_item_ascending {A} (kv : string * A) l :
  Json.keys_ascending (map fst l) = true ->
  Json.keys_ascending (map fst (Json.insert_item kv l)) = true.
Proof.
  induction l as [|kv' l IH]; [reflexivity|].
  intros Hasc. cbn [Json.insert_item].
  destruct (String.leb (fst kv) (fst kv')) eqn:E.
  - cbn [map Json.keys_ascending] in *. rewrite E. exact Hasc.
  - assert (Htail : Json.keys_ascending (map fst l) = true).
    { cbn [map Json.keys_ascending] in Hasc.
      destruct (map fst l) eqn:El; [reflexivity|].
      apply andb_true_iff in Hasc. tauto. }
    specialize (IH Htail).
    cbn [map]. destruct l as [|kv'' l].
    + cbn. rewrite (leb_flip _ _ E). reflexivity.
    + cbn [Json.insert_item] in *.
      cbn [map Json.keys_ascending] in Hasc. apply andb_true_iff in Hasc as [Hle _].
      destruct (String.leb (fst kv) (fst kv'')) eqn:E'.
      * cbn [map Json.keys_ascending] in *. rewrite (leb_flip _ _ E). exact IH.
      * cbn [map Json.keys_ascending] in *. rewrite Hle. exact IH.
Qed.

Lemma sorted_items_ascending {A} (d : list (string * A)) :
  Json.keys_ascending (map fst (Json.sorted_items d)) = true.
Proof.
  unfold Json.sorted_items. induction d as [|kv d IH]; [reflexivity|].
  cbn [fold_right]. now apply insert_item_ascending.
Qed.

(** The serialisation the code asks [json.dumps] for is the canonical one. *)
Lemma dumps_canonical v : Json.dumps "," ":" true v = Json.canonical_json v.
Proof.
  unfold Json.canonical_json.
  induction v as [ | b | z | s | l IH | d IH ] using pyval_deep_ind; try reflexivity.
  - cbn [Json.dumps Json.sort_keys_deep Json.compact]. rewrite map_map.
    now rewrite (map_ext_Forall _ _ IH).
  - cbn [Json.dumps Json.sort_keys_deep Json.compact].
    change (map (fun kv => (fst kv, Json.dumps "," ":" true (snd kv))) d)
      with (map (on_value (Json.dumps "," ":" true)) d).
    change (map (fun kv => (fst kv, Json.sort_keys_deep (snd kv))) d)
      with (map (on_value Json.sort_keys_deep) d).
    rewrite !sorted_items_map, !map_map. unfold on_value. cbn [fst snd].
    assert (Heq : forall kv, In kv (Json.sorted_items d) ->
                   Json.encode_basestring_ascii (fst kv) +:+ ":"
                     +:+ Json.dumps "," ":" true (snd kv)
                   = Json.encode_basestring_ascii (fst kv) +:+ ":"
                       +:+ Json.compact (Json.sort_keys_deep (snd kv))).
    { intros kv Hin. apply sorted_items_In in Hin.
      rewrite List.Forall_forall in IH. now rewrite (IH kv Hin). }
    now rewrite (map_ext_in _ _ _ Heq).
Qed.

(** In the canonical form every object has its keys in ascending order. *)
Lemma sort_keys_deep_sorted v : Json.keys_sorted (Json.sort_keys_deep v) = true.
Proof.
  induction v as [ | b | z | s | l IH | d IH ] using pyval_deep_ind; try reflexivity.
  - cbn [Json.sort_keys_deep Json.keys_sorted]. rewrite forallb_forall.
    intros x Hx. apply in_map_iff in Hx as [y [<- Hy]].
    rewrite List.Forall_forall in IH. now apply IH.
  - cbn [Json.sort_keys_deep Json.keys_sorted].
    rewrite sorted_items_ascending. cbn [andb]. rewrite forallb_forall.
    intros x Hx. apply sorted_items_In in Hx. apply in_map_iff in Hx as [y [<- Hy]].
    cbn [snd]. rewrite List.Forall_forall in IH. now apply IH.
Qed.

(** [quote] produces unreserved characters, [/] and percent escapes only. *)
Lemma quote_code_point_safe c :
  forallb Url.url_safe_char
    (list_ascii_of_string
       (String.concat "" (map (Url.quote_byte "/") (Url.utf8 (N_of_ascii c))))) = true.
Proof. destruct c as [[] [] [] [] [] [] [] []]; vm_compute; reflexivity. Qed.

Lemma append_empty_r x : x +:+ "" = x.
Proof.
  induction x as [|c x IH]; [reflexivity|].
  change (String c (x +:+ "") = String c x). now f_equal.
Qed.

Lemma append_assoc x y z : (x +:+ y) +:+ z = x +:+ (y +:+ z).
Proof.
  induction x as [|c x IH]; [reflexivity|].
  change (String c ((x +:+ y) +:+ z) = String c (x +:+ (y +:+ z))). now f_equal.
Qed.

Lemma concat_empty_cons x l : String.concat "" (x :: l) = x +:+ String.concat "" l.
Proof.
  destruct l as [|y l]; cbn [String.concat].
  - now rewrite append_empty_r.
  - reflexivity.
Qed.

Lemma concat_empty_app l1 l2 :
  String.concat "" (l1 ++ l2) = String.concat "" l1 +:+ String.concat "" l2.
Proof.
  induction l1 as [|x l1 IH]; [reflexivity|].
  rewrite <- app_comm_cons, !concat_empty_cons, IH. now rewrite append_assoc.
Qed.

Lemma list_ascii_of_string_app a b :
  list_ascii_of_string (a +:+ b) = list_ascii_of_string a ++ list_ascii_of_string b.
Proof.
  induction a as [|c a IH]; [reflexivity|].
  change (c :: list_ascii_of_string (a +:+ b)
          = c :: (list_ascii_of_string a ++ list_ascii_of_string b)).
  now f_equal.
Qed.

(** The token is safe to put in a URL. *)
Lemma quote_url_safe s :
  forallb Url.url_safe_char (list_ascii_of_string (Url.quote s)) = true.
Proof.
  unfold Url.quote, Url.quote_with. induction s as [|c s IH]; [reflexivity|].
  cbn [list_ascii_of_string map concat].
  rewrite map_app, concat_empty_app, list_ascii_of_string_app, forallb_app.
  rewrite quote_code_point_safe. exact IH.
Qed.



(** ** What the pipeline leaves alone *)

Import Frame.

Lemma same_identity_refl g : same_identity g g.
Proof. repeat split. Qed.

Lemma same_identity_trans g1 g2 g3 :
  same_identity g1 g2 -> same_identity g2 g3 -> same_identity g1 g3.
Proof.
  unfold same_identity. intros (A1 & A2 & A3 & A4) (B1 & B2 & B3 & B4).
  repeat split; congruence.
Qed.

Lemma extends_refl w : extends w w.
Proof. intros r g H. exists g. split; [exact H | apply same_identity_refl]. Qed.

Lemma extends_trans w1 w2 w3 : extends w1 w2 -> extends w2 w3 -> extends w1 w3.
Proof.
  intros H12 H23 r g H.
  destruct (H12 r g H) as (g2 & Hg2 & Hs2).
  destruct (H23 r g2 Hg2) as (g3 & Hg3 & Hs3).
  exists g3. split; [exact Hg3 | eapply same_identity_trans; eassumption].
Qed.

Lemma extends_same_creds w w' : creds w' = creds w -> extends w w'.
Proof. intros E r g H. exists g. rewrite E. split; [exact H | apply same_identity_refl]. Qed.

Lemma frames_ret {A} (a : A) : frames (ret a).
Proof. intros w. apply extends_refl. Qed.

Lemma frames_raise {A} e : frames (@raise A e).
Proof. intros w. apply extends_refl. Qed.

Lemma frames_lift {A} (o : outcome A) : frames (lift o).
Proof. intros w. apply extends_refl. Qed.

Lemma frames_call {A} ev (answer : list Event -> outcome A) : frames (call ev answer).
Proof. intros w. apply extends_same_creds. reflexivity. Qed.

Lemma frames_check failure : frames (check failure).
Proof.
  intros w. unfold check. destruct (failure (trace w)); apply extends_refl.
Qed.

Lemma frames_bind {A B} (m : M A) (k : A -> M B) :
  frames m -> (forall a, frames (k a)) -> frames (bind m k).
Proof.
  intros Hm Hk w. unfold bind. specialize (Hm w).
  destruct (m w) as [[a|e] w1]; cbn [snd] in *.
  - eapply extends_trans; [exact Hm | apply Hk].
  - exact Hm.
Qed.

Lemma frames_try {A} (m : M A) (h : PyExc -> M A) :
  frames m -> (forall e, frames (h e)) -> frames (try_except m h).
Proof.
  intros Hm Hh w. unfold try_except. specialize (Hm w).
  destruct (m w) as [[a|e] w1]; cbn [snd] in *.
  - exact Hm.
  - eapply extends_trans; [exact Hm | apply Hh].
Qed.

Lemma frames_read_cred r : frames (read_cred r).
Proof.
  intros w. unfold read_cred, dangling, raise.
  destruct (creds w !! r); apply extends_refl.
Qed.

Lemma frames_new_cred c : frames (new_cred c).
Proof.
  intros w r g H. exists g. split; [|apply same_identity_refl].
  cbn. now apply lookup_app_l_Some.
Qed.

Lemma frames_no_attribute {A} name : frames (@no_attribute A name).
Proof. apply frames_raise. Qed.

Lemma frames_gcp_field {A} cred_info name (field : GCPCredInfo.t -> A) :
  frames (gcp_field cred_info name field).
Proof.
  unfold gcp_field. destruct cred_info as [r|]; [|apply frames_no_attribute].
  apply frames_bind; [apply frames_read_cred|].
  intros [g|a|a]; first [apply frames_ret | apply frames_no_attribute].
Qed.

Lemma frames_az_field {A} cred_info name (field : AZCredInfo.t -> A) :
  frames (az_field cred_info name field).
Proof.
  unfold az_field. destruct cred_info as [r|]; [|apply frames_no_attribute].
  apply frames_bind; [apply frames_read_cred|].
  intros [g|a|a]; first [apply frames_ret | apply frames_no_attribute].
Qed.

(** Writing one record leaves every other record alone; what happens to
    the written one is up to the new value. *)
Lemma extends_write w (r : ref) c c' :
  creds w !! r = Some c ->
  (forall g, c = GCP g -> exists g', c' = GCP g' /\ same_identity g g') ->
  extends w (with_creds (<[r := c']> (creds w)) w).
Proof.
  intros Hr Hc r0 g0 H0. cbn [creds with_creds].
  destruct (decide (r = r0)) as [->|Hne].
  - rewrite H0 in Hr. injection Hr as <-.
    destruct (Hc g0 eq_refl) as (g' & -> & Hs).
    exists g'. split; [|exact Hs].
    apply list_lookup_insert_eq. eapply lookup_lt_Some. exact H0.
  - exists g0. split; [|apply same_identity_refl].
    rewrite list_lookup_insert_ne by exact Hne. exact H0.
Qed.

Lemma frames_gcp_assign cred_info name update :
  (forall g, same_identity g (update g)) ->
  frames (gcp_assign cred_info name update).
Proof.
  intros Hup. unfold gcp_assign. destruct cred_info as [r|]; [|apply frames_no_attribute].
  intros w. unfold bind, read_cred, dangling, raise, no_attribute, write_cred.
  destruct (creds w !! r) as [[g|a|a]|] eqn:Hr; cbn [snd]; try apply extends_refl.
  apply (extends_write w r (GCP g)); [exact Hr|].
  intros g1 [= <-]. eexists. split; [reflexivity | apply Hup].
Qed.

Lemma frames_az_assign cred_info name update : frames (az_assign cred_info name update).
Proof.
  unfold az_assign. destruct cred_info as [r|]; [|apply frames_no_attribute].
  intros w. unfold bind, read_cred, dangling, raise, no_attribute, write_cred.
  destruct (creds w !! r) as [[g|a|a]|] eqn:Hr; cbn [snd]; try apply extends_refl.
  apply (extends_write w r (AZ a)); [exact Hr|].
  intros g1 [=].
Qed.

Lemma set_token_identity v g : same_identity g (GCPCredInfo.set_token v g).
Proof. repeat split. Qed.

Lemma set_token_expiry_identity v g : same_identity g (GCPCredInfo.set_token_expiry v g).
Proof. repeat split. Qed.

(** One step of a frame proof: split a sequence, discharge a primitive, or
    take a branch apart. *)
Ltac frame_step :=
  first
    [ match goal with
      | H : context [frames] |- frames _ => solve [apply H]
      end
    | apply frames_ret
    | apply frames_raise
    | apply frames_no_attribute
    | apply frames_lift
    | apply frames_call
    | apply frames_check
    | apply frames_gcp_field
    | apply frames_az_field
    | apply frames_az_assign
    | apply frames_gcp_assign; intro; first [apply set_token_identity
                                             | apply set_token_expiry_identity]
    | match goal with
      | |- frames (bind _ _) => apply frames_bind; [|intro]
      | |- frames (try_except _ _) => apply frames_try; [|intro]
      | |- frames (if ?b then _ else _) => destruct b
      | |- frames (match ?x with _ => _ end) => destruct x
      end ].

Ltac frame := repeat frame_step.

Section PipelineFrames.
Variable env : Env.
Variable self : Narcon.t.
Variable gs : string -> string -> M string.
Hypothesis gs_frames : forall name version, frames (gs name version).

Lemma frames_get_cognito_token open_id : frames (get_cognito_token env gs open_id).
Proof. unfold get_cognito_token, boto_client, boto_call. frame. Qed.

Lemma frames_get_aws_caller_identity audience aws_cred http_method :
  frames (get_aws_caller_identity env audience aws_cred http_method).
Proof.
  unfold get_aws_caller_identity, get_aws_cred_session, add_auth, frozen_credentials. frame.
Qed.

Lemma frames_get_gcp_sts_token audience subject_token url :
  frames (get_gcp_sts_token env audience subject_token url).
Proof. unfold get_gcp_sts_token, httpx_post. frame. Qed.

Lemma frames_gcp_impersonate_token sa_email gcp_token :
  frames (gcp_impersonate_token env self sa_email gcp_token).
Proof. unfold gcp_impersonate_token, httpx_post. frame. Qed.

Lemma frames_generate_access_token cred_info :
  frames (generate_access_token env self gs cred_info).
Proof.
  unfold generate_access_token, internal_exchange, external_exchange.
  pose proof frames_get_cognito_token. pose proof frames_get_aws_caller_identity.
  pose proof frames_get_gcp_sts_token. pose proof frames_gcp_impersonate_token.
  frame.
Qed.

Lemma frames_client_assertion_token tenant_id client_id scopes :
  frames (client_assertion_token env gs tenant_id client_id scopes).
Proof. unfold client_assertion_token. pose proof frames_get_cognito_token. frame. Qed.

Lemma frames_refresh_token_if_expired cred_info cloud_vendor :
  frames (refresh_token_if_expired env self gs cred_info cloud_vendor).
Proof.
  unfold refresh_token_if_expired, clock.
  pose proof frames_generate_access_token. pose proof frames_client_assertion_token.
  frame.
Qed.

End PipelineFrames.

(** Reading a secret, at any depth of the call stack, changes nothing but
    tokens and their expiry. *)
Lemma frames_get_secret env self depth name version :
  frames (get_secret env self depth name version).
Proof.
  revert name version. induction depth as [|d IH]; intros name version.
  - apply frames_raise.
  - cbn [get_secret]. unfold get_secret_body.
    pose proof (frames_refresh_token_if_expired env self _ IH).
    frame.
Qed.

(** ** A missing service-account email *)

(** The record [r] keeps its identity along any run of [m]. *)
Lemma frames_lookup {A} (m : M A) w (r : ref) g :
  frames m -> creds w !! r = Some (GCP g) ->
  exists g', creds (snd (m w)) !! r = Some (GCP g') /\ same_identity g g'.
Proof. intros Hm Hr. exact (Hm w r g Hr). Qed.

Section MissingEmail.
Variable env : Env.
Variable self : Narcon.t.
Variable depth : nat.
Variable r : ref.
Variable g : GCPCredInfo.t.
Hypothesis external : GCPCredInfo.refresh_mode g = PStr "external".
Hypothesis no_email : GCPCredInfo.sa_email g = PNone.

Let gs := get_secret env self depth.

(** In external mode the three legs before the guard run first; when all
    three return, the guard raises in the world they left. *)
Lemma external_exchange_guard w aws_cred w1 subject_token w2 sts_token w3 :
  creds w !! r = Some (GCP g) ->
  get_cognito_token env gs false w = (Ok aws_cred, w1) ->
  get_aws_caller_identity env (PStr SAMA_EXT_AUDIENCE) aws_cred "POST" w1
  = (Ok subject_token, w2) ->
  get_gcp_sts_token env (PStr SAMA_EXT_AUDIENCE) subject_token GCP_STS_URL w2
  = (Ok sts_token, w3) ->
  external_exchange env self gs (Some r) w = (Raise (Exception_ "SA EMAIL NOT SET"), w3).
Proof.
  intros Hr H1 H2 H3.
  assert (Hgs : forall n v, frames (gs n v)) by (intros; apply frames_get_secret).
  destruct (frames_lookup _ w r g (frames_get_cognito_token env gs Hgs false) Hr)
    as (g1 & Hr1 & Hs1).
  rewrite H1 in Hr1. cbn [snd] in Hr1.
  destruct (frames_lookup _ w1 r g1
              (frames_get_aws_caller_identity env (PStr SAMA_EXT_AUDIENCE) aws_cred "POST") Hr1)
    as (g2 & Hr2 & Hs2).
  rewrite H2 in Hr2. cbn [snd] in Hr2.
  destruct (frames_lookup _ w2 r g2
              (frames_get_gcp_sts_token env (PStr SAMA_EXT_AUDIENCE) subject_token GCP_STS_URL)
              Hr2)
    as (g3 & Hr3 & Hs3).
  rewrite H3 in Hr3. cbn [snd] in Hr3.
  assert (Hemail : GCPCredInfo.sa_email g3 = PNone).
  { destruct Hs1 as [E1 _], Hs2 as [E2 _], Hs3 as [E3 _]. congruence. }
  unfold external_exchange.
  rewrite (bind_ok _ _ _ _ _ H1), (bind_ok _ _ _ _ _ H2), (bind_ok _ _ _ _ _ H3).
  rewrite (bind_ok _ _ _ _ _ (gcp_field_read _ _ _ _ _ Hr3)).
  rewrite Hemail. reflexivity.
Qed.

Lemma external_exchange_never_returns w :
  creds w !! r = Some (GCP g) ->
  exists e w', external_exchange env self gs (Some r) w = (Raise e, w').
Proof.
  intros Hr.
  destruct (get_cognito_token env gs false w) as [[aws_cred|e] w1] eqn:H1.
  2:{ exists e, w1. unfold external_exchange. now rewrite (bind_raise _ _ _ _ _ H1). }
  destruct (get_aws_caller_identity env (PStr SAMA_EXT_AUDIENCE) aws_cred "POST" w1)
    as [[subject_token|e] w2] eqn:H2.
  2:{ exists e, w2. unfold external_exchange.
      now rewrite (bind_ok _ _ _ _ _ H1), (bind_raise _ _ _ _ _ H2). }
  destruct (get_gcp_sts_token env (PStr SAMA_EXT_AUDIENCE) subject_token GCP_STS_URL w2)
    as [[sts_token|e] w3] eqn:H3.
  2:{ exists e, w3. unfold external_exchange.
      now rewrite (bind_ok _ _ _ _ _ H1), (bind_ok _ _ _ _ _ H2), (bind_raise _ _ _ _ _ H3). }
  eexists _, _. eapply external_exchange_guard; eassumption.
Qed.

Lemma generate_external w :
  creds w !! r = Some (GCP g) ->
  forall e w',
    external_exchange env self gs (Some r) w = (Raise e, w') ->
    generate_access_token env self gs (Some r) w = (Raise e, w').
Proof.
  intros Hr e w' Hx. unfold generate_access_token.
  rewrite (bind_ok _ _ _ _ _ (gcp_field_read _ _ _ _ _ Hr)).
  rewrite external. cbn [eq_str String.eqb Ascii.eqb Bool.eqb].
  apply bind_raise. apply bind_raise. exact Hx.
Qed.

End MissingEmail.

(** C1, as the code has it.  With [refresh_mode = "external"] and no
    [sa_email], [generate_access_token] never returns normally.  The guard
    that raises [SA EMAIL NOT SET] stands after the credential fetch, the
    signing and the token exchange: when those three return, the error is
    raised in the world the exchange left, whose last event is the POST to
    the token endpoint, and nothing is sent after it. *)
Theorem external_without_sa_email env self depth (r : ref) g (w : World) :
  creds w !! r = Some (GCP g) ->
  GCPCredInfo.refresh_mode g = PStr "external" ->
  GCPCredInfo.sa_email g = PNone ->
  let gs := get_secret env self depth in
  (exists e w', generate_access_token env self gs (Some r) w = (Raise e, w'))
  /\ (forall aws_cred w1 subject_token w2 sts_token w3,
         get_cognito_token env gs false w = (Ok aws_cred, w1) ->
         get_aws_caller_identity env (PStr SAMA_EXT_AUDIENCE) aws_cred "POST" w1
         = (Ok subject_token, w2) ->
         get_gcp_sts_token env (PStr SAMA_EXT_AUDIENCE) subject_token GCP_STS_URL w2
         = (Ok sts_token, w3) ->
         generate_access_token env self gs (Some r) w
         = (Raise (Exception_ "SA EMAIL NOT SET"), w3)
         /\ trace w3
            = trace w2
                ++ [EvHttp (sts_exchange_request (PStr SAMA_EXT_AUDIENCE) subject_token
                              GCP_STS_URL)]).
Proof.
  intros Hr Hmode Hemail gs. split.
  - destruct (external_exchange_never_returns env self depth r g Hemail w Hr) as (e & w' & Hx).
    exists e, w'. eapply generate_external; eassumption.
  - intros aws_cred w1 subject_token w2 sts_token w3 H1 H2 H3. split.
    + eapply generate_external; [eassumption..|].
      eapply external_exchange_guard; eassumption.
    + pose proof (get_gcp_sts_token_world env (PStr SAMA_EXT_AUDIENCE) subject_token
                    GCP_STS_URL w2) as Htrace.
      rewrite H3 in Htrace. cbn [snd] in Htrace.
      rewrite Htrace. reflexivity.
Qed.

Lemma external_without_sa_email_witness :
  let w := Demo.world_of (Demo.gcp_record (PStr "external") PNone PNone PNone) in
  exists e w',
    generate_access_token Demo.env Demo.narcon (get_secret Demo.env Demo.narcon 3)
      (Some 0%nat) w = (Raise e, w').
Proof.
  intros w.
  exact (proj1 (external_without_sa_email Demo.env Demo.narcon 3 0%nat _ w
                  eq_refl eq_refl eq_refl)).
Defined.

(** C1, as the specification has it, fails in the concrete deployment: by
    the time the error surfaces, five requests have left the machine (two
    secrets, two Cognito calls, one token exchange). *)
Lemma external_without_sa_email_reaches_network :
  let w := Demo.world_of (Demo.gcp_record (PStr "external") PNone PNone PNone) in
  let run := generate_access_token Demo.env Demo.narcon (get_secret Demo.env Demo.narcon 3)
               (Some 0%nat) w in
  fst run = Raise (Exception_ "SA EMAIL NOT SET")
  /\ length (List.filter is_network (trace (snd run))) = 5%nat
  /\ List.filter is_network (trace (snd run)) <> [].
Proof.
  intros w run. split; [vm_compute; reflexivity|]. split; [vm_compute; reflexivity|].
  intros H. apply (f_equal (@length Event)) in H. vm_compute in H. discriminate H.
Qed.

(** ** Writing the token back *)

(** C7 at the failing input.  The impersonation endpoint answers 200 with
    an [accessToken] and no [expireTime]: [generate_access_token] raises
    [KeyError], and the record is left with the new token next to the old
    expiry. *)
Theorem refresh_partial_write :
  let env := Demo.with_http Demo.http_without_expiry Demo.env in
  let w := Demo.world_of (Demo.gcp_record (PStr "internal") PNone (PStr "TOKEN-0")
                            (PStr "2024-02-29T23:59:59Z")) in
  let run := generate_access_token env Demo.narcon (get_secret env Demo.narcon 3)
               (Some 0%nat) w in
  fst run = Raise (KeyError "expireTime")
  /\ Demo.token_at 0%nat w = Some (PStr "TOKEN-0")
  /\ Demo.token_at 0%nat (snd run) = Some (PStr "TOKEN-NEW")
  /\ Demo.expiry_at 0%nat (snd run) = Demo.expiry_at 0%nat w.
Proof. intros env w run. repeat split; vm_compute; reflexivity. Qed.

(** ** A session after its token has expired *)

(** C4 at the failing input.  The session is opened with a token that has
    expired by the first call.  The call through the proxy refreshes the
    record, and then runs against the client that was built with the old
    token. *)
Theorem proxy_keeps_stale_handle :
  exists w1 w2 h,
    Demo.open_and_list = Some (w1, w2, h)
    /\ Demo.token_at 0%nat w1 = Some (PStr "TOKEN-1")
    /\ Demo.built_with h = Some (ParVal (PStr "TOKEN-1"))
    /\ Demo.token_at 0%nat w2 = Some (PStr "TOKEN-2")
    /\ last (trace w2) = Some (EvFsCall h "ls" [PStr "bucket"] []).
Proof.
  eexists _, _, _. split; [vm_compute; reflexivity|].
  repeat split; vm_compute; reflexivity.
Qed.

(** The sibling path: [get_secret] runs the same check and then builds its
    client from the token it reads afterwards, the refreshed one. *)
Lemma get_secret_uses_refreshed_token :
  let w := Demo.world_of (Demo.gcp_record (PStr "internal") PNone (PStr "TOKEN-0")
                            (PStr "2024-02-29T23:59:59Z")) in
  let run := get_secret Demo.env Demo.narcon_with_cred 3 "CS_TEST" "latest" w in
  fst run = Ok "secret"
  /\ Demo.token_at 0%nat (snd run) = Some (PStr "TOKEN-1")
  /\ last (trace (snd run))
     = Some (EvSecret (PStr "TOKEN-1")
               (secret_version_path GCP_PROJECT_ID "CS_TEST" "latest")).
Proof. intros w run. repeat split; vm_compute; reflexivity. Qed.

(** ** The internal pipeline writes last *)

Lemma silent_ret {A} (a : A) : silent (ret a).
Proof. intros w. split; reflexivity. Qed.

Lemma silent_raise {A} e : silent (@raise A e).
Proof. intros w. split; reflexivity. Qed.

Lemma silent_lift {A} (o : outcome A) : silent (lift o).
Proof. intros w. split; reflexivity. Qed.

Lemma silent_call {A} ev (answer : list Event -> outcome A) : silent (call ev answer).
Proof. intros w. split; reflexivity. Qed.

Lemma silent_bind {A B} (m : M A) (k : A -> M B) :
  silent m -> (forall a, silent (k a)) -> silent (bind m k).
Proof.
  intros Hm Hk w. unfold bind. destruct (Hm w) as [Hc Hs].
  destruct (m w) as [[a|e] w1]; cbn [snd] in *.
  - destruct (Hk a w1) as [Hc' Hs']. split; congruence.
  - split; assumption.
Qed.

Lemma silent_try {A} (m : M A) (h : PyExc -> M A) :
  silent m -> (forall e, silent (h e)) -> silent (try_except m h).
Proof.
  intros Hm Hh w. unfold try_except. destruct (Hm w) as [Hc Hs].
  destruct (m w) as [[a|e] w1]; cbn [snd] in *.
  - split; assumption.
  - destruct (Hh e w1) as [Hc' Hs']. split; congruence.
Qed.

Lemma silent_gcp_field {A} cred_info name (field : GCPCredInfo.t -> A) :
  silent (gcp_field cred_info name field).
Proof.
  intros w. unfold gcp_field, no_attribute, raise. destruct cred_info as [r|]; [|now split].
  unfold bind, read_cred, dangling, raise, ret.
  destruct (creds w !! r) as [[g|a|a]|]; now split.
Qed.

Ltac silent_step :=
  first
    [ match goal with
      | H : context [silent] |- silent _ => solve [apply H]
      end
    | apply silent_ret
    | apply silent_raise
    | apply silent_lift
    | apply silent_call
    | apply silent_gcp_field
    | match goal with
      | |- silent (bind _ _) => apply silent_bind; [|intro]
      | |- silent (try_except _ _) => apply silent_try; [|intro]
      | |- silent (if ?b then _ else _) => destruct b
      | |- silent (match ?x with _ => _ end) => destruct x
      end ].

(** Signing, the exchange and the impersonation of the internal pipeline
    read the record and talk to the outside; they write nothing. *)
Lemma silent_internal_exchange env self cred_info :
  silent (internal_exchange env self cred_info).
Proof.
  unfold internal_exchange, get_aws_caller_identity, get_aws_cred_session, add_auth,
    frozen_credentials, get_gcp_sts_token, gcp_impersonate_token, httpx_post.
  repeat silent_step.
Qed.

(** In internal mode the record is written only once the whole exchange has
    returned: a failing exchange leaves the store as it was, and an answer
    with both fields puts both into the record. *)
Lemma internal_refresh_writes_last env self gs (r : ref) g (w : World) :
  creds w !! r = Some (GCP g) ->
  GCPCredInfo.refresh_mode g = PStr "internal" ->
  match internal_exchange env self (Some r) w with
  | (Raise e, w') =>
      generate_access_token env self gs (Some r) w = (Raise e, w')
      /\ creds w' = creds w
  | (Ok token_info, w') =>
      creds w' = creds w
      /\ forall access_token expire_time,
          getitem token_info "accessToken" = Ok access_token ->
          getitem token_info "expireTime" = Ok expire_time ->
          generate_access_token env self gs (Some r) w
          = (Ok tt,
             with_creds
               (<[r := GCP (GCPCredInfo.set_token_expiry expire_time
                              (GCPCredInfo.set_token access_token g))]> (creds w)) w')
  end.
Proof.
  intros Hr Hmode.
  pose proof (silent_internal_exchange env self (Some r) w) as [Hc Hs].
  unfold generate_access_token.
  rewrite (bind_ok _ _ _ _ _ (gcp_field_read _ _ _ _ _ Hr)), Hmode.
  cbn [eq_str String.eqb Ascii.eqb Bool.eqb].
  destruct (internal_exchange env self (Some r) w) as [[token_info|e] w'] eqn:Hx;
    cbn [snd] in Hc, Hs.
  - split; [exact Hc|]. intros access_token expire_time Ha He.
    rewrite <- Hc in Hr.
    unfold bind at 1. unfold bind at 1. rewrite Hx. unfold ret at 1.
    rewrite (bind_ok _ _ _ _ _ (lift_ok _ _ _ Ha)).
    rewrite (bind_ok _ _ _ _ _ (gcp_assign_write _ _ _ _ _ Hr)).
    rewrite (bind_ok _ _ _ _ _ (lift_ok _ _ _ He)).
    rewrite gcp_assign_write with (g := GCPCredInfo.set_token access_token g).
    + cbn [creds with_creds storages trace]. rewrite list_insert_insert_eq.
      unfold with_creds. cbn [creds storages trace]. rewrite Hc. reflexivity.
    + cbn [creds with_creds]. apply list_lookup_insert_eq.
      eapply lookup_lt_Some. exact Hr.
  - split; [|exact Hc]. unfold bind at 1. unfold bind at 1. rewrite Hx. reflexivity.
Qed.

(* ================================================================== *)
(** * Further properties: storage clients *)
(* ================================================================== *)

Import Clients.

Lemma bind_ok_inv {A B} (m : M A) (k : A -> M B) w b w' :
  bind m k w = (Ok b, w') -> exists a w1, m w = (Ok a, w1) /\ k a w1 = (Ok b, w').
Proof.
  unfold bind. destruct (m w) as [[a|e] w1]; intros H; [|discriminate].
  exists a, w1. split; [reflexivity | exact H].
Qed.

Lemma read_storage_ok (cs : ref) s w :
  storages w !! cs = Some s -> read_storage cs w = (Ok s, w).
Proof. intros H. unfold read_storage. now rewrite H. Qed.

Lemma read_storage_inv (cs : ref) s w w' :
  read_storage cs w = (Ok s, w') -> w' = w /\ storages w !! cs = Some s.
Proof.
  unfold read_storage, dangling, raise. destruct (storages w !! cs) as [s0|]; intros H.
  - injection H as <- <-. now split.
  - discriminate.
Qed.

(** Assigning [self.fs] on an object of the store is visible to the next
    read. *)
Lemma assign_fs_sets (cs : ref) h w w' :
  assign_fs cs h w = (Ok tt, w') ->
  exists s, storages w' !! cs = Some s /\ CloudStorage.fs s = Some h /\ creds w' = creds w.
Proof.
  unfold assign_fs. intros H. apply bind_ok_inv in H as (s & w1 & Hread & Hwrite).
  apply read_storage_inv in Hread as [-> Hs].
  unfold write_storage in Hwrite. injection Hwrite as <-.
  exists (CloudStorage.set_fs_field (Some h) s). cbn [storages with_storages creds].
  split; [|split; reflexivity].
  apply list_lookup_insert_eq. eapply lookup_lt_Some. exact Hs.
Qed.

Lemma try_except_ok_inv {A} (m : M A) (h : PyExc -> M A) w a w' :
  (forall e w1, fst (h e w1) <> Ok a) ->
  try_except m h w = (Ok a, w') -> m w = (Ok a, w').
Proof.
  intros Hh. unfold try_except. destruct (m w) as [[a0|e] w1]; intros H; [exact H|].
  exfalso. apply (Hh e w1). now rewrite H.
Qed.

Lemma missing_package_raises {A} msg e w (a : A) : fst (@missing_package A msg e w) <> Ok a.
Proof. destruct e; discriminate. Qed.

(** Each setter, when it returns, has put a client into [self.fs]. *)
Lemma setter_sets env (cs : ref) w w' :
  _set_aws_fs env cs w = (Ok tt, w')
  \/ _set_gcp_fs env cs w = (Ok tt, w')
  \/ _set_azure_fs env cs w = (Ok tt, w') ->
  exists s h, storages w' !! cs = Some s /\ CloudStorage.fs s = Some h.
Proof.
  intros [H|[H|H]];
    apply try_except_ok_inv in H; try (intros; apply missing_package_raises);
    apply bind_ok_inv in H as (? & ? & _ & H);
    apply bind_ok_inv in H as (? & ? & _ & H);
    apply bind_ok_inv in H as (? & ? & _ & H);
    apply bind_ok_inv in H as (h & ? & _ & H);
    apply assign_fs_sets in H as (s & Hs & Hfs & _);
    exists s, h; split; assumption.
Qed.

Lemma set_fs_sets env (cs : ref) w w' :
  set_fs env cs w = (Ok tt, w') ->
  exists s h, storages w' !! cs = Some s /\ CloudStorage.fs s = Some h.
Proof.
  unfold set_fs. intros H. apply bind_ok_inv in H as (s & w1 & Hread & H).
  apply read_storage_inv in Hread as [-> _].
  destruct (String.eqb (CloudStorage.cloud_vendor s) "aws");
    [eapply setter_sets; left; exact H|].
  destruct (String.eqb (CloudStorage.cloud_vendor s) "gcp");
    [eapply setter_sets; right; left; exact H|].
  destruct (String.eqb (CloudStorage.cloud_vendor s) "azure");
    [eapply setter_sets; right; right; exact H|].
  discriminate H.
Qed.

(** X1.  When [get_fs] returns, it returns a client, never [None]; asked
    again, it returns the same client and does nothing else: the client of
    a [CloudStorage] is built at most once. *)
Theorem get_fs_builds_once env (cs : ref) (w w1 : World) fs :
  get_fs env cs w = (Ok fs, w1) ->
  exists h, fs = Some h /\ get_fs env cs w1 = (Ok (Some h), w1).
Proof.
  unfold get_fs at 1. intros H.
  apply bind_ok_inv in H as (s & w0 & Hread & H).
  apply read_storage_inv in Hread as [-> Hs].
  apply bind_ok_inv in H as ([] & w2 & Hset & H).
  apply bind_ok_inv in H as (s2 & w3 & Hread2 & H).
  apply read_storage_inv in Hread2 as [-> Hs2].
  unfold ret in H. injection H as <- <-.
  assert (Hfs : exists h, CloudStorage.fs s2 = Some h).
  { destruct (CloudStorage.fs s) as [h|] eqn:Hfs.
    - unfold ret in Hset. injection Hset as <-.
      rewrite Hs in Hs2. injection Hs2 as <-. now exists h.
    - apply set_fs_sets in Hset as (s' & h & Hs' & Hh).
      rewrite Hs' in Hs2. injection Hs2 as <-. now exists h. }
  destruct Hfs as [h Hh]. exists h. split; [exact Hh|].
  unfold get_fs.
  rewrite (bind_ok _ _ _ _ _ (read_storage_ok _ _ _ Hs2)), Hh.
  unfold bind at 1. unfold ret at 1.
  rewrite (bind_ok _ _ _ _ _ (read_storage_ok _ _ _ Hs2)), Hh. reflexivity.
Qed.

Lemma get_fs_builds_once_witness :
  let h := {| Handle.cls := GCSFileSystem;
              Handle.params := [("asynchronous", ParVal (PBool false))] |} in
  let w := {| creds := []; storages := [CloudStorage_init "gcp" no_kwargs]; trace := [] |} in
  let w1 := {| creds := [];
               storages := [CloudStorage.set_fs_field (Some h)
                              (CloudStorage_init "gcp" no_kwargs)];
               trace := [EvFsNew h] |} in
  exists h', Some h = Some h' /\ get_fs Demo.env 0%nat w1 = (Ok (Some h'), w1).
Proof.
  intros h w w1. apply (get_fs_builds_once Demo.env 0%nat w w1 (Some h)). reflexivity.
Defined.

(** The run of [get_fs] on an object that has no client yet, for a setter
    whose package is there: the parameters are handed to the constructor,
    and its client is stored and returned. *)
Lemma get_fs_first_use env (cs : ref) s (w : World) cls params body :
  storages w !! cs = Some s ->
  CloudStorage.fs s = None ->
  set_fs env cs w
  = try_except (import env (package_of (CloudStorage.cloud_vendor s)) ;; body)
      (missing_package ("Missing the " +:+ package_of (CloudStorage.cloud_vendor s)
                          +:+ " package!")) w ->
  env_import env (package_of (CloudStorage.cloud_vendor s)) = true ->
  body w = (h <- fs_new env cls params ;; assign_fs cs h) w ->
  let h := {| Handle.cls := cls; Handle.params := params |} in
  env_fs_new env (trace w) h = None ->
  get_fs env cs w
  = (Ok (Some h),
     with_storages (<[cs := CloudStorage.set_fs_field (Some h) s]> (storages w))
       (with_trace (trace w ++ [EvFsNew h]) w)).
Proof.
  intros Hs Hfs Hset Himport Hbody h Hnew.
  unfold get_fs. rewrite (bind_ok _ _ _ _ _ (read_storage_ok _ _ _ Hs)), Hfs.
  assert (Hrun : set_fs env cs w
                 = (Ok tt,
                    with_storages (<[cs := CloudStorage.set_fs_field (Some h) s]> (storages w))
                      (with_trace (trace w ++ [EvFsNew h]) w))).
  { rewrite Hset. unfold try_except, import. rewrite Himport.
    unfold bind at 1. unfold ret at 1. rewrite Hbody.
    unfold bind, fs_new, call. fold h. rewrite Hnew.
    unfold assign_fs, bind, read_storage, write_storage. cbn [storages with_trace].
    rewrite Hs. reflexivity. }
  rewrite (bind_ok _ _ _ _ _ Hrun).
  unfold bind, read_storage, ret. cbn [storages with_storages].
  rewrite list_lookup_insert_eq by (eapply lookup_lt_Some; exact Hs). reflexivity.
Qed.

(** X2.  The GCS client is built from the record as it is at that moment:
    with the token the record holds, when it holds one, and with the project
    when one is set; building it is one constructor call, and the client is
    kept in the [CloudStorage]. *)
Theorem gcs_client_parameters env (cs r : ref) s g (w : World) :
  storages w !! cs = Some s ->
  CloudStorage.cloud_vendor s = "gcp" ->
  CloudStorage.fs s = None ->
  CloudStorage.cred_info s = Some r ->
  creds w !! r = Some (GCP g) ->
  env_import env "gcsfs" = true ->
  (forall h, env_fs_new env (trace w) h = None) ->
  exists h w',
    get_fs env cs w = (Ok (Some h), w')
    /\ Handle.cls h = GCSFileSystem
    /\ keyword "token" h = if_set (GCPCredInfo.token g)
    /\ keyword "project" h = if_set (GCPCredInfo.project g)
    /\ trace w' = trace w ++ [EvFsNew h]
    /\ (exists s', storages w' !! cs = Some s' /\ CloudStorage.fs s' = Some h)
    /\ creds w' = creds w.
Proof.
  intros Hs Hv Hfs Hc Hr Himport Hnew.
  eexists _, _. split.
  - eapply (get_fs_first_use env cs s w GCSFileSystem); try eassumption.
    + unfold set_fs. rewrite (bind_ok _ _ _ _ _ (read_storage_ok _ _ _ Hs)), Hv.
      cbn [String.eqb Ascii.eqb Bool.eqb]. reflexivity.
    + rewrite Hv. exact Himport.
    + rewrite (bind_ok _ _ _ _ _ (read_storage_ok _ _ _ Hs)).
      unfold cred_object. rewrite Hc.
      unfold bind at 1. unfold bind at 1. unfold read_cred. rewrite Hr. unfold ret at 1.
      reflexivity.
    + apply Hnew.
  - unfold keyword, if_set. cbn [Handle.cls Handle.params trace storages creds
                                   with_storages with_trace].
    split; [reflexivity|]. split.
    { destruct (truthy (GCPCredInfo.project g)), (truthy (GCPCredInfo.token g)); reflexivity. }
    split.
    { destruct (truthy (GCPCredInfo.project g)), (truthy (GCPCredInfo.token g)); reflexivity. }
    split; [reflexivity|]. split; [|reflexivity].
    eexists. split.
    + apply list_lookup_insert_eq. eapply lookup_lt_Some. exact Hs.
    + reflexivity.
Qed.

Lemma gcs_client_parameters_witness :
  let s := CloudStorage.set_cred_info (Some 0%nat) (CloudStorage_init "gcp" no_kwargs) in
  let w := {| creds := [Demo.gcp_record (PStr "internal") PNone (PStr "TOKEN-0") PNone];
              storages := [s]; trace := [] |} in
  exists h w',
    get_fs Demo.env 0%nat w = (Ok (Some h), w')
    /\ Handle.cls h = GCSFileSystem
    /\ keyword "token" h = Some (ParVal (PStr "TOKEN-0"))
    /\ keyword "project" h = None
    /\ trace w' = [EvFsNew h]
    /\ (exists s', storages w' !! 0%nat = Some s' /\ CloudStorage.fs s' = Some h)
    /\ creds w' = creds w.
Proof.
  intros s w.
  exact (gcs_client_parameters Demo.env 0%nat 0%nat s _ w eq_refl eq_refl eq_refl eq_refl
           eq_refl eq_refl (fun _ => eq_refl)).
Defined.

(** X3.  The S3 client takes its credentials from the record in this
    order: the key pair when both [id] and [secret] are set, else the
    profile when one is set, else nothing, which leaves the lookup to the
    client itself.  A profile never goes along with a key pair. *)
Theorem s3_client_credentials env (cs r : ref) s a (w : World) :
  storages w !! cs = Some s ->
  CloudStorage.cloud_vendor s = "aws" ->
  CloudStorage.fs s = None ->
  CloudStorage.cred_info s = Some r ->
  creds w !! r = Some (AWS a) ->
  env_import env "s3fs" = true ->
  (forall h, env_fs_new env (trace w) h = None) ->
  let pair := truthy (AWSCredInfo.id a) && truthy (AWSCredInfo.secret a) in
  exists h w',
    get_fs env cs w = (Ok (Some h), w')
    /\ Handle.cls h = S3FileSystem
    /\ keyword "key" h = (if pair then Some (ParVal (AWSCredInfo.id a)) else None)
    /\ keyword "secret" h = (if pair then Some (ParVal (AWSCredInfo.secret a)) else None)
    /\ keyword "profile" h = (if pair then None else if_set (AWSCredInfo.profile a))
    /\ trace w' = trace w ++ [EvFsNew h].
Proof.
  intros Hs Hv Hfs Hc Hr Himport Hnew pair.
  eexists _, _. split.
  - eapply (get_fs_first_use env cs s w S3FileSystem); try eassumption.
    + unfold set_fs. rewrite (bind_ok _ _ _ _ _ (read_storage_ok _ _ _ Hs)), Hv.
      cbn [String.eqb Ascii.eqb Bool.eqb]. reflexivity.
    + rewrite Hv. exact Himport.
    + rewrite (bind_ok _ _ _ _ _ (read_storage_ok _ _ _ Hs)).
      unfold cred_object. rewrite Hc.
      unfold bind at 1. unfold bind at 1. unfold read_cred. rewrite Hr. unfold ret at 1.
      reflexivity.
    + apply Hnew.
  - subst pair. unfold keyword, if_set.
    cbn [Handle.cls Handle.params trace with_storages with_trace].
    destruct (truthy (AWSCredInfo.id a)), (truthy (AWSCredInfo.secret a)),
      (truthy (AWSCredInfo.profile a)); repeat split; reflexivity.
Qed.

Lemma s3_client_credentials_witness :
  let a := {| AWSCredInfo.id := PStr "AKIA"; AWSCredInfo.secret := PNone;
              AWSCredInfo.profile := PStr "dev" |} in
  let s := CloudStorage.set_cred_info (Some 0%nat) (CloudStorage_init "aws" no_kwargs) in
  let w := {| creds := [AWS a]; storages := [s]; trace := [] |} in
  exists h w',
    get_fs Demo.env 0%nat w = (Ok (Some h), w')
    /\ Handle.cls h = S3FileSystem
    /\ keyword "key" h = None
    /\ keyword "secret" h = None
    /\ keyword "profile" h = Some (ParVal (PStr "dev"))
    /\ trace w' = [EvFsNew h].
Proof.
  intros a s w.
  exact (s3_client_credentials Demo.env 0%nat 0%nat s a w eq_refl eq_refl eq_refl eq_refl
           eq_refl eq_refl (fun _ => eq_refl)).
Defined.

(** X4.  When the package of the vendor is not installed, asking a
    [CloudStorage] of a valid vendor for its client raises
    [ModuleNotFoundError] with the message that names the package; no
    constructor is called and the object is left without a client. *)
Theorem client_package_missing env (cs : ref) s (w : World) :
  storages w !! cs = Some s ->
  CloudStorage.fs s = None ->
  In (CloudStorage.cloud_vendor s) VALID_CLOUD_VENDORS ->
  env_import env (package_of (CloudStorage.cloud_vendor s)) = false ->
  get_fs env cs w
  = (Raise (ModuleNotFoundError
              ("Missing the " +:+ package_of (CloudStorage.cloud_vendor s) +:+ " package!")),
     w).
Proof.
  intros Hs Hfs Hv Himport.
  unfold get_fs. rewrite (bind_ok _ _ _ _ _ (read_storage_ok _ _ _ Hs)), Hfs.
  apply bind_raise. unfold set_fs.
  rewrite (bind_ok _ _ _ _ _ (read_storage_ok _ _ _ Hs)).
  destruct Hv as [Hv|[Hv|[Hv|[]]]]; rewrite <- Hv in *;
    cbn [String.eqb Ascii.eqb Bool.eqb];
    unfold _set_aws_fs, _set_gcp_fs, _set_azure_fs, try_except, import;
    unfold bind at 1;
    cbv [package_of String.eqb Ascii.eqb Bool.eqb] in Himport; rewrite Himport;
    reflexivity.
Qed.

Lemma client_package_missing_witness :
  let env := {| env_now := env_now Demo.env; env_http := env_http Demo.env;
                env_secret := env_secret Demo.env;
                env_boto_credentials := env_boto_credentials Demo.env;
                env_boto_client := env_boto_client Demo.env;
                env_boto_call := env_boto_call Demo.env;
                env_sigv4 := env_sigv4 Demo.env;
                env_azure_token := env_azure_token Demo.env;
                env_isoparse := env_isoparse Demo.env;
                env_literal_eval := env_literal_eval Demo.env;
                env_import := fun name => negb (String.eqb name "adlfs");
                env_fs_new := env_fs_new Demo.env;
                env_fs_getattr := env_fs_getattr Demo.env;
                env_fs_call := env_fs_call Demo.env |} in
  let w := {| creds := []; storages := [CloudStorage_init "azure" no_kwargs]; trace := [] |} in
  get_fs env 0%nat w = (Raise (ModuleNotFoundError "Missing the adlfs package!"), w).
Proof.
  intros env w.
  apply (client_package_missing env 0%nat (CloudStorage_init "azure" no_kwargs) w);
    [reflexivity | reflexivity | right; right; left; reflexivity | reflexivity].
Defined.

(* ================================================================== *)
(** * Further properties: the refresh check and the pipeline *)
(* ================================================================== *)

(** X5.  Whatever the refresh check does, for any record, vendor tag,
    environment and depth of the call stack, every [GCPCredInfo] of the store
    is still in the store afterwards with the same [sa_email], [audience],
    [project] and [refresh_mode]: a refresh writes tokens and expiry times
    and nothing else. *)
Theorem refresh_changes_tokens_only env self depth cred_info cloud_vendor
        (r : ref) g (w : World) :
  creds w !! r = Some (GCP g) ->
  exists g',
    creds (snd (refresh_token_if_expired env self (get_secret env self depth)
                  cred_info cloud_vendor w)) !! r = Some (GCP g')
    /\ same_identity g g'.
Proof.
  intros Hr.
  apply (frames_lookup _ w r g); [|exact Hr].
  apply frames_refresh_token_if_expired. intros. apply frames_get_secret.
Qed.

Lemma refresh_changes_tokens_only_witness :
  let w := Demo.world_of (Demo.gcp_record (PStr "internal") PNone (PStr "TOKEN-0")
                            (PStr "2024-02-29T23:59:59Z")) in
  exists g',
    creds (snd (refresh_token_if_expired Demo.env Demo.narcon
                  (get_secret Demo.env Demo.narcon 3) (Some 0%nat) "gcp" w)) !! 0%nat
    = Some (GCP g')
    /\ GCPCredInfo.audience g'
       = PStr "//iam.googleapis.com/projects/1/providers/giver-aws".
Proof.
  intros w.
  destruct (refresh_changes_tokens_only Demo.env Demo.narcon 3 (Some 0%nat) "gcp" 0%nat _ w
              eq_refl) as (g' & Hg' & _ & Ha & _).
  exists g'. split; [exact Hg' | exact Ha].
Defined.

(** X6.  At the very instant of expiry the token counts as expired: an
    expiry equal to the clock reading runs [generate_access_token]. *)
Theorem gcp_gate_at_expiry env self gs (r : ref) g dt (w : World) :
  creds w !! r = Some (GCP g) ->
  env_isoparse env (GCPCredInfo.token_expiry g) = Ok dt ->
  DateUtil.eq_tzutc (DateUtil.tz dt) = true ->
  DateUtil.wall dt = env_now env (trace w) ->
  refresh_token_if_expired env self gs (Some r) "gcp" w
  = generate_access_token env self gs (Some r) (with_trace (trace w ++ [EvClock]) w).
Proof.
  intros Hr Hparse Hzone Hnow.
  unfold refresh_token_if_expired. cbn [String.eqb Ascii.eqb Bool.eqb].
  rewrite (bind_ok _ _ _ _ _ (gcp_field_read _ _ _ _ _ Hr)).
  unfold bind at 1. unfold lift at 1. rewrite Hparse, Hzone. cbn [negb].
  unfold bind at 1. unfold clock, call.
  unfold bind at 1. unfold lift at 1. unfold DateUtil.le.
  rewrite (utc_instant _ Hzone).
  cbn [DateUtil.instant DateUtil.now_utc DateUtil.tz DateUtil.wall].
  rewrite Hnow, Z.leb_refl. reflexivity.
Qed.

Lemma gcp_gate_at_expiry_witness :
  let gs := get_secret Demo.env Demo.narcon 3 in
  let w := Demo.world_of (Demo.gcp_record (PStr "internal") PNone (PStr "TOKEN-0")
                            (PStr "2024-03-01T00:00:00Z")) in
  refresh_token_if_expired Demo.env Demo.narcon gs (Some 0%nat) "gcp" w
  = generate_access_token Demo.env Demo.narcon gs (Some 0%nat)
      (with_trace (trace w ++ [EvClock]) w).
Proof.
  intros gs w.
  eapply (gcp_gate_at_expiry Demo.env Demo.narcon gs 0%nat);
    [reflexivity | vm_compute; reflexivity | reflexivity | vm_compute; reflexivity].
Defined.

(** ** A connector whose own credential is external *)

Section OwnExternalCredential.
Variable env : Env.
Variable self : Narcon.t.
Variable r : ref.
Variable g : GCPCredInfo.t.
Variable dt : DateUtil.datetime.
Hypothesis own : Narcon.cred_info self = Some r.
Hypothesis has_token : truthy (GCPCredInfo.token g) = true.
Hypothesis external : GCPCredInfo.refresh_mode g = PStr "external".
Hypothesis parses : env_isoparse env (GCPCredInfo.token_expiry g) = Ok dt.
Hypothesis utc : DateUtil.eq_tzutc (DateUtil.tz dt) = true.
Hypothesis expired : forall tr, DateUtil.wall dt <= env_now env tr.

(** One level of the recursion: if reading a secret one level down ends in
    [RecursionError] with the store untouched, so does the refresh of the
    connector's credential. *)
Lemma own_refresh_recurses (gs : string -> string -> M string) w :
  (forall name version w0,
      creds w0 !! r = Some (GCP g) ->
      exists w', gs name version w0 = (Raise RecursionError, w') /\ creds w' = creds w0) ->
  creds w !! r = Some (GCP g) ->
  exists w',
    refresh_token_if_expired env self gs (Some r) "gcp" w = (Raise RecursionError, w')
    /\ creds w' = creds w.
Proof.
  intros Hgs Hr.
  set (w1 := with_trace (trace w ++ [EvClock]) w).
  assert (Hr1 : creds w1 !! r = Some (GCP g)) by exact Hr.
  destruct (Hgs "AWS_COGNITO_POOL_ID" "latest" w1 Hr1) as (w' & Hrun & Hcreds).
  exists w'. split; [|exact Hcreds].
  unfold refresh_token_if_expired. cbn [String.eqb Ascii.eqb Bool.eqb].
  rewrite (bind_ok _ _ _ _ _ (gcp_field_read _ _ _ _ _ Hr)).
  unfold bind at 1. unfold lift at 1. rewrite parses, utc. cbn [negb].
  unfold bind at 1. unfold clock, call. fold w1.
  unfold bind at 1. unfold lift at 1. unfold DateUtil.le.
  rewrite (utc_instant _ utc).
  cbn [DateUtil.instant DateUtil.now_utc DateUtil.tz DateUtil.wall].
  replace (DateUtil.wall dt <=? env_now env (trace w)) with true
    by (symmetry; apply Z.leb_le; apply expired).
  unfold generate_access_token.
  rewrite (bind_ok _ _ _ _ _ (gcp_field_read _ _ _ _ _ Hr1)), external.
  cbn [eq_str String.eqb Ascii.eqb Bool.eqb].
  apply bind_raise. apply bind_raise. unfold external_exchange.
  apply bind_raise. unfold get_cognito_token. apply bind_raise. exact Hrun.
Qed.

Lemma own_secret_recurses depth :
  forall name version w,
    creds w !! r = Some (GCP g) ->
    exists w',
      get_secret env self depth name version w = (Raise RecursionError, w')
      /\ creds w' = creds w.
Proof.
  induction depth as [|d IH]; intros name version w Hr.
  - exists w. split; reflexivity.
  - destruct (own_refresh_recurses (get_secret env self d) w IH Hr) as (w' & Hrun & Hcreds).
    exists w'. split; [|exact Hcreds].
    cbn [get_secret]. unfold get_secret_body. rewrite own.
    apply bind_raise.
    rewrite (bind_ok _ _ _ _ _ (gcp_field_read _ _ _ _ _ Hr)), has_token.
    apply bind_raise. exact Hrun.
Qed.

End OwnExternalCredential.

(** X7.  A connector that holds an external-mode credential of its own,
    with a token that has expired, cannot read a secret: the refresh needs
    secrets itself, reading them runs the refresh again, and the call ends
    in [RecursionError] at every depth of the stack, with the store as it
    was. *)
Theorem own_external_credential_recursion env self depth (r : ref) g dt
        (name version : string) (w : World) :
  Narcon.cred_info self = Some r ->
  creds w !! r = Some (GCP g) ->
  truthy (GCPCredInfo.token g) = true ->
  GCPCredInfo.refresh_mode g = PStr "external" ->
  env_isoparse env (GCPCredInfo.token_expiry g) = Ok dt ->
  DateUtil.eq_tzutc (DateUtil.tz dt) = true ->
  (forall tr, DateUtil.wall dt <= env_now env tr) ->
  exists w',
    get_secret env self depth name version w = (Raise RecursionError, w')
    /\ creds w' = creds w.
Proof.
  intros Hown Hr Htoken Hmode Hparse Hutc Hexpired.
  eapply own_secret_recurses; eassumption.
Qed.

Lemma own_external_credential_recursion_witness :
  let w := Demo.world_of (Demo.gcp_record (PStr "external") (PStr Demo.CLIENT_SA)
                            (PStr "TOKEN-0") (PStr "2024-02-29T23:59:59Z")) in
  exists w',
    get_secret Demo.env Demo.narcon_with_cred 5 "CS_TEST" "latest" w
    = (Raise RecursionError, w')
    /\ creds w' = creds w.
Proof.
  intros w.
  eapply (own_external_credential_recursion Demo.env Demo.narcon_with_cred 5 0%nat);
    [reflexivity | reflexivity | reflexivity | reflexivity | vm_compute; reflexivity
    | reflexivity | intros tr; vm_compute; discriminate].
Defined.

(** ** The Azure side of the refresh check *)

Lemma others_kept_refl w : others_kept w w.
Proof. intros r c H _. exact H. Qed.

Lemma others_kept_trans w1 w2 w3 :
  others_kept w1 w2 -> others_kept w2 w3 -> others_kept w1 w3.
Proof. intros H12 H23 r c H Hc. apply H23; [apply H12|]; assumption. Qed.

Lemma keeps_ret {A} (a : A) : keeps_others (ret a).
Proof. intros w. apply others_kept_refl. Qed.

Lemma keeps_raise {A} e : keeps_others (@raise A e).
Proof. intros w. apply others_kept_refl. Qed.

Lemma keeps_lift {A} (o : outcome A) : keeps_others (lift o).
Proof. intros w. apply others_kept_refl. Qed.

Lemma keeps_call {A} ev (answer : list Event -> outcome A) : keeps_others (call ev answer).
Proof. intros w r c H _. exact H. Qed.

Lemma keeps_check failure : keeps_others (check failure).
Proof.
  intros w. unfold check. destruct (failure (trace w)); apply others_kept_refl.
Qed.

Lemma keeps_bind {A B} (m : M A) (k : A -> M B) :
  keeps_others m -> (forall a, keeps_others (k a)) -> keeps_others (bind m k).
Proof.
  intros Hm Hk w. unfold bind. specialize (Hm w).
  destruct (m w) as [[a|e] w1]; cbn [snd] in *.
  - eapply others_kept_trans; [exact Hm | apply Hk].
  - exact Hm.
Qed.

Lemma keeps_try {A} (m : M A) (h : PyExc -> M A) :
  keeps_others m -> (forall e, keeps_others (h e)) -> keeps_others (try_except m h).
Proof.
  intros Hm Hh w. unfold try_except. specialize (Hm w).
  destruct (m w) as [[a|e] w1]; cbn [snd] in *.
  - exact Hm.
  - eapply others_kept_trans; [exact Hm | apply Hh].
Qed.

Lemma keeps_gcp_field {A} cred_info name (field : GCPCredInfo.t -> A) :
  keeps_others (gcp_field cred_info name field).
Proof.
  intros w. unfold gcp_field, no_attribute, raise. destruct cred_info as [r|];
    [|apply others_kept_refl].
  unfold bind, read_cred, dangling, raise, ret.
  destruct (creds w !! r) as [[g|a|a]|]; apply others_kept_refl.
Qed.

(** An assignment to a field of a [GCPCredInfo] writes over a
    [GCPCredInfo]. *)
Lemma keeps_gcp_assign cred_info name update : keeps_others (gcp_assign cred_info name update).
Proof.
  intros w. unfold gcp_assign, no_attribute, raise. destruct cred_info as [r|];
    [|apply others_kept_refl].
  unfold bind, read_cred, dangling, raise, write_cred.
  destruct (creds w !! r) as [[g|a|a]|] eqn:Hr; cbn [snd]; try apply others_kept_refl.
  intros r0 c H0 Hc. cbn [creds with_creds].
  destruct (decide (r = r0)) as [->|Hne].
  - rewrite H0 in Hr. injection Hr as ->. exfalso. now apply (Hc g).
  - rewrite list_lookup_insert_ne by exact Hne. exact H0.
Qed.

Ltac keep_step :=
  first
    [ match goal with
      | H : context [keeps_others] |- keeps_others _ => solve [apply H]
      end
    | apply keeps_ret
    | apply keeps_raise
    | apply keeps_lift
    | apply keeps_call
    | apply keeps_check
    | apply keeps_gcp_field
    | apply keeps_gcp_assign
    | match goal with
      | |- keeps_others (bind _ _) => apply keeps_bind; [|intro]
      | |- keeps_others (try_except _ _) => apply keeps_try; [|intro]
      | |- keeps_others (if ?b then _ else _) => destruct b
      | |- keeps_others (match ?x with _ => _ end) => destruct x
      end ].

Section OthersKept.
Variable env : Env.
Variable self : Narcon.t.
Variable gs : string -> string -> M string.
Hypothesis gs_keeps : forall name version, keeps_others (gs name version).

Lemma keeps_get_cognito_token open_id : keeps_others (get_cognito_token env gs open_id).
Proof. unfold get_cognito_token, boto_client, boto_call. repeat keep_step. Qed.

Lemma keeps_generate_access_token cred_info :
  keeps_others (generate_access_token env self gs cred_info).
Proof.
  unfold generate_access_token, internal_exchange, external_exchange,
    get_aws_caller_identity, get_aws_cred_session, add_auth, frozen_credentials,
    get_gcp_sts_token, gcp_impersonate_token, httpx_post.
  pose proof keeps_get_cognito_token. repeat keep_step.
Qed.

(** With the tag [gcp] the check leaves every other kind of record alone. *)
Lemma keeps_refresh_gcp cred_info :
  keeps_others (refresh_token_if_expired env self gs cred_info "gcp").
Proof.
  unfold refresh_token_if_expired, clock. cbn [String.eqb Ascii.eqb Bool.eqb].
  pose proof keeps_generate_access_token. repeat keep_step.
Qed.

End OthersKept.

Lemma keeps_get_secret env self depth name version :
  keeps_others (get_secret env self depth name version).
Proof.
  revert name version. induction depth as [|d IH]; intros name version.
  - apply keeps_raise.
  - cbn [get_secret]. unfold get_secret_body.
    pose proof (keeps_refresh_gcp env self _ IH). repeat keep_step.
Qed.

Lemma az_field_read {A} (field : AZCredInfo.t -> A) name (r : ref) a w :
  creds w !! r = Some (AZ a) ->
  az_field (Some r) name field w = (Ok (field a), w).
Proof. intros H. unfold az_field, bind, read_cred. now rewrite H. Qed.

(** X8.  For an Azure record the check reads the clock once and compares
    whole seconds.  A token that expires later than the current second is
    left alone.  Otherwise one new token is asked for; when it arrives the
    credential of the record is replaced by it and the other fields stay,
    and when asking fails the record is as it was. *)
Theorem azure_gate env self depth (r : ref) a credential (w : World) :
  creds w !! r = Some (AZ a) ->
  AZCredInfo.credential a = Some credential ->
  let gs := get_secret env self depth in
  let expiry := AccessToken.expires_on (AZTokenCredential.access_token credential) in
  let current_time := Z.quot (env_now env (trace w)) 1000000 in
  let w1 := with_trace (trace w ++ [EvClock]) w in
  let run := refresh_token_if_expired env self gs (Some r) "azure" w in
  (current_time < expiry -> run = (Ok tt, w1))
  /\ (expiry <= current_time ->
      match client_assertion_token env gs (AZCredInfo.tenant_id a) (AZCredInfo.client_id a)
              AZ_TARGET_SCOPES w1 with
      | (Ok az_token, w2) =>
          run = (Ok tt,
                 with_creds
                   (<[r := AZ (AZCredInfo.set_credential
                                 (Some {| AZTokenCredential.access_token := az_token |}) a)]>
                      (creds w2)) w2)
      | (Raise e, w2) => run = (Raise e, w2) /\ creds w2 !! r = Some (AZ a)
      end).
Proof.
  intros Hr Hcred gs expiry current_time w1 run.
  assert (Hhead : run
                  = (if expiry <=? current_time
                     then
                       tenant_id <- az_field (Some r) "tenant_id" AZCredInfo.tenant_id ;;
                       client_id <- az_field (Some r) "client_id" AZCredInfo.client_id ;;
                       az_token <- client_assertion_token env gs tenant_id client_id
                                     AZ_TARGET_SCOPES ;;
                       az_assign (Some r) "credential"
                         (AZCredInfo.set_credential
                            (Some {| AZTokenCredential.access_token := az_token |}))
                     else ret tt) w1).
  { subst run. unfold refresh_token_if_expired. cbn [String.eqb Ascii.eqb Bool.eqb].
    rewrite (bind_ok _ _ _ _ _ (az_field_read _ _ _ _ _ Hr)), Hcred.
    unfold bind at 1. unfold clock, call. reflexivity. }
  assert (Hr1 : creds w1 !! r = Some (AZ a)) by exact Hr.
  split; intros Hcmp; rewrite Hhead.
  - replace (expiry <=? current_time) with false by (symmetry; apply Z.leb_gt; lia).
    reflexivity.
  - replace (expiry <=? current_time) with true by (symmetry; apply Z.leb_le; lia).
    rewrite (bind_ok _ _ _ _ _ (az_field_read _ _ _ _ _ Hr1)).
    rewrite (bind_ok _ _ _ _ _ (az_field_read _ _ _ _ _ Hr1)).
    assert (Hkeep : keeps_others (client_assertion_token env gs (AZCredInfo.tenant_id a)
                                    (AZCredInfo.client_id a) AZ_TARGET_SCOPES)).
    { unfold client_assertion_token.
      pose proof (keeps_get_cognito_token env gs
                    (fun n v => keeps_get_secret env self depth n v)).
      repeat keep_step. }
    specialize (Hkeep w1 r (AZ a) Hr1 ltac:(discriminate)).
    destruct (client_assertion_token env gs (AZCredInfo.tenant_id a) (AZCredInfo.client_id a)
                AZ_TARGET_SCOPES w1) as [[az_token|e] w2] eqn:Hask; cbn [snd] in Hkeep.
    + unfold bind at 1. rewrite Hask.
      unfold az_assign, bind, read_cred, write_cred. rewrite Hkeep. reflexivity.
    + split; [|exact Hkeep]. unfold bind at 1. now rewrite Hask.
Qed.

Lemma azure_gate_witness :
  let a := {| AZCredInfo.account_name := PStr "account"; AZCredInfo.tenant_id := PStr "tenant";
              AZCredInfo.client_id := PStr "client"; AZCredInfo.client_secret := PNone;
              AZCredInfo.credential :=
                Some {| AZTokenCredential.access_token :=
                          {| AccessToken.token := "AZURE-OLD";
                             AccessToken.expires_on := 1709251200 |} |} |} in
  let w := Demo.world_of (AZ a) in
  let new := {| AccessToken.token := "AZURE-TOKEN"; AccessToken.expires_on := 1709254800 |} in
  exists w2,
    refresh_token_if_expired Demo.env Demo.narcon (get_secret Demo.env Demo.narcon 3)
      (Some 0%nat) "azure" w
    = (Ok tt, w2)
    /\ creds w2
       = [AZ (AZCredInfo.set_credential
                (Some {| AZTokenCredential.access_token := new |}) a)].
Proof.
  intros a w new.
  pose proof (proj2 (azure_gate Demo.env Demo.narcon 3 0%nat a _ w eq_refl eq_refl)) as H.
  cbv zeta in H. specialize (H ltac:(vm_compute; discriminate)).
  eexists. split; [exact H | reflexivity].
Defined.

(** ** Credentials for signing *)

(** The first of [keys] that [d] has no entry for. *)
Lemma first_missing_key d keys :
  (exists k, In k keys /\ assoc k d = None) ->
  exists before k after,
    keys = before ++ k :: after
    /\ assoc k d = None
    /\ Forall (fun k' => exists v, assoc k' (A := pyval) d = Some v) before.
Proof.
  induction keys as [|k0 keys IH]; intros [k [Hin Hnone]]; [destruct Hin|].
  destruct (assoc k0 d) as [v|] eqn:H0.
  - destruct Hin as [->|Hin]; [congruence|].
    destruct (IH (ex_intro _ k (conj Hin Hnone))) as (before & k' & after & -> & Hk' & Hb).
    exists (k0 :: before), k', after. split; [reflexivity|]. split; [exact Hk'|].
    constructor; [now exists v | exact Hb].
  - exists [], k0, keys. split; [reflexivity|]. split; [exact H0 | constructor].
Qed.

(** X9.  Explicit AWS credentials must be complete.  A non-empty
    dictionary that lacks one of [AccessKeyId], [SecretKey] and
    [SessionToken] raises [KeyError] for the first key that is missing, and
    no session is opened: the credentials of the environment are not used
    in its place. *)
Theorem explicit_credentials_must_be_complete env (d : list (string * pyval)) (w : World) :
  d <> [] ->
  (exists k, In k SESSION_KEYS /\ assoc k d = None) ->
  exists k,
    In k SESSION_KEYS
    /\ assoc k d = None
    /\ get_aws_cred_session env (PDict d) w = (Raise (KeyError k), w).
Proof.
  intros Hd Hmissing.
  destruct (first_missing_key d SESSION_KEYS Hmissing)
    as (before & k & after & Hkeys & Hnone & Hbefore).
  exists k. split; [rewrite Hkeys; apply in_elt|]. split; [exact Hnone|].
  unfold get_aws_cred_session.
  replace (truthy (PDict d)) with true by (destruct d; [contradiction | reflexivity]).
  unfold bind, lift, getitem.
  unfold SESSION_KEYS in Hkeys.
  destruct before as [|k1 [|k2 [|k3 before]]]; cbn in Hkeys.
  - injection Hkeys as <- _. now rewrite Hnone.
  - injection Hkeys as <- <- _. inversion Hbefore as [|? ? [v1 H1] _]; subst.
    now rewrite H1, Hnone.
  - injection Hkeys as <- <- <- _.
    inversion Hbefore as [|? ? [v1 H1] Hrest]; subst.
    inversion Hrest as [|? ? [v2 H2] _]; subst.
    now rewrite H1, H2, Hnone.
  - exfalso. injection Hkeys as _ _ _ Hk. destruct before; discriminate Hk.
Qed.

Lemma explicit_credentials_witness :
  exists k,
    In k SESSION_KEYS
    /\ assoc k [("AccessKeyId", PStr "AKIA"); ("SessionToken", PStr "SESSION")] = None
    /\ get_aws_cred_session Demo.env
         (PDict [("AccessKeyId", PStr "AKIA"); ("SessionToken", PStr "SESSION")]) empty_world
       = (Raise (KeyError k), empty_world).
Proof.
  apply (explicit_credentials_must_be_complete Demo.env); [discriminate|].
  exists "SecretKey". split; [right; left; reflexivity | reflexivity].
Defined.

(** X10.  The token [get_aws_caller_identity] returns can be put into a URL
    or a form body as it is: it consists of letters, digits, [_.-~], [/] and
    percent escapes, whatever the audience and whatever the signer put into
    the headers. *)
Theorem caller_identity_token_is_url_safe env (audience aws_cred : pyval)
        (http_method token : string) (w w' : World) :
  get_aws_caller_identity env audience aws_cred http_method w = (Ok token, w') ->
  forallb Url.url_safe_char (list_ascii_of_string token) = true.
Proof.
  unfold get_aws_caller_identity. intros H.
  apply bind_ok_inv in H as (cred & w1 & _ & H).
  apply bind_ok_inv in H as (request & w2 & _ & H).
  unfold ret in H. injection H as <- _. apply quote_url_safe.
Qed.

Lemma caller_identity_token_is_url_safe_witness :
  forallb Url.url_safe_char
    (list_ascii_of_string
       (Url.quote
          (Json.dumps "," ":" true
             (signed_request_token AWS_STS_URL "POST"
                [("Host", PStr "sts.amazonaws.com");
                 ("x-goog-cloud-target-resource", PStr "a b");
                 ("X-Amz-Date", PStr "20240301T000000Z");
                 ("Authorization",
                  PStr "AWS4-HMAC-SHA256 Credential=AKIA-ENV/20240301/us-east-1/sts/aws4_request, SignedHeaders=host;x-amz-date;x-goog-cloud-target-resource, Signature=0")]))))
  = true.
Proof.
  eapply (caller_identity_token_is_url_safe Demo.env (PStr "a b") PNone "POST" _ empty_world).
  vm_compute. reflexivity.
Defined.

(** ** Impersonation *)

(** X11.  [gcp_impersonate_token] sends one POST for the account, with the
    token as bearer and, in debug mode only, a lifetime of ten seconds.  A
    2xx answer that is JSON is returned as it is, whatever it holds; any
    other status raises [Exception] with the prefix
    [FAILED TO GENERATE IMPERSONATED GCP TOKEN: ]. *)
Theorem impersonation_outcomes env self (sa_email gcp_token : pyval) (w : World) :
  let rq := impersonation_request (Narcon.debug self) sa_email gcp_token in
  let run := gcp_impersonate_token env self sa_email gcp_token w in
  snd run = with_trace (trace w ++ [EvHttp rq]) w
  /\ (forall resp v,
         env_http env (trace w) rq = Ok resp ->
         200 <= status_code resp <= 299 ->
         body resp = Some v ->
         fst run = Ok v)
  /\ (forall resp,
         env_http env (trace w) rq = Ok resp ->
         status_code resp < 200 \/ 299 < status_code resp ->
         fst run = Raise (ExceptionFrom "FAILED TO GENERATE IMPERSONATED GCP TOKEN: "
                            (HTTPStatusError (status_code resp)))).
Proof.
  intros rq run.
  assert (Hrq : run
                = try_except
                    (response <- httpx_post env rq ;;
                     lift (raise_for_status response) ;;
                     lift (json response))
                    (fun e => raise (ExceptionFrom
                                       "FAILED TO GENERATE IMPERSONATED GCP TOKEN: " e)) w).
  { subst run rq. unfold gcp_impersonate_token, impersonation_request.
    destruct (Narcon.debug self); reflexivity. }
  rewrite Hrq. clear Hrq.
  unfold try_except, bind, httpx_post, call, lift, raise.
  destruct (env_http env (trace w) rq) as [resp|e] eqn:Hhttp.
  - unfold raise_for_status, json.
    destruct ((200 <=? status_code resp) && (status_code resp <=? 299)) eqn:Hst.
    + apply andb_true_iff in Hst as [H1 H2].
      apply Z.leb_le in H1. apply Z.leb_le in H2.
      split; [|split].
      * destruct (body resp); reflexivity.
      * intros resp' v Heq _ Hbody. injection Heq as <-. now rewrite Hbody.
      * intros resp' Heq Hout. injection Heq as <-. lia.
    + apply andb_false_iff in Hst.
      split; [reflexivity|split].
      * intros resp' v Heq Hin. injection Heq as <-.
        destruct Hst as [H|H]; apply Z.leb_gt in H; lia.
      * intros resp' Heq _. injection Heq as <-. reflexivity.
  - split; [reflexivity|split]; intros; discriminate.
Qed.

Lemma impersonation_outcomes_witness :
  let env := Demo.with_http Demo.http_without_expiry Demo.env in
  fst (gcp_impersonate_token env Demo.narcon (PStr NARWHAL_SA) (PStr "STS-TOKEN") empty_world)
  = Ok (PDict [("accessToken", PStr "TOKEN-NEW")]).
Proof.
  intros env.
  eapply (proj1 (proj2 (impersonation_outcomes env Demo.narcon (PStr NARWHAL_SA)
                          (PStr "STS-TOKEN") empty_world)));
    [reflexivity | cbn; lia | reflexivity].
Defined.

(** ** Account information *)

Lemma scan_other_vendor cloud_vendor entries :
  cloud_vendor <> "azure" -> cloud_vendor <> "gcp" ->
  forall v, scan_acc_info cloud_vendor entries <> Ok (Some v).
Proof.
  intros Haz Hgcp v. apply String.eqb_neq in Haz. apply String.eqb_neq in Hgcp.
  induction entries as [|acc_info rest IH]; [discriminate|].
  cbn [scan_acc_info]. destruct (get acc_info "type") as [ty|e]; [|discriminate].
  rewrite Haz, Hgcp, !andb_false_r. exact IH.
Qed.

(** X12.  Account information exists for [azure] and [gcp] only: for any
    other vendor tag [get_sama_acc_info] never returns, whatever the
    accounts service answers. *)
Theorem acc_info_only_for_azure_and_gcp env gs (client_id : pyval) (cloud_vendor : string)
        (w : World) :
  cloud_vendor <> "azure" -> cloud_vendor <> "gcp" ->
  exists e w', get_sama_acc_info env gs client_id cloud_vendor w = (Raise e, w').
Proof.
  intros Haz Hgcp.
  destruct (get_sama_acc_info env gs client_id cloud_vendor w) as [[v|e] w'] eqn:Hrun;
    [|now exists e, w'].
  exfalso. unfold get_sama_acc_info in Hrun.
  apply bind_ok_inv in Hrun as (acc_url & w1 & _ & Hrun).
  apply bind_ok_inv in Hrun as (acc_key & w2 & _ & Hrun).
  apply try_except_ok_inv in Hrun; [|discriminate].
  apply bind_ok_inv in Hrun as (response & w3 & _ & Hrun).
  apply bind_ok_inv in Hrun as (? & w4 & _ & Hrun).
  apply bind_ok_inv in Hrun as (data & w5 & _ & Hrun).
  apply bind_ok_inv in Hrun as (acc_info_arr & w6 & _ & Hrun).
  apply bind_ok_inv in Hrun as (found & w7 & Hfound & Hrun).
  destruct found as [v'|]; [|discriminate].
  destruct (truthy acc_info_arr); [|discriminate].
  apply bind_ok_inv in Hfound as (entries & w8 & _ & Hscan).
  unfold lift in Hscan. injection Hscan as Hscan _.
  exact (scan_other_vendor cloud_vendor entries Haz Hgcp v' Hscan).
Qed.

Lemma acc_info_only_for_azure_and_gcp_witness :
  exists e w',
    get_sama_acc_info Demo.env (get_secret Demo.env Demo.narcon 3) (PStr "client-1") "aws"
      empty_world = (Raise e, w').
Proof.
  apply (acc_info_only_for_azure_and_gcp Demo.env); discriminate.
Defined.

(* ================================================================== *)
(** * Further properties: opening a storage session *)
(* ================================================================== *)

Lemma get_fs_returns_stored env (cs : ref) (w w1 : World) fs :
  get_fs env cs w = (Ok fs, w1) ->
  exists h s, fs = Some h /\ storages w1 !! cs = Some s /\ CloudStorage.fs s = Some h.
Proof.
  unfold get_fs. intros H.
  apply bind_ok_inv in H as (s & w0 & Hread & H).
  apply read_storage_inv in Hread as [-> Hs].
  apply bind_ok_inv in H as ([] & w2 & Hset & H).
  apply bind_ok_inv in H as (s2 & w3 & Hread2 & H).
  apply read_storage_inv in Hread2 as [-> Hs2].
  unfold ret in H. injection H as <- <-.
  destruct (CloudStorage.fs s) as [h|] eqn:Hfs.
  - unfold ret in Hset. injection Hset as <-.
    rewrite Hs in Hs2. injection Hs2 as <-. now exists h, s.
  - apply set_fs_sets in Hset as (s' & h & Hs' & Hh).
    rewrite Hs' in Hs2. injection Hs2 as <-. now exists h, s'.
Qed.

(** X13.  For a vendor other than [aws] a client id is required: without
    one [get_storage] raises at once, before anything is created, read or
    sent. *)
Theorem get_storage_needs_client_id env self gs (cloud_vendor : option string)
        (client_id az_acc_name : pyval) (set_self : bool) (w : World) :
  chosen_vendor self cloud_vendor <> "aws" ->
  truthy client_id = false ->
  get_storage env self gs cloud_vendor client_id set_self az_acc_name w
  = (Raise (Exception_ "FAILED TO SETUP ClOUD STORAGE, PLEASE CHECK YOUR INPUTS!"), w).
Proof.
  intros Hv Hid. apply String.eqb_neq in Hv.
  unfold get_storage. fold (chosen_vendor self cloud_vendor).
  unfold remote_storage. rewrite Hv, Hid. reflexivity.
Qed.

Lemma get_storage_needs_client_id_witness :
  get_storage Demo.env Demo.narcon (get_secret Demo.env Demo.narcon 3) (Some "gcp") PNone
    false PNone empty_world
  = (Raise (Exception_ "FAILED TO SETUP ClOUD STORAGE, PLEASE CHECK YOUR INPUTS!"),
     empty_world).
Proof.
  apply (get_storage_needs_client_id Demo.env Demo.narcon); [discriminate | reflexivity].
Defined.

(** X14.  [get_storage] does not go through the factory: a vendor tag
    outside the valid set, given with a client id, gets as far as a
    [CloudStorage] without credentials and fails only when the client is asked
    for, with [NotImplementedError]; nothing is sent. *)
Theorem get_storage_unknown_vendor env self gs (cloud_vendor : string)
        (client_id az_acc_name : pyval) (set_self : bool) (w : World) :
  cloud_vendor <> "" ->
  ~ In cloud_vendor VALID_CLOUD_VENDORS ->
  truthy client_id = true ->
  get_storage env self gs (Some cloud_vendor) client_id set_self az_acc_name w
  = (Raise (NotImplementedError ("Unsupported cloud vendor: " +:+ cloud_vendor)),
     with_storages (storages w ++ [CloudStorage_init cloud_vendor no_kwargs]) w).
Proof.
  intros Hne Hv Hid.
  assert (Haws : String.eqb cloud_vendor "aws" = false)
    by (apply String.eqb_neq; intros ->; apply Hv; left; reflexivity).
  assert (Hgcp : String.eqb cloud_vendor "gcp" = false)
    by (apply String.eqb_neq; intros ->; apply Hv; right; left; reflexivity).
  assert (Haz : String.eqb cloud_vendor "azure" = false)
    by (apply String.eqb_neq; intros ->; apply Hv; right; right; left; reflexivity).
  apply String.eqb_neq in Hne.
  set (s := CloudStorage_init cloud_vendor no_kwargs).
  set (w1 := with_storages (storages w ++ [s]) w).
  assert (Hs : storages w1 !! length (storages w) = Some s)
    by (apply list_lookup_middle; reflexivity).
  assert (Hremote : remote_storage env self gs cloud_vendor client_id az_acc_name w
                    = (Ok (Some (length (storages w))), w1)).
  { unfold remote_storage. rewrite Haws, Hid.
    unfold bind at 1. unfold new_storage. fold s. fold w1.
    rewrite (bind_ok _ _ _ _ _ (read_storage_ok _ _ _ Hs)).
    cbn [CloudStorage.cloud_vendor s CloudStorage_init]. rewrite Hgcp, Haz. reflexivity. }
  unfold get_storage. rewrite Hne.
  rewrite (bind_ok _ _ _ _ _ Hremote).
  assert (Hfs : get_fs env (length (storages w)) w1
                = (Raise (NotImplementedError ("Unsupported cloud vendor: " +:+ cloud_vendor)),
                   w1)).
  { unfold get_fs. rewrite (bind_ok _ _ _ _ _ (read_storage_ok _ _ _ Hs)).
    cbn [CloudStorage.fs s CloudStorage_init kw_fs no_kwargs].
    apply bind_raise. unfold set_fs.
    rewrite (bind_ok _ _ _ _ _ (read_storage_ok _ _ _ Hs)).
    cbn [CloudStorage.cloud_vendor s CloudStorage_init]. rewrite Haws, Hgcp, Haz.
    reflexivity. }
  apply bind_raise.
  destruct (in_list cloud_vendor ["gcp"; "azure"]); apply bind_raise; exact Hfs.
Qed.

Lemma get_storage_unknown_vendor_witness :
  get_storage Demo.env Demo.narcon (get_secret Demo.env Demo.narcon 3) (Some "bogus")
    (PStr "client-1") false PNone empty_world
  = (Raise (NotImplementedError "Unsupported cloud vendor: bogus"),
     with_storages [CloudStorage_init "bogus" no_kwargs] empty_world).
Proof.
  apply (get_storage_unknown_vendor Demo.env Demo.narcon);
    [discriminate | intros [H|[H|[H|[]]]]; discriminate H | reflexivity].
Defined.



Lemma internal_refresh_writes_last_witness :
  let gs := get_secret Demo.env Demo.narcon 3 in
  let g := {| GCPCredInfo.sa_email := PNone;
              GCPCredInfo.audience :=
                PStr "//iam.googleapis.com/projects/1/providers/giver-aws";
              GCPCredInfo.token_expiry := PStr "2024-02-29T23:59:59Z";
              GCPCredInfo.token := PStr "TOKEN-0";
              GCPCredInfo.project := PNone;
              GCPCredInfo.refresh_mode := PStr "internal" |} in
  let w := Demo.world_of (GCP g) in
  match internal_exchange Demo.env Demo.narcon (Some 0%nat) w with
  | (Raise e, w') =>
      generate_access_token Demo.env Demo.narcon gs (Some 0%nat) w = (Raise e, w')
      /\ creds w' = creds w
  | (Ok token_info, w') =>
      creds w' = creds w
      /\ forall access_token expire_time,
          getitem token_info "accessToken" = Ok access_token ->
          getitem token_info "expireTime" = Ok expire_time ->
          generate_access_token Demo.env Demo.narcon gs (Some 0%nat) w
          = (Ok tt,
             with_creds
               (<[0%nat := GCP (GCPCredInfo.set_token_expiry expire_time
                                  (GCPCredInfo.set_token access_token g))]> (creds w)) w')
  end.
Proof.
  intros gs g w.
  exact (internal_refresh_writes_last Demo.env Demo.narcon gs 0%nat g w eq_refl eq_refl).
Defined.

(* ================================================================== *)
(** * Further properties: task names, access keys and tasks *)
(* ================================================================== *)

Import Tasks.

Lemma length_append a b : String.length (a +:+ b) = (String.length a + String.length b)%nat.
Proof.
  induction a as [|c a IH]; [reflexivity|].
  change (S (String.length (a +:+ b)) = S (String.length a + String.length b)).
  now f_equal.
Qed.

Lemma append_cancel_r t t' z : t +:+ z = t' +:+ z -> t = t'.
Proof.
  revert t'. induction t as [|c t IH]; intros [|c' t'] H.
  - reflexivity.
  - exfalso. apply (f_equal String.length) in H.
    rewrite !length_append in H. cbn [String.length] in H. lia.
  - exfalso. apply (f_equal String.length) in H.
    rewrite !length_append in H. cbn [String.length] in H. lia.
  - change (String c (t +:+ z) = String c' (t' +:+ z)) in H.
    injection H as <- H. f_equal. now apply IH.
Qed.

(** Two strings that agree up to and including the first [c]. *)
Lemma split_at_first c p p' x x' :
  free_of c p -> free_of c p' ->
  p +:+ String c x = p' +:+ String c x' -> p = p' /\ x = x'.
Proof.
  unfold free_of. revert p'. induction p as [|a p IH]; intros [|a' p'] Hp Hp' H.
  - change (String c x = String c x') in H. injection H as ->. now split.
  - exfalso. change (String c x = String a' (p' +:+ String c x')) in H.
    injection H as <- _. cbn [mem_char] in Hp'. now rewrite Ascii.eqb_refl in Hp'.
  - exfalso. change (String a (p +:+ String c x) = String c x') in H.
    injection H as -> _. cbn [mem_char] in Hp. now rewrite Ascii.eqb_refl in Hp.
  - change (String a (p +:+ String c x) = String a' (p' +:+ String c x')) in H.
    injection H as <- H. cbn [mem_char] in Hp, Hp'.
    destruct (Ascii.eqb c a); [discriminate|].
    destruct (IH p' Hp Hp' H) as [-> ->]. now split.
Qed.

Lemma mem_char_after c t x : mem_char c (t +:+ String c x) = true.
Proof.
  induction t as [|a t IH].
  - change (mem_char c (String c x) = true). cbn [mem_char]. now rewrite Ascii.eqb_refl.
  - change (mem_char c (String a (t +:+ String c x)) = true). cbn [mem_char].
    now destruct (Ascii.eqb c a).
Qed.

Lemma name_without_round p t suffix :
  get_remote_task_name (PStr p) (PStr t) suffix PNone
  = p +:+ String "-" (String "-" (t +:+ "." +:+ suffix)).
Proof. reflexivity. Qed.

Lemma name_with_round p t r suffix :
  r <> "" ->
  get_remote_task_name (PStr p) (PStr t) suffix (PStr r)
  = p +:+ String "-" (String "-" (t +:+ String "-" (String "-" (r +:+ "." +:+ suffix)))).
Proof.
  intros Hr. unfold get_remote_task_name. cbn [truthy].
  apply String.eqb_neq in Hr. rewrite Hr. reflexivity.
Qed.

(** X16.  Names in the data store tell tasks apart.  When the project and
    task ids contain no hyphen, two names for the same suffix are equal only
    if the project, the task and the round are: a round and no round never
    meet, and an empty round counts as none. *)
Theorem remote_task_name_injective (p t p' t' suffix : string) (round round' : option string) :
  free_of "-" p -> free_of "-" p' -> free_of "-" t -> free_of "-" t' ->
  round <> Some "" -> round' <> Some "" ->
  get_remote_task_name (PStr p) (PStr t) suffix (round_argument round)
  = get_remote_task_name (PStr p') (PStr t') suffix (round_argument round') ->
  p = p' /\ t = t' /\ round = round'.
Proof.
  intros Hp Hp' Ht Ht' Hround Hround' H.
  destruct round as [r|], round' as [r'|]; cbn [round_argument] in H.
  - rewrite !name_with_round in H by congruence.
    apply split_at_first in H as [-> H]; [|assumption..].
    injection H as H.
    apply split_at_first in H as [-> H]; [|assumption..].
    injection H as H. apply append_cancel_r in H. now subst.
  - exfalso. rewrite name_with_round, name_without_round in H by congruence.
    apply split_at_first in H as [-> H]; [|assumption..].
    injection H as H.
    change ((t +:+ (String "-" (String "-" r) +:+ ("." +:+ suffix)))
            = t' +:+ ("." +:+ suffix)) in H.
    rewrite <- append_assoc in H.
    apply append_cancel_r in H. unfold free_of in Ht'. rewrite <- H in Ht'.
    now rewrite mem_char_after in Ht'.
  - exfalso. rewrite name_with_round, name_without_round in H by congruence.
    apply split_at_first in H as [-> H]; [|assumption..].
    injection H as H. symmetry in H.
    change ((t' +:+ (String "-" (String "-" r') +:+ ("." +:+ suffix)))
            = t +:+ ("." +:+ suffix)) in H.
    rewrite <- append_assoc in H.
    apply append_cancel_r in H. unfold free_of in Ht. rewrite <- H in Ht.
    now rewrite mem_char_after in Ht.
  - rewrite !name_without_round in H.
    apply split_at_first in H as [-> H]; [|assumption..].
    injection H as H. apply append_cancel_r in H. now subst.
Qed.

Lemma remote_task_name_injective_witness :
  "p1" = "p1" /\ "t1" = "t1" /\ Some "2" = Some "2".
Proof.
  apply (remote_task_name_injective "p1" "t1" "p1" "t1" "gz" (Some "2") (Some "2"));
    solve [reflexivity | discriminate].
Defined.

(** ** Access keys *)

(** X17.  A key set in the environment wins: [get_access_key] returns it
    without asking the secret manager for anything. *)
Theorem access_key_prefers_environment os gs (key_type value : string) (w : World) :
  In key_type ["primary"; "secondary"] ->
  os_getenv os (access_key_name key_type) = Some value ->
  value <> "" ->
  get_access_key os gs key_type w = (Ok value, w).
Proof.
  intros Htype Henv Hvalue. apply String.eqb_neq in Hvalue.
  unfold get_access_key. apply in_list_In in Htype. rewrite Htype. cbn [negb].
  unfold getenv_or_secret. rewrite Henv, Hvalue.
  unfold bind, ret. rewrite Hvalue. reflexivity.
Qed.

Lemma access_key_prefers_environment_witness :
  get_access_key DemoTasks.os (get_secret Demo.env Demo.narcon 3) "primary" empty_world
  = (Ok "ENV-KEY", empty_world).
Proof.
  apply (access_key_prefers_environment DemoTasks.os);
    [left; reflexivity | reflexivity | discriminate].
Defined.

(** X18.  [get_access_key] never hands out an empty key, and hands out a
    key for the two known kinds only: an empty secret behind an unset
    variable raises instead. *)
Theorem access_key_never_empty os gs (key_type key : string) (w w' : World) :
  get_access_key os gs key_type w = (Ok key, w') ->
  key <> "" /\ In key_type ["primary"; "secondary"].
Proof.
  unfold get_access_key. intros H.
  destruct (in_list key_type ["primary"; "secondary"]) eqn:Htype; [|discriminate].
  cbn [negb] in H. apply bind_ok_inv in H as (k & w1 & _ & H).
  destruct (String.eqb k "") eqn:Hk; [discriminate|].
  cbn [negb] in H. unfold ret in H. injection H as <- _.
  split; [now apply String.eqb_neq | now apply in_list_In].
Qed.

Lemma access_key_never_empty_witness :
  "ENV-KEY" <> "" /\ In "primary" ["primary"; "secondary"].
Proof.
  apply (access_key_never_empty DemoTasks.os (get_secret Demo.env Demo.narcon 3) "primary"
           "ENV-KEY" empty_world empty_world).
  reflexivity.
Defined.

(** ** Storing and loading *)


(** The store says no: [load_task] hands back the error for the full path. *)
Lemma load_task_missing env os self (remote_path : string) (add_prefix : bool)
      found (w w1 : World) :
  let r_path := if add_prefix then create_remote_path remote_path else remote_path in
  fs_method env self "exists" [PStr r_path] w = (Ok found, w1) ->
  truthy found = false ->
  load_task env os self remote_path add_prefix w
  = (Ok (Failure (FileNotFoundError ("FILE NOT FOUND: " +:+ r_path))), w1).
Proof.
  intros r_path Hexists Hfound. unfold load_task, try_except. fold r_path.
  rewrite (bind_ok _ _ _ _ _ Hexists), Hfound. reflexivity.
Qed.

(** X20.  When the store says the file is not there, [load_task] answers
    with a [FileNotFoundError] for the full remote path, as a value, and does
    not try to download: the world is the one the [exists] call left. *)
Theorem load_task_file_missing env os self (remote_path : string) (add_prefix : bool)
        found (w w1 : World) :
  let r_path := if add_prefix then create_remote_path remote_path else remote_path in
  fs_method env self "exists" [PStr r_path] w = (Ok found, w1) ->
  truthy found = false ->
  load_task env os self remote_path add_prefix w
  = (Ok (Failure (FileNotFoundError ("FILE NOT FOUND: " +:+ r_path))), w1).
Proof.
  intros r_path Hexists Hfound. unfold load_task. fold r_path.
  unfold try_except, bind. rewrite Hexists, Hfound. reflexivity.
Qed.

Lemma load_task_file_missing_witness :
  load_task DemoTasks.env DemoTasks.os DemoTasks.connector "project-7--task-9.gz" true
    empty_world
  = (Ok (Failure (FileNotFoundError
                    "FILE NOT FOUND: sama-narwhal-data-store/project-7--task-9.gz")),
     with_trace [EvFsCall DemoTasks.empty_store "exists"
                   [PStr "sama-narwhal-data-store/project-7--task-9.gz"] []] empty_world).
Proof.
  eapply (load_task_file_missing DemoTasks.env DemoTasks.os DemoTasks.connector
            "project-7--task-9.gz" true); reflexivity.
Defined.

(** ** Fetching a task *)

(** X21.  Without delivery, a task that is not in the data store makes
    [get_task] raise [FileNotFoundError] for the path built from the project,
    the task and the round, under the data-store prefix; ids given as
    arguments win over the connector's. *)
Theorem get_task_missing_file env os self gs (project_id task_id task_round access_key : pyval)
        found (w w1 : World) :
  let pid := py_or project_id (Connector.project_id self) in
  let tid := py_or task_id (Connector.task_id self) in
  let r_path := create_remote_path (get_remote_task_name pid tid "gz" task_round) in
  truthy pid = true -> truthy tid = true ->
  fs_method env self "exists" [PStr r_path] w = (Ok found, w1) ->
  truthy found = false ->
  get_task env os self gs project_id task_id task_round access_key false w
  = (Raise (FileNotFoundError ("FILE NOT FOUND: " +:+ r_path)), w1).
Proof.
  intros pid tid r_path Hpid Htid Hexists Hfound.
  unfold get_task. fold pid tid. rewrite Hpid, Htid. cbn [andb].
  rewrite (bind_ok _ _ _ _ _
             (load_task_missing env os self _ true found w w1 Hexists Hfound)).
  reflexivity.
Qed.

Lemma get_task_missing_file_witness :
  get_task DemoTasks.env DemoTasks.os DemoTasks.connector
    (get_secret Demo.env Demo.narcon 3) PNone (PStr "task-12") (PStr "2") PNone false
    empty_world
  = (Raise (FileNotFoundError
              "FILE NOT FOUND: sama-narwhal-data-store/project-7--task-12--2.gz"),
     with_trace [EvFsCall DemoTasks.empty_store "exists"
                   [PStr "sama-narwhal-data-store/project-7--task-12--2.gz"] []] empty_world).
Proof.
  eapply (get_task_missing_file DemoTasks.env DemoTasks.os DemoTasks.connector
            (get_secret Demo.env Demo.narcon 3) PNone (PStr "task-12") (PStr "2") PNone);
    reflexivity.
Defined.

(** X22.  [retrieve_task_sama_api] raises in one case only: the API
    answered, with a status outside 200..299, and the body of that answer is
    not a JSON object.  Every other failure, a request that could not be made
    included, comes back as a text. *)
Theorem retrieve_task_raises_only_on_unreadable_error env (project_id task_id access_key : pyval)
        (w : World) :
  (exists e w', retrieve_task_sama_api env project_id task_id access_key w = (Raise e, w'))
  <-> (exists response,
          env_http env (trace w) (task_request project_id task_id access_key) = Ok response
          /\ is_ok (raise_for_status response) = false
          /\ forall d, body response <> Some (PDict d)).
Proof.
  unfold retrieve_task_sama_api, httpx_get, call, json, get_default, get.
  destruct (env_http env (trace w) (task_request project_id task_id access_key))
    as [response|e0]; split.
  - intros (e & w' & H). exists response.
    destruct (raise_for_status response) as [[]|e1].
    + destruct (body response) as [[]|]; discriminate.
    + split; [reflexivity|]. split; [reflexivity|].
      intros d Hd. rewrite Hd in H. discriminate.
  - intros (response' & Heq & Hstatus & Hbody). injection Heq as <-.
    destruct (raise_for_status response) as [[]|e1]; [discriminate|].
    destruct (body response) as [v|]; [|eexists _, _; reflexivity].
    destruct v; try (eexists _, _; reflexivity).
    exfalso. eapply Hbody. reflexivity.
  - intros (e & w' & H). discriminate.
  - intros (response & Heq & _). discriminate.
Qed.

(** X23.  With delivery, a task that cannot be loaded is asked from the
    API with the access key given; when the API refuses with a JSON object,
    [get_task] does not raise: it returns the text made of the status code and
    the object's [message], or of [No message provided]. *)
Theorem get_task_delivery_returns_error_text env os self gs
        (project_id task_id task_round access_key : pyval) e response d (w w1 : World) :
  let pid := py_or project_id (Connector.project_id self) in
  let tid := py_or task_id (Connector.task_id self) in
  let rq := task_request pid tid access_key in
  truthy pid = true -> truthy tid = true -> truthy access_key = true ->
  load_task env os self (get_remote_task_name pid tid "gz" task_round) true w
  = (Ok (Failure e), w1) ->
  env_http env (trace w1) rq = Ok response ->
  is_ok (raise_for_status response) = false ->
  body response = Some (PDict d) ->
  get_task env os self gs project_id task_id task_round access_key true w
  = (Ok (Text (RetrievalFailed (status_code response)
                 (match assoc "message" d with
                  | Some m => m
                  | None => PStr "No message provided"
                  end))),
     with_trace (trace w1 ++ [EvHttp rq]) w1).
Proof.
  intros pid tid rq Hpid Htid Hkey Hload Hhttp Hstatus Hbody.
  unfold get_task. fold pid tid. rewrite Hpid, Htid. cbn [andb].
  rewrite (bind_ok _ _ _ _ _ Hload), Hkey.
  unfold bind at 1, ret at 1.
  unfold retrieve_task_sama_api, httpx_get, call. fold rq. rewrite Hhttp.
  destruct (raise_for_status response) as [[]|e1]; [discriminate|].
  unfold json. rewrite Hbody. reflexivity.
Qed.

Lemma get_task_delivery_witness :
  get_task DemoTasks.env DemoTasks.os DemoTasks.connector
    (get_secret Demo.env Demo.narcon 3) PNone PNone PNone (PStr "KEY") true empty_world
  = (Ok (Text (RetrievalFailed 404 (PStr "Task not found"))),
     with_trace [EvFsCall DemoTasks.empty_store "exists"
                   [PStr "sama-narwhal-data-store/project-7--task-9.gz"] [];
                 EvHttp (task_request (PStr "project-7") (PStr "task-9") (PStr "KEY"))]
       empty_world).
Proof.
  exact (get_task_delivery_returns_error_text DemoTasks.env DemoTasks.os DemoTasks.connector
           (get_secret Demo.env Demo.narcon 3) PNone PNone PNone (PStr "KEY")
           (FileNotFoundError "FILE NOT FOUND: sama-narwhal-data-store/project-7--task-9.gz")
           {| status_code := 404; body := Some (PDict [("message", PStr "Task not found")]) |}
           [("message", PStr "Task not found")]
           empty_world
           (with_trace [EvFsCall DemoTasks.empty_store "exists"
                          [PStr "sama-narwhal-data-store/project-7--task-9.gz"] []] empty_world)
           eq_refl eq_refl eq_refl eq_refl eq_refl eq_refl eq_refl).
Defined.

(** ** Sending a post-processed task *)

(** X24.  When the backend answers the PUT with a status outside 200..299,
    [send_dpp] does not raise the exception it builds for that case: the
    handler reads a local name that has no value there, and what the caller
    gets is [UnboundLocalError] for [e], after the request has gone out. *)
Theorem send_dpp_status_error_is_masked env os self gs (task project_id task_id : pyval)
        task_data (base_url key : string) response (w w1 w2 : World) :
  let pid := py_or project_id (Connector.project_id self) in
  let tid := py_or task_id (Connector.task_id self) in
  let rq := dpp_request (dpp_endpoint base_url pid tid) key task_data in
  os_validate_dpp os task = Ok task_data ->
  getenv_or_secret os gs "KIKI_BASE_URL_PROD" w = (Ok base_url, w1) ->
  base_url <> "" ->
  getenv_or_secret os gs "DPP_KEY_PROD" w1 = (Ok key, w2) ->
  key <> "" ->
  env_http env (trace w2) rq = Ok response ->
  is_ok (raise_for_status response) = false ->
  send_dpp env os self gs task project_id task_id w
  = (Raise (UnboundLocalError "e"), with_trace (trace w2 ++ [EvHttp rq]) w2).
Proof.
  intros pid tid rq Hvalid Hbase Hbase_set Hkey Hkey_set Hhttp Hstatus.
  apply String.eqb_neq in Hbase_set, Hkey_set.
  unfold send_dpp. fold pid tid.
  rewrite (bind_ok _ _ _ _ _ (lift_ok _ _ _ Hvalid)).
  rewrite (bind_ok _ _ _ _ _ Hbase), Hbase_set. cbn [negb].
  rewrite (bind_ok _ _ _ _ _ Hkey), Hkey_set. cbn [negb].
  unfold try_except, bind, httpx_put, call, lift. fold rq. rewrite Hhttp.
  destruct (raise_for_status response) as [[]|e1] eqn:Hraise; [discriminate|].
  unfold raise_for_status in Hraise.
  destruct ((200 <=? status_code response) && (status_code response <=? 299));
    [discriminate|].
  injection Hraise as <-. reflexivity.
Qed.

Lemma send_dpp_status_error_witness :
  send_dpp DemoTasks.env DemoTasks.os DemoTasks.connector (get_secret Demo.env Demo.narcon 3)
    (PDict [("answers", PList [])]) PNone PNone empty_world
  = (Raise (UnboundLocalError "e"),
     with_trace
       [EvSecret PNone (secret_version_path GCP_PROJECT_ID "KIKI_BASE_URL_PROD" "latest");
        EvSecret PNone (secret_version_path GCP_PROJECT_ID "DPP_KEY_PROD" "latest");
        EvHttp (dpp_request
                  (dpp_endpoint "secret" (PStr "project-7") (PStr "task-9"))
                  "secret" (PDict [("answers", PList [])]))]
       empty_world).
Proof.
  exact (send_dpp_status_error_is_masked DemoTasks.env DemoTasks.os DemoTasks.connector
           (get_secret Demo.env Demo.narcon 3) (PDict [("answers", PList [])]) PNone PNone
           (PDict [("answers", PList [])]) "secret" "secret"
           {| status_code := 404; body := Some (PDict [("message", PStr "Task not found")]) |}
           empty_world
           (with_trace
              [EvSecret PNone (secret_version_path GCP_PROJECT_ID "KIKI_BASE_URL_PROD" "latest")]
              empty_world)
           (with_trace
              [EvSecret PNone (secret_version_path GCP_PROJECT_ID "KIKI_BASE_URL_PROD" "latest");
               EvSecret PNone (secret_version_path GCP_PROJECT_ID "DPP_KEY_PROD" "latest")]
              empty_world)
           eq_refl eq_refl ltac:(discriminate) eq_refl ltac:(discriminate) eq_refl eq_refl).
Defined.

(** X25.  When the base URL comes back empty from the environment and from
    the secret manager, [send_dpp] never gets to the [KeyError] that would
    name [KIKI_BASE_URL_PROD]: the key was not read, the check of it fails,
    and the caller gets [UnboundLocalError] for [key].  Nothing is sent. *)
Theorem send_dpp_empty_base_url env os self gs (task project_id task_id : pyval) task_data
        (w w1 : World) :
  os_validate_dpp os task = Ok task_data ->
  getenv_or_secret os gs "KIKI_BASE_URL_PROD" w = (Ok "", w1) ->
  send_dpp env os self gs task project_id task_id w = (Raise (UnboundLocalError "key"), w1).
Proof.
  intros Hvalid Hbase. unfold send_dpp.
  rewrite (bind_ok _ _ _ _ _ (lift_ok _ _ _ Hvalid)).
  rewrite (bind_ok _ _ _ _ _ Hbase). reflexivity.
Qed.

Lemma send_dpp_empty_base_url_witness :
  send_dpp DemoTasks.env DemoTasks.os DemoTasks.connector (fun _ _ => ret "")
    (PDict [("answers", PList [])]) PNone PNone empty_world
  = (Raise (UnboundLocalError "key"), empty_world).
Proof.
  apply (send_dpp_empty_base_url DemoTasks.env DemoTasks.os DemoTasks.connector
           (fun _ _ => ret "") (PDict [("answers", PList [])]) PNone PNone
           (PDict [("answers", PList [])]));
    reflexivity.
Defined.

(** X26.  With a base URL and an empty key, [send_dpp] raises the
    [KeyError] that names [DPP_KEY_PROD], and nothing is sent. *)
Theorem send_dpp_empty_key env os self gs (task project_id task_id : pyval) task_data
        (base_url : string) (w w1 w2 : World) :
  os_validate_dpp os task = Ok task_data ->
  getenv_or_secret os gs "KIKI_BASE_URL_PROD" w = (Ok base_url, w1) ->
  base_url <> "" ->
  getenv_or_secret os gs "DPP_KEY_PROD" w1 = (Ok "", w2) ->
  send_dpp env os self gs task project_id task_id w
  = (Raise (KeyError "MISSING REQUIRED VALUES: DPP_KEY_PROD"), w2).
Proof.
  intros Hvalid Hbase Hbase_set Hkey. apply String.eqb_neq in Hbase_set.
  unfold send_dpp.
  rewrite (bind_ok _ _ _ _ _ (lift_ok _ _ _ Hvalid)).
  rewrite (bind_ok _ _ _ _ _ Hbase), Hbase_set. cbn [negb].
  rewrite (bind_ok _ _ _ _ _ Hkey). reflexivity.
Qed.

Lemma send_dpp_empty_key_witness :
  let gs := fun (name version : string) =>
              ret (if String.eqb name "KIKI_BASE_URL_PROD" then "https://kiki.example/"
                   else "") in
  send_dpp DemoTasks.env DemoTasks.os DemoTasks.connector gs
    (PDict [("answers", PList [])]) PNone PNone empty_world
  = (Raise (KeyError "MISSING REQUIRED VALUES: DPP_KEY_PROD"), empty_world).
Proof.
  intros gs.
  apply (send_dpp_empty_key DemoTasks.env DemoTasks.os DemoTasks.connector gs
           (PDict [("answers", PList [])]) PNone PNone (PDict [("answers", PList [])])
           "https://kiki.example/" empty_world empty_world empty_world);
    [reflexivity | reflexivity | discriminate | reflexivity].
Defined.

(** ** Setting a connector up from the descriptor *)

Lemma nar_setup_runs env os narcon depth meta infra_type cv (w : World) :
  os_exists os SETUP_PATH = true ->
  Narcon.cred_info narcon = None ->
  os_read_json os SETUP_PATH = Ok meta ->
  get meta "infra_type" = Ok infra_type -> truthy infra_type = true ->
  get meta "cloud" = Ok cv -> truthy cv = true ->
  let r := length (creds w) in
  let narcon' := set_up narcon infra_type r in
  let w0 := with_creds (creds w ++ [setup_record (setup_audience infra_type cv)]) w in
  nar_setup env os narcon depth w
  = match generate_access_token env narcon' (get_secret env narcon' depth) (Some r) w0 with
    | (Ok _, w') => (Ok narcon', w')
    | (Raise e, w') => (Raise e, w')
    end.
Proof.
  intros Hexists Hcred Hread Hinfra Hinfra_set Hcloud Hcloud_set r narcon' w0.
  unfold nar_setup. rewrite Hexists, Hcred. cbn [andb].
  rewrite (bind_ok _ _ _ _ _ (lift_ok _ _ _ Hread)).
  rewrite (bind_ok _ _ _ _ _ (lift_ok _ _ _ Hinfra)), Hinfra_set.
  rewrite (bind_ok _ _ _ _ _ (lift_ok _ _ _ Hcloud)), Hcloud_set.
  reflexivity.
Qed.



(** X28.  A descriptor that lacks the infrastructure type or the cloud, or
    has an empty value for one, makes [nar_setup] raise before anything is
    created or asked: the store and the trace are as they were. *)
Theorem nar_setup_incomplete_descriptor env os narcon depth meta infra_type cv (w : World) :
  os_exists os SETUP_PATH = true ->
  Narcon.cred_info narcon = None ->
  os_read_json os SETUP_PATH = Ok meta ->
  get meta "infra_type" = Ok infra_type ->
  get meta "cloud" = Ok cv ->
  truthy infra_type && truthy cv = false ->
  nar_setup env os narcon depth w
  = (Raise (Exception_ "INFRA_TYPE OR CLOUD NOT FOUND IN SETUP FILE!"), w).
Proof.
  intros Hexists Hcred Hread Hinfra Hcloud Hempty.
  unfold nar_setup. rewrite Hexists, Hcred. cbn [andb].
  rewrite (bind_ok _ _ _ _ _ (lift_ok _ _ _ Hread)).
  rewrite (bind_ok _ _ _ _ _ (lift_ok _ _ _ Hinfra)).
  destruct (truthy infra_type); [|reflexivity].
  rewrite (bind_ok _ _ _ _ _ (lift_ok _ _ _ Hcloud)).
  destruct (truthy cv); [discriminate | reflexivity].
Qed.

Lemma nar_setup_incomplete_descriptor_witness :
  let os := {| os_getenv := os_getenv DemoTasks.os;
               os_exists := os_exists DemoTasks.os;
               os_read_json := fun _ => Ok (PDict [("infra_type", PStr "narwhal")]);
               os_tempfile := os_tempfile DemoTasks.os;
               os_read_gz_json := os_read_gz_json DemoTasks.os;
               os_write_gz_json := os_write_gz_json DemoTasks.os;
               os_validate_dpp := os_validate_dpp DemoTasks.os |} in
  nar_setup Demo.env os Demo.narcon 3 empty_world
  = (Raise (Exception_ "INFRA_TYPE OR CLOUD NOT FOUND IN SETUP FILE!"), empty_world).
Proof.
  intros os.
  apply (nar_setup_incomplete_descriptor Demo.env os Demo.narcon 3
           (PDict [("infra_type", PStr "narwhal")]) (PStr "narwhal") PNone empty_world);
    reflexivity.
Defined.

(** ** The Azure client *)

(** X29.  The Azure client gets the account name and the token credential
    only as a pair, and the tenant id, client id and client secret only as
    a triple: a record that lacks one of a group passes none of that group,
    and the two groups do not exclude each other. *)
Theorem azure_client_parameters env (cs r : ref) s a (w : World) :
  storages w !! cs = Some s ->
  CloudStorage.cloud_vendor s = "azure" ->
  CloudStorage.fs s = None ->
  CloudStorage.cred_info s = Some r ->
  creds w !! r = Some (AZ a) ->
  env_import env "adlfs" = true ->
  (forall h, env_fs_new env (trace w) h = None) ->
  let account := match AZCredInfo.credential a with
                 | Some cr => if truthy (AZCredInfo.account_name a) then Some cr else None
                 | None => None
                 end in
  let triple := truthy (AZCredInfo.tenant_id a) && truthy (AZCredInfo.client_id a)
                && truthy (AZCredInfo.client_secret a) in
  exists h w',
    get_fs env cs w = (Ok (Some h), w')
    /\ Handle.cls h = AzureBlobFileSystem
    /\ keyword "account_name" h
       = match account with Some _ => Some (ParVal (AZCredInfo.account_name a)) | None => None end
    /\ keyword "credential" h
       = match account with Some cr => Some (ParCred cr) | None => None end
    /\ keyword "tenant_id" h
       = (if triple then Some (ParVal (AZCredInfo.tenant_id a)) else None)
    /\ keyword "client_id" h
       = (if triple then Some (ParVal (AZCredInfo.client_id a)) else None)
    /\ keyword "client_secret" h
       = (if triple then Some (ParVal (AZCredInfo.client_secret a)) else None)
    /\ trace w' = trace w ++ [EvFsNew h].
Proof.
  intros Hs Hv Hfs Hc Hr Himport Hnew account triple.
  eexists _, _. split.
  - eapply (get_fs_first_use env cs s w AzureBlobFileSystem); try eassumption.
    + unfold set_fs. rewrite (bind_ok _ _ _ _ _ (read_storage_ok _ _ _ Hs)), Hv.
      cbn [String.eqb Ascii.eqb Bool.eqb]. reflexivity.
    + rewrite Hv. exact Himport.
    + rewrite (bind_ok _ _ _ _ _ (read_storage_ok _ _ _ Hs)).
      unfold cred_object. rewrite Hc.
      unfold bind at 1. unfold bind at 1. unfold read_cred. rewrite Hr. unfold ret at 1.
      reflexivity.
    + apply Hnew.
  - subst account triple. unfold keyword.
    cbn [Handle.cls Handle.params trace with_storages with_trace].
    destruct (AZCredInfo.credential a) as [cr|], (truthy (AZCredInfo.account_name a)),
      (truthy (AZCredInfo.tenant_id a)), (truthy (AZCredInfo.client_id a)),
      (truthy (AZCredInfo.client_secret a)); repeat split; reflexivity.
Qed.

Lemma azure_client_parameters_witness :
  let cr := {| AZTokenCredential.access_token :=
                 {| AccessToken.token := "AZ-TOKEN"; AccessToken.expires_on := 1709254800 |} |} in
  let a := {| AZCredInfo.account_name := PStr "account-1";
              AZCredInfo.tenant_id := PStr "tenant-1";
              AZCredInfo.client_id := PStr "client-1";
              AZCredInfo.client_secret := PNone;
              AZCredInfo.credential := Some cr |} in
  let s := CloudStorage.set_cred_info (Some 0%nat) (CloudStorage_init "azure" no_kwargs) in
  let w := {| creds := [AZ a]; storages := [s]; trace := [] |} in
  exists h w',
    get_fs Demo.env 0%nat w = (Ok (Some h), w')
    /\ Handle.cls h = AzureBlobFileSystem
    /\ keyword "account_name" h = Some (ParVal (PStr "account-1"))
    /\ keyword "credential" h = Some (ParCred cr)
    /\ keyword "tenant_id" h = None
    /\ keyword "client_id" h = None
    /\ keyword "client_secret" h = None
    /\ trace w' = [EvFsNew h].
Proof.
  intros cr a s w.
  exact (azure_client_parameters Demo.env 0%nat 0%nat s a w eq_refl eq_refl eq_refl eq_refl
           eq_refl eq_refl (fun _ => eq_refl)).
Defined.

(** ** Storage on AWS *)

(** On AWS outside the narwhal infrastructure [remote_storage] creates the
    [CloudStorage] and an empty [AWSCredInfo] for it, and asks nothing. *)
Lemma remote_storage_aws_plain env self gs (client_id az_acc_name : pyval) (w : World) :
  eq_str (Narcon.infra_type self) "narwhal" = false ->
  let s := CloudStorage.set_cred_info (Some (length (creds w)))
             (CloudStorage_init "aws" no_kwargs) in
  remote_storage env self gs "aws" client_id az_acc_name w
  = (Ok (Some (length (storages w))),
     {| creds := creds w ++ [AWS AWSCredInfo.default];
        storages := storages w ++ [s];
        trace := trace w |}).
Proof.
  intros Hinfra s. unfold remote_storage. cbn [String.eqb Ascii.eqb Bool.eqb].
  rewrite Hinfra.
  unfold attach_cred, bind, new_storage, new_cred, read_storage, write_storage, ret.
  cbn [storages creds trace with_storages with_creds].
  rewrite list_lookup_middle by reflexivity.
  unfold with_storages, with_creds. cbn [storages creds trace].
  rewrite insert_app_r_alt by reflexivity. rewrite Nat.sub_diag. reflexivity.
Qed.

(** X30.  On AWS, with an infrastructure type other than [narwhal],
    [get_storage] reads no secret and sends nothing, whatever client id and
    account name it is given: all it does outside is build the S3 client,
    with no key, secret or profile, so that the client finds the credentials
    itself.  The client comes back as it is, not behind a proxy. *)
Theorem aws_storage_outside_narwhal env self gs (client_id az_acc_name : pyval)
        (set_self : bool) (w : World) :
  eq_str (Narcon.infra_type self) "narwhal" = false ->
  env_import env "s3fs" = true ->
  (forall h, env_fs_new env (trace w) h = None) ->
  let h := {| Handle.cls := S3FileSystem;
              Handle.params := [("asynchronous", ParVal (PBool false));
                                ("anon", ParVal (PBool false))] |} in
  exists w',
    get_storage env self gs (Some "aws") client_id set_self az_acc_name w
    = (Ok (set_self, length (storages w), Direct (Some h)), w')
    /\ trace w' = trace w ++ [EvFsNew h]
    /\ creds w' = creds w ++ [AWS AWSCredInfo.default].
Proof.
  intros Hinfra Himport Hnew h.
  set (s := CloudStorage.set_cred_info (Some (length (creds w)))
              (CloudStorage_init "aws" no_kwargs)).
  set (w1 := {| creds := creds w ++ [AWS AWSCredInfo.default];
                storages := storages w ++ [s];
                trace := trace w |}).
  assert (Hs : storages w1 !! length (storages w) = Some s)
    by (apply list_lookup_middle; reflexivity).
  assert (Hr : creds w1 !! (length (creds w) : ref) = Some (AWS AWSCredInfo.default))
    by (apply list_lookup_middle; reflexivity).
  assert (Hfs : get_fs env (length (storages w)) w1
                = (Ok (Some h),
                   with_storages
                     (<[length (storages w) := CloudStorage.set_fs_field (Some h) s]>
                        (storages w1))
                     (with_trace (trace w1 ++ [EvFsNew h]) w1))).
  { eapply (get_fs_first_use env (length (storages w)) s w1 S3FileSystem).
    - exact Hs.
    - reflexivity.
    - unfold set_fs. rewrite (bind_ok _ _ _ _ _ (read_storage_ok _ _ _ Hs)). reflexivity.
    - exact Himport.
    - rewrite (bind_ok _ _ _ _ _ (read_storage_ok _ _ _ Hs)).
      unfold cred_object.
      change (CloudStorage.cred_info s) with (Some (length (creds w))). cbv beta iota.
      unfold bind at 1. unfold bind at 1. unfold read_cred. rewrite Hr. unfold ret at 1.
      reflexivity.
    - apply Hnew. }
  eexists. split; [|split].
  - unfold get_storage. cbn [String.eqb].
    rewrite (bind_ok _ _ _ _ _
               (remote_storage_aws_plain env self gs client_id az_acc_name w Hinfra)).
    fold s. fold w1. change (in_list "aws" ["gcp"; "azure"]) with false. cbv iota.
    rewrite (bind_ok _ _ _ _ _ (bind_ok _ _ _ _ _ Hfs)). reflexivity.
  - reflexivity.
  - reflexivity.
Qed.

Lemma aws_storage_outside_narwhal_witness :
  let h := {| Handle.cls := S3FileSystem;
              Handle.params := [("asynchronous", ParVal (PBool false));
                                ("anon", ParVal (PBool false))] |} in
  exists w',
    get_storage Demo.env Demo.narcon (get_secret Demo.env Demo.narcon 3) (Some "aws")
      (PStr "client-1") true (PStr "account-1") empty_world
    = (Ok (true, 0%nat, Direct (Some h)), w')
    /\ trace w' = [EvFsNew h]
    /\ creds w' = [AWS AWSCredInfo.default].
Proof.
  intros h.
  exact (aws_storage_outside_narwhal Demo.env Demo.narcon (get_secret Demo.env Demo.narcon 3)
           (PStr "client-1") (PStr "account-1") true empty_world
           eq_refl eq_refl (fun _ => eq_refl)).
Defined.
